(** * Price checker: extraction cascade, match scorer, consolidator

    A shallow embedding of the core of [price-checker-api.py]:
    [normalize_product_name], [calculate_product_match_score],
    [is_multipack], [extract_products_from_html], [consolidate_prices]
    and the response assembly of [api_price_check]; then the functions
    around them: [extract_price_from_text], [extract_price_for_store],
    [get_store_specific_patterns], the scrapers [scrape_amazon_mexico],
    [scrape_store_universal] and [scrape_product_url],
    [search_google_for_prices] with [identify_store_from_domain], and the
    parts of [search_prices_oxylabs] that decide what is scraped and what
    is returned.

    Modelling conventions.
    - A Python [str] is a Rocq [string]; a character is its code point, and
      the model covers the code points 0..255 (Latin-1), which contain every
      character the source's patterns mention.
    - A Python [float] is an exact rational in canonical form ([Qc]):
      comparison and equality are those of the numbers.  Rounding and the
      non-finite values are outside the model; [float] of an integer too
      large for a float raises [OverflowError].
    - A Python [dict] is an association list in insertion order; assigning to
      a key that is present keeps its position.
    - An exception is a value of [exn]; a computation that may raise returns
      [res]. *)

From Stdlib Require Import Bool Arith ZArith NArith QArith Qcanon Lia.
From Stdlib Require Import Ascii String List Permutation Sorted.
Import ListNotations.

Local Close Scope Qc_scope.
Local Close Scope Q_scope.
Local Open Scope nat_scope.
Local Open Scope string_scope.
Local Open Scope list_scope.

(* ================================================================= *)
(** ** Text: characters and the [str] methods the source uses *)

Module Text.

Definition code (c : ascii) : N := N_of_ascii c.

Definition in_range (lo hi : N) (c : ascii) : bool :=
  (N.leb lo (code c) && N.leb (code c) hi)%bool.

Definition is_code (n : N) (c : ascii) : bool := N.eqb (code c) n.

(** [\d]: the decimal digits. *)
Definition is_digit (c : ascii) : bool := in_range 48 57 c.

(** [\s] and [str.isspace]: tab..carriage return, the separators 28..31,
    space, NEL and the no-break space. *)
Definition is_space (c : ascii) : bool :=
  in_range 9 13 c || in_range 28 32 c || is_code 133 c || is_code 160 c.

(** [\w]: alphanumeric characters and the underscore. *)
Definition is_word (c : ascii) : bool :=
  is_digit c || in_range 65 90 c || in_range 97 122 c || is_code 95 c
  || is_code 170 c || is_code 178 c || is_code 179 c || is_code 181 c
  || is_code 185 c || is_code 186 c || in_range 188 190 c
  || in_range 192 214 c || in_range 216 246 c || in_range 248 255 c.

(** One character of [str.lower]. *)
Definition lower_char (c : ascii) : ascii :=
  if in_range 65 90 c || (in_range 192 222 c && negb (is_code 215 c))
  then ascii_of_N (code c + 32) else c.

(** The upper-case partner of a character, where it has one in range. *)
Definition upper_char (c : ascii) : ascii :=
  if in_range 97 122 c || (in_range 224 254 c && negb (is_code 247 c))
  then ascii_of_N (code c - 32) else c.

Definition chars (s : string) : list ascii := list_ascii_of_string s.
Definition str (l : list ascii) : string := string_of_list_ascii l.

(** [s.lower()] *)
Definition lower (s : string) : string := str (map lower_char (chars s)).

Fixpoint lstrip (l : list ascii) : list ascii :=
  match l with
  | c :: t => if is_space c then lstrip t else l
  | [] => []
  end.

(** [s.strip()] *)
Definition strip (s : string) : string :=
  str (rev (lstrip (rev (lstrip (chars s))))).

Fixpoint starts_with (p l : list ascii) : bool :=
  match p, l with
  | [], _ => true
  | a :: p', b :: l' => Ascii.eqb a b && starts_with p' l'
  | _ :: _, [] => false
  end.

Fixpoint contains_chars (p l : list ascii) : bool :=
  starts_with p l ||
  match l with
  | [] => false
  | _ :: t => contains_chars p t
  end.

(** [sub in s] *)
Definition contains (sub s : string) : bool :=
  contains_chars (chars sub) (chars s).

(** [s.replace(old, new)] for a non-empty [old]. *)
Fixpoint replace_chars (old new l : list ascii) (skip : nat) : list ascii :=
  match l with
  | [] => []
  | c :: t =>
      match skip with
      | S k => replace_chars old new t k
      | O => if starts_with old l
             then new ++ replace_chars old new t (length old - 1)
             else c :: replace_chars old new t 0
      end
  end.

Definition replace (old new s : string) : string :=
  str (replace_chars (chars old) (chars new) (chars s) 0).

End Text.

(* ================================================================= *)
(** ** Python values, exceptions and dictionaries *)

Inductive exn : Type :=
| JSONDecodeError | AttributeError | TypeError | ValueError
| KeyError | IndexError | OverflowError.

Inductive res (A : Type) : Type :=
| Ok (a : A)
| Raise (e : exn).
Arguments Ok {A} a.
Arguments Raise {A} e.

Definition bind {A B : Type} (m : res A) (f : A -> res B) : res B :=
  match m with
  | Ok a => f a
  | Raise e => Raise e
  end.

Notation "x <- m ;; k" := (bind m (fun x => k))
  (at level 61, m at next level, right associativity).

(** Comparison of floats. *)
Definition Qc_eqb (a b : Qc) : bool :=
  match (a ?= b)%Qc with Eq => true | _ => false end.

Definition Qc_ltb (a b : Qc) : bool :=
  match (a ?= b)%Qc with Lt => true | _ => false end.

Definition Qc_leb (a b : Qc) : bool :=
  match (a ?= b)%Qc with Gt => false | _ => true end.

Definition Qc_of_Z (z : Z) : Qc := Q2Qc (inject_Z z).

(** A dictionary with string keys, in insertion order. *)
Definition dict (V : Type) : Type := list (string * V).

Fixpoint dict_get {V : Type} (k : string) (d : dict V) : option V :=
  match d with
  | [] => None
  | (k', v) :: t => if String.eqb k k' then Some v else dict_get k t
  end.

(** [d[k] = v] *)
Fixpoint dict_set {V : Type} (k : string) (v : V) (d : dict V) : dict V :=
  match d with
  | [] => [(k, v)]
  | (k', v') :: t =>
      if String.eqb k k' then (k, v) :: t else (k', v') :: dict_set k v t
  end.

(** [d.values()] *)
Definition dict_values {V : Type} (d : dict V) : list V := map snd d.

Set Warnings "-register-all".

(** The values [json.loads] produces, which are also the values a price
    field can hold. *)
Inductive pyval : Type :=
| PNone
| PBool (b : bool)
| PInt (z : Z)
| PFloat (q : Qc)
| PStr (s : string)
| PList (l : list pyval)
| PDict (d : list (string * pyval)).

(** Truth value of an object ([if v], [not v], [a or b]). *)
Definition truthy (v : pyval) : bool :=
  match v with
  | PNone => false
  | PBool b => b
  | PInt z => negb (Z.eqb z 0)
  | PFloat q => negb (Qc_eqb q 0%Qc)
  | PStr s => negb (String.eqb s "")
  | PList l => match l with [] => false | _ => true end
  | PDict d => match d with [] => false | _ => true end
  end.

(** [a or b] *)
Definition py_or (a b : pyval) : pyval := if truthy a then a else b.

Definition is_dict (v : pyval) : bool :=
  match v with PDict _ => true | _ => false end.

(** [v.get(k, dflt)]: only a dict has the method. *)
Definition py_get (v : pyval) (k : string) (dflt : pyval) : res pyval :=
  match v with
  | PDict d => Ok (match dict_get k d with Some x => x | None => dflt end)
  | _ => Raise AttributeError
  end.

(** [k in v] for a string key and a dict [v]. *)
Definition dict_has (d : list (string * pyval)) (k : string) : bool :=
  match dict_get k d with Some _ => true | None => false end.

(* ================================================================= *)
(** ** Regular expressions: the fragment of [re] the source uses

    A backtracking matcher with the priorities of [re]: a greedy
    quantifier tries one more iteration first, a lazy one tries to stop
    first, an alternation tries its left branch first.  The first success
    in that order is the match. *)

Module Re.

Inductive regex : Type :=
| Eps
| Cls (p : ascii -> bool)                        (* one character of a class *)
| NCls (p : ascii -> bool)                       (* one character outside it *)
| Seq (r1 r2 : regex)
| Alt (r1 r2 : regex)
| Star (greedy : bool) (r : regex)               (* r* and r*? *)
| Rep (greedy : bool) (lo hi : nat) (r : regex)  (* r{lo,hi} and r{lo,hi}? *)
| Group (i : nat) (r : regex)                    (* the i-th capturing group *)
| WordB.                                         (* \b *)

Record mstate : Type := {
  prev : option ascii;                 (* the character before the position *)
  rest : list ascii;                   (* the text from the position on *)
  caps : list (nat * list ascii)       (* the groups captured so far *)
}.

(** Membership in a class; without regard to case, either case of the
    character may be the member. *)
Definition test (icase : bool) (p : ascii -> bool) (c : ascii) : bool :=
  p c || (icase && (p (Text.lower_char c) || p (Text.upper_char c))).

Definition word_opt (c : option ascii) : bool :=
  match c with Some x => Text.is_word x | None => false end.

Definition consumed (before after : list ascii) : list ascii :=
  firstn (length before - length after) before.

Definition set_cap (i : nat) (s : list ascii) (cs : list (nat * list ascii)) :=
  (i, s) :: filter (fun c => negb (Nat.eqb (fst c) i)) cs.

Fixpoint get_cap (i : nat) (cs : list (nat * list ascii)) : list ascii :=
  match cs with
  | [] => []
  | (j, s) :: t => if Nat.eqb i j then s else get_cap i t
  end.

Section Matcher.
Context {A : Type}.
Variable icase : bool.

(** [m r st k]: match [r] at [st], then continue with [k]. *)
Fixpoint m (r : regex) (st : mstate) (k : mstate -> option A) : option A :=
  match r with
  | Eps => k st
  | Cls p =>
      match rest st with
      | c :: t =>
          if test icase p c
          then k {| prev := Some c; rest := t; caps := caps st |}
          else None
      | [] => None
      end
  | NCls p =>
      match rest st with
      | c :: t =>
          if test icase p c
          then None
          else k {| prev := Some c; rest := t; caps := caps st |}
      | [] => None
      end
  | Seq r1 r2 => m r1 st (fun st' => m r2 st' k)
  | Alt r1 r2 =>
      match m r1 st k with
      | Some x => Some x
      | None => m r2 st k
      end
  | Star g r' =>
      (fix loop (n : nat) (st : mstate) {struct n} : option A :=
         match n with
         | O => k st
         | S n' =>
             if g then
               match m r' st (fun st' =>
                       if Nat.ltb (length (rest st')) (length (rest st))
                       then loop n' st' else None) with
               | Some x => Some x
               | None => k st
               end
             else
               match k st with
               | Some x => Some x
               | None =>
                   m r' st (fun st' =>
                     if Nat.ltb (length (rest st')) (length (rest st))
                     then loop n' st' else None)
               end
         end) (S (length (rest st))) st
  | Rep g lo hi r' =>
      (fix loop (lo hi : nat) (st : mstate) {struct hi} : option A :=
         match hi with
         | O => k st
         | S hi' =>
             match lo with
             | S lo' => m r' st (fun st' => loop lo' hi' st')
             | O =>
                 if g then
                   match m r' st (fun st' => loop 0 hi' st') with
                   | Some x => Some x
                   | None => k st
                   end
                 else
                   match k st with
                   | Some x => Some x
                   | None => m r' st (fun st' => loop 0 hi' st')
                   end
             end
         end) lo hi st
  | Group i r' =>
      m r' st (fun st' =>
        k {| prev := prev st'; rest := rest st';
             caps := set_cap i (consumed (rest st) (rest st')) (caps st') |})
  | WordB =>
      if xorb (word_opt (prev st)) (word_opt (hd_error (rest st)))
      then k st else None
  end.
End Matcher.

(** One match: where it starts, and the state at its end. *)
Fixpoint scan (icase : bool) (r : regex) (pv : option ascii) (l : list ascii)
  : option (list ascii * mstate) :=
  match m icase r {| prev := pv; rest := l; caps := [] |} (fun st => Some st) with
  | Some st => Some (l, st)
  | None =>
      match l with
      | [] => None
      | c :: t => scan icase r (Some c) t
      end
  end.

(** [re.search(r, s)] as a truth value. *)
Definition search (icase : bool) (r : regex) (s : string) : bool :=
  match scan icase r None (Text.chars s) with Some _ => true | None => false end.

(** [re.search(r, s).group(i)] *)
Definition search_group (icase : bool) (r : regex) (i : nat) (s : string)
  : option string :=
  match scan icase r None (Text.chars s) with
  | Some (_, st) => Some (Text.str (get_cap i (caps st)))
  | None => None
  end.

(** The matches from left to right, not overlapping; each is the matched
    text with the groups.  Every iteration shortens the text, so the
    length of the text bounds the number of iterations. *)
Fixpoint matches_from (n : nat) (icase : bool) (r : regex)
    (pv : option ascii) (l : list ascii)
  : list (list ascii * list (nat * list ascii)) :=
  match n with
  | O => []
  | S n' =>
      match scan icase r pv l with
      | None => []
      | Some (start, st) =>
          let found := (consumed start (rest st), caps st) in
          if Nat.ltb (length (rest st)) (length start)
          then found :: matches_from n' icase r (prev st) (rest st)
          else match start with
               | [] => [found]
               | c :: t => found :: matches_from n' icase r (Some c) t
               end
      end
  end.

Definition matches (icase : bool) (r : regex) (s : string) :=
  matches_from (S (String.length s)) icase r None (Text.chars s).

(** [re.findall] for a pattern without groups, with one group, with two. *)
Definition findall0 (icase : bool) (r : regex) (s : string) : list string :=
  map (fun x => Text.str (fst x)) (matches icase r s).

Definition findall1 (icase : bool) (r : regex) (s : string) : list string :=
  map (fun x => Text.str (get_cap 1 (snd x))) (matches icase r s).

Definition findall2 (icase : bool) (r : regex) (s : string)
  : list (string * string) :=
  map (fun x => (Text.str (get_cap 1 (snd x)), Text.str (get_cap 2 (snd x))))
      (matches icase r s).

(** Pattern syntax. *)
Definition chr (c : ascii) : regex := Cls (Ascii.eqb c).

Fixpoint lit_chars (l : list ascii) : regex :=
  match l with
  | [] => Eps
  | [c] => chr c
  | c :: t => Seq (chr c) (lit_chars t)
  end.

Definition lit (s : string) : regex := lit_chars (Text.chars s).

Fixpoint seq (rs : list regex) : regex :=
  match rs with
  | [] => Eps
  | [r] => r
  | r :: t => Seq r (seq t)
  end.

Definition star (r : regex) : regex := Star true r.
Definition lazy_star (r : regex) : regex := Star false r.
Definition plus (r : regex) : regex := Seq r (Star true r).
Definition opt (r : regex) : regex := Rep true 0 1 r.
Definition one_of (s : string) : ascii -> bool :=
  fun c => existsb (Ascii.eqb c) (Text.chars s).
Definition none_of (s : string) : regex := NCls (one_of s).
Definition any : ascii -> bool := fun _ => true.       (* [\s\S] *)
Definition digit : regex := Cls Text.is_digit.         (* \d *)
Definition space : regex := Cls Text.is_space.         (* \s *)

End Re.

(* ================================================================= *)
(** ** Match scorer *)

(** The words [normalize_product_name] ignores. *)
Definition stopwords : list string :=
  ["de"; "la"; "el"; "los"; "las"; "un"; "una"; "con"; "para"; "por"; "en";
   "ml"; "gr"; "kg"; "lt"; "pz"; "pzas"].

(** The class [[a-zA-Z]] extended with the accented vowels and the n with
    tilde, small and capital (code points 225, 233, 237, 243, 250, 241 and
    193, 201, 205, 211, 218, 209). *)
Definition letter (c : ascii) : bool :=
  Text.in_range 97 122 c || Text.in_range 65 90 c
  || existsb (fun n => Text.is_code n c)
       [225; 233; 237; 243; 250; 241; 193; 201; 205; 211; 218; 209]%N.

(** The pattern [\b[a-zA-Z...]+\b]. *)
Definition word_pattern : Re.regex :=
  Re.seq [Re.WordB; Re.plus (Re.Cls letter); Re.WordB].

Definition in_list (w : string) (l : list string) : bool :=
  existsb (String.eqb w) l.

(** [normalize_product_name], lines 603-610. *)
Definition normalize_product_name (name : string) : list string :=
  if String.eqb name "" then []
  else
    let words := Re.findall0 false word_pattern (Text.lower name) in
    filter (fun w => negb (in_list w stopwords) && Nat.ltb 2 (String.length w))
           words.

(** [list(set(l))] enumerates the distinct elements of [l] in the order of
    the hash table, which is fixed for one run of the interpreter and is not
    the order of [l].  The order is a parameter of the model. *)
Class SetOrder : Type := {
  set_list : list string -> list string;
  set_list_perm : forall l, Permutation (set_list l) (nodup string_dec l)
}.

(** [a & b] and [a | b] on sets given by their elements. *)
Definition set_inter (a b : list string) : list string :=
  filter (fun w => in_list w b) (nodup string_dec a).

Definition set_union (a b : list string) : list string :=
  nodup string_dec (a ++ b).

Definition Qc_of_nat (n : nat) : Qc := Q2Qc (inject_Z (Z.of_nat n)).

Definition Qc_min (a b : Qc) : Qc := if Qc_ltb b a then b else a.

Definition is_nil {A : Type} (l : list A) : bool :=
  match l with [] => true | _ => false end.

(** [calculate_product_match_score], lines 612-638. *)
Definition calculate_product_match_score `{SetOrder}
    (search_name found_name : string) : Qc :=
  if String.eqb search_name "" || String.eqb found_name "" then 0%Qc
  else
    let search_keywords := normalize_product_name search_name in
    let found_keywords := normalize_product_name found_name in
    if is_nil search_keywords then Q2Qc (1 # 2)
    else
      let intersection := set_inter search_keywords found_keywords in
      let union := set_union search_keywords found_keywords in
      if is_nil union then 0%Qc
      else
        let jaccard :=
          (Qc_of_nat (length intersection) / Qc_of_nat (length union))%Qc in
        let search_list := set_list search_keywords in
        let found_list := set_list found_keywords in
        match search_list, found_list with
        | first :: _, _ :: _ =>
            if in_list first found_keywords
            then Qc_min 1%Qc (jaccard + Q2Qc (1 # 5))%Qc
            else jaccard
        | _, _ => jaccard
        end.

(** A count followed by a unit word: [\b\d+\s*unit\b]. *)
Definition counted (unit : Re.regex) : Re.regex :=
  Re.seq [Re.WordB; Re.plus Re.digit; Re.star Re.space; unit; Re.WordB].

(** A unit with an optional plural s: [units?]. *)
Definition plural (w : string) : Re.regex :=
  Re.Seq (Re.lit w) (Re.opt (Re.chr "s")).

(** A word, [de] and a count: [\bword\s*de\s*\d+\b]. *)
Definition word_of (w : string) : Re.regex :=
  Re.seq [Re.WordB; Re.lit w; Re.star Re.space; Re.lit "de";
          Re.star Re.space; Re.plus Re.digit; Re.WordB].

(** A count and a unit in parentheses: [\(\d+\s*unit\)]. *)
Definition parenthesised (unit : Re.regex) : Re.regex :=
  Re.seq [Re.chr "("; Re.plus Re.digit; Re.star Re.space; unit; Re.chr ")"].

(** A fixed count and a unit: [\bn\s*unit\b]. *)
Definition fixed_count (n unit : string) : Re.regex :=
  Re.seq [Re.WordB; Re.lit n; Re.star Re.space; Re.lit unit; Re.WordB].

(** The patterns of [is_multipack], lines 677-683, in their order. *)
Definition multipack_patterns : list Re.regex :=
  [ counted (Re.lit "pack"); counted (plural "pza"); counted (plural "pieza");
    counted (plural "frasco"); counted (plural "botella");
    counted (plural "unidade");
    word_of "pack"; word_of "paquete";
    Re.seq [Re.WordB; Re.chr "x"; Re.star Re.space; Re.plus Re.digit; Re.WordB];
    parenthesised (plural "pza"); parenthesised (Re.lit "pack");
    parenthesised (plural "frasco");
    fixed_count "12" "frascos"; fixed_count "6" "pzas"; fixed_count "6" "pack" ].

(** [is_multipack], lines 673-687. *)
Definition is_multipack (title : string) : bool :=
  let title_lower := Text.lower title in
  existsb (fun pattern => Re.search false pattern title_lower)
          multipack_patterns.

(** The order in which the words first occur: one possible [SetOrder]. *)
#[local] Instance first_occurrence_order : SetOrder :=
  {| set_list := nodup string_dec;
     set_list_perm := fun l => Permutation_refl _ |}.

(** The opposite order: another possible [SetOrder]. *)
#[local] Instance last_occurrence_order : SetOrder :=
  {| set_list := fun l => rev (nodup string_dec l);
     set_list_perm := fun l => Permutation_sym (Permutation_rev _) |}.

(* ================================================================= *)
(** ** Numbers from text: [float(s)] and [json.loads] *)

Module Num.

Definition digit_val (c : ascii) : Z := Z.of_N (Text.code c) - 48.

(** A run of digits: its value, its length and the text after it.  With
    [us] a single underscore may separate two digits, as [float] allows. *)
Fixpoint read_digits (us : bool) (acc : Z) (n : nat) (l : list ascii)
  : Z * nat * list ascii :=
  match l with
  | c :: t =>
      if Text.is_digit c then read_digits us (acc * 10 + digit_val c) (S n) t
      else if us && Text.is_code 95 c && Nat.ltb 0 n then
        match t with
        | d :: _ => if Text.is_digit d then read_digits us acc n t
                    else (acc, n, l)
        | [] => (acc, n, l)
        end
      else (acc, n, l)
  | [] => (acc, n, [])
  end.

Definition is_sign (c : ascii) : bool := Text.is_code 43 c || Text.is_code 45 c.
Definition is_minus (c : ascii) : bool := Text.is_code 45 c.
Definition is_dot (c : ascii) : bool := Text.is_code 46 c.
Definition is_e (c : ascii) : bool := Text.is_code 101 c || Text.is_code 69 c.

(** mantissa / 10^decimals * 10^exponent *)
Definition decimal (mant : Z) (decimals : nat) (exponent : Z) : Qc :=
  let e := (exponent - Z.of_nat decimals)%Z in
  if (0 <=? e)%Z then Q2Qc (inject_Z (mant * 10 ^ e))
  else Q2Qc (Qmake mant (Z.to_pos (10 ^ (- e)))).

(** An optional exponent part: [None] when an [e] is not followed by a
    number, otherwise the exponent and the text after it. *)
Definition read_exponent (us : bool) (l : list ascii)
  : option (Z * list ascii) :=
  match l with
  | c :: t =>
      if is_e c then
        let '(neg, t1) :=
          match t with
          | s :: t' => if is_sign s then (is_minus s, t') else (false, t)
          | [] => (false, t)
          end in
        let '(v, n, r) := read_digits us 0 0 t1 in
        if Nat.eqb n 0 then None
        else Some (if neg then (- v)%Z else v, r)
      else Some (0%Z, l)
  | [] => Some (0%Z, [])
  end.

(** The white space [float] skips around a numeral: tab..carriage return
    and the space, and NEL and the no-break space, which it reads as
    spaces.  The separators 28..31 are white space for [str.strip] and not
    for [float]. *)
Definition is_blank (c : ascii) : bool :=
  Text.in_range 9 13 c || Text.is_code 32 c || Text.is_code 133 c
  || Text.is_code 160 c.

Fixpoint skip_blank (l : list ascii) : list ascii :=
  match l with
  | c :: t => if is_blank c then skip_blank t else l
  | [] => []
  end.

(** [float(s)] for a string: optional white space around an optionally
    signed decimal numeral with optional fraction and exponent.  The words
    [inf], [infinity] and [nan] denote values outside the model and are
    rejected like any text that is not a numeral. *)
Definition float_of_chars (l0 : list ascii) : res Qc :=
  let l := rev (skip_blank (rev (skip_blank l0))) in
  let '(neg, l1) :=
    match l with
    | s :: t => if is_sign s then (is_minus s, t) else (false, l)
    | [] => (false, l)
    end in
  let '(ip, ni, r1) := read_digits true 0 0 l1 in
  let '(fp, nf, r2) :=
    match r1 with
    | c :: t => if is_dot c then read_digits true 0 0 t else (0%Z, O, r1)
    | [] => (0%Z, O, r1)
    end in
  if Nat.eqb (ni + nf) 0 then Raise ValueError
  else
    match read_exponent true r2 with
    | Some (e, []) =>
        let mant := (ip * 10 ^ Z.of_nat nf + fp)%Z in
        Ok (decimal (if neg then (- mant)%Z else mant) nf e)
    | _ => Raise ValueError
    end.

Definition float_of_str (s : string) : res Qc := float_of_chars (Text.chars s).

End Num.

(** The least integer that [float] does not convert: halfway between the
    largest float and the next power of two. *)
Definition float_overflow : Z := (2 ^ 1024 - 2 ^ 970)%Z.

(** [float(v)]; an integer too large for a float raises [OverflowError]. *)
Definition py_float (v : pyval) : res Qc :=
  match v with
  | PBool b => Ok (if b then 1%Qc else 0%Qc)
  | PInt z =>
      if Z.ltb (Z.abs z) float_overflow then Ok (Q2Qc (inject_Z z))
      else Raise OverflowError
  | PFloat q => Ok q
  | PStr s => Num.float_of_str s
  | PNone | PList _ | PDict _ => Raise TypeError
  end.

(** [try: ... float(v) ... except (ValueError, TypeError): pass]: the two
    exceptions are caught and any other leaves. *)
Definition float_or_pass (v : pyval) : res (option Qc) :=
  match py_float v with
  | Ok q => Ok (Some q)
  | Raise ValueError | Raise TypeError => Ok None
  | Raise e => Raise e
  end.

(** [json.loads]: [None] stands for [JSONDecodeError].  The constants
    [NaN] and [Infinity], and an escape [\uXXXX] above [00FF], denote
    values outside the model; a document that uses them is rejected. *)
Module Json.

Definition is_ws (c : ascii) : bool :=
  Text.is_code 32 c || Text.is_code 9 c || Text.is_code 10 c || Text.is_code 13 c.

Fixpoint skip_ws (l : list ascii) : list ascii :=
  match l with
  | c :: t => if is_ws c then skip_ws t else l
  | [] => []
  end.

Definition hex_val (c : ascii) : option N :=
  if Text.is_digit c then Some (Text.code c - 48)%N
  else if Text.in_range 97 102 c then Some (Text.code c - 87)%N
  else if Text.in_range 65 70 c then Some (Text.code c - 55)%N
  else None.

Definition hex4 (a b c d : ascii) : option N :=
  match hex_val a, hex_val b, hex_val c, hex_val d with
  | Some x, Some y, Some z, Some w => Some (((x * 16 + y) * 16 + z) * 16 + w)%N
  | _, _, _, _ => None
  end.

(** The text of a string after its opening quote. *)
Fixpoint read_string (l : list ascii) (acc : list ascii)
  : option (string * list ascii) :=
  match l with
  | [] => None
  | c :: t =>
      if Text.is_code 34 c then Some (Text.str (rev acc), t)
      else if Text.is_code 92 c then
        match t with
        | e :: t' =>
            if Text.is_code 34 e || Text.is_code 92 e || Text.is_code 47 e
            then read_string t' (e :: acc)
            else if Text.is_code 98 e then read_string t' (ascii_of_N 8 :: acc)
            else if Text.is_code 102 e then read_string t' (ascii_of_N 12 :: acc)
            else if Text.is_code 110 e then read_string t' (ascii_of_N 10 :: acc)
            else if Text.is_code 114 e then read_string t' (ascii_of_N 13 :: acc)
            else if Text.is_code 116 e then read_string t' (ascii_of_N 9 :: acc)
            else if Text.is_code 117 e then
              match t' with
              | a :: b :: x :: y :: t'' =>
                  match hex4 a b x y with
                  | Some n => if (n <? 256)%N
                              then read_string t'' (ascii_of_N n :: acc)
                              else None
                  | None => None
                  end
              | _ => None
              end
            else None
        | [] => None
        end
      else if (Text.code c <? 32)%N then None
      else read_string t (c :: acc)
  end.

(** A number: an optional minus, an integer part without a leading zero
    (or a single zero), an optional fraction and an optional exponent; an
    [int] when it has neither fraction nor exponent. *)
Definition read_number (l : list ascii) : option (pyval * list ascii) :=
  let '(neg, l1) :=
    match l with
    | s :: t => if Num.is_minus s then (true, t) else (false, l)
    | [] => (false, l)
    end in
  let '(ip, ni, r1) :=
    match l1 with
    | c :: t => if Text.is_code 48 c then (0%Z, 1, t)
                else Num.read_digits false 0 0 l1
    | [] => (0%Z, O, l1)
    end in
  if Nat.eqb ni 0 then None
  else
    let '(fp, nf, r2) :=
      match r1 with
      | c :: t =>
          if Num.is_dot c then
            let '(v, n, r) := Num.read_digits false 0 0 t in
            if Nat.eqb n 0 then (0%Z, O, r1) else (v, n, r)
          else (0%Z, O, r1)
      | [] => (0%Z, O, r1)
      end in
    let '(has_exp, e, r3) :=
      match r2 with
      | c :: _ =>
          if Num.is_e c then
            match Num.read_exponent false r2 with
            | Some (v, r) => (true, v, r)
            | None => (false, 0%Z, r2)
            end
          else (false, 0%Z, r2)
      | [] => (false, 0%Z, r2)
      end in
    let sgn (z : Z) := if neg then (- z)%Z else z in
    if Nat.eqb nf 0 && negb has_exp then Some (PInt (sgn ip), r3)
    else Some (PFloat (Num.decimal (sgn (ip * 10 ^ Z.of_nat nf + fp)%Z) nf e), r3).

Definition build_dict (pairs : list (string * pyval)) : list (string * pyval) :=
  fold_left (fun d kv => dict_set (fst kv) (snd kv) d) pairs [].

(** A value at the start of the text, which has no leading white space.
    Every call consumes a character, so twice the length of the text is
    enough fuel. *)
Fixpoint parse_value (n : nat) (l : list ascii) : option (pyval * list ascii) :=
  match n with
  | O => None
  | S n' =>
      match l with
      | [] => None
      | c :: t =>
          if Text.is_code 34 c then
            match read_string t [] with
            | Some (s, r) => Some (PStr s, r)
            | None => None
            end
          else if Text.is_code 123 c then
            match skip_ws t with
            | c1 :: t1 =>
                if Text.is_code 125 c1 then Some (PDict [], t1)
                else parse_members n' (c1 :: t1) []
            | [] => None
            end
          else if Text.is_code 91 c then
            match skip_ws t with
            | c1 :: t1 =>
                if Text.is_code 93 c1 then Some (PList [], t1)
                else parse_elements n' (c1 :: t1) []
            | [] => None
            end
          else if Text.starts_with (Text.chars "null") l
          then Some (PNone, skipn 4 l)
          else if Text.starts_with (Text.chars "true") l
          then Some (PBool true, skipn 4 l)
          else if Text.starts_with (Text.chars "false") l
          then Some (PBool false, skipn 5 l)
          else read_number l
      end
  end
with parse_elements (n : nat) (l : list ascii) (acc : list pyval)
  : option (pyval * list ascii) :=
  match n with
  | O => None
  | S n' =>
      match parse_value n' l with
      | None => None
      | Some (v, r) =>
          match skip_ws r with
          | c :: t =>
              if Text.is_code 44 c
              then parse_elements n' (skip_ws t) (v :: acc)
              else if Text.is_code 93 c
              then Some (PList (rev (v :: acc)), t)
              else None
          | [] => None
          end
      end
  end
with parse_members (n : nat) (l : list ascii) (acc : list (string * pyval))
  : option (pyval * list ascii) :=
  match n with
  | O => None
  | S n' =>
      match l with
      | q :: t =>
          if Text.is_code 34 q then
            match read_string t [] with
            | None => None
            | Some (key, r) =>
                match skip_ws r with
                | c :: r1 =>
                    if Text.is_code 58 c then
                      match parse_value n' (skip_ws r1) with
                      | None => None
                      | Some (v, r2) =>
                          match skip_ws r2 with
                          | d :: r3 =>
                              if Text.is_code 44 d
                              then parse_members n' (skip_ws r3) ((key, v) :: acc)
                              else if Text.is_code 125 d
                              then Some (PDict (build_dict (rev ((key, v) :: acc))), r3)
                              else None
                          | [] => None
                          end
                      end
                    else None
                | [] => None
                end
            end
          else None
      | [] => None
      end
  end.

Definition loads (s : string) : option pyval :=
  let l := skip_ws (Text.chars s) in
  match parse_value (2 * length l + 2) l with
  | Some (v, r) => match skip_ws r with [] => Some v | _ => None end
  | None => None
  end.

End Json.

(* ================================================================= *)
(** ** Extraction cascade *)

Module Cascade.

(** An extracted offer: [{'title': ..., 'price': ...}]. *)
Record product : Type := { title : pyval; price : Qc }.

Definition get_or (d : list (string * pyval)) (k : string) (dflt : pyval) : pyval :=
  match dict_get k d with Some x => x | None => dflt end.

(** [for x in v]: the elements of a list, the keys of a dict, the
    characters of a string; other values are not iterable. *)
Definition py_iter (v : pyval) : res (list pyval) :=
  match v with
  | PList l => Ok l
  | PDict d => Ok (map (fun kv => PStr (fst kv)) d)
  | PStr s => Ok (map (fun c => PStr (String c EmptyString)) (Text.chars s))
  | _ => Raise TypeError
  end.

(** [v[0]] *)
Definition py_first (v : pyval) : res pyval :=
  match v with
  | PList (x :: _) => Ok x
  | PList [] => Raise IndexError
  | PStr (String c _) => Ok (PStr (String c EmptyString))
  | PStr EmptyString => Raise IndexError
  | PDict _ => Raise KeyError
  | _ => Raise TypeError
  end.

Definition str_is (v : pyval) (s : string) : bool :=
  match v with PStr x => String.eqb x s | _ => false end.

(** A loop whose body may raise: the exception leaves the loop. *)
Fixpoint fold_res {A B : Type} (f : A -> B -> res A) (acc : A) (l : list B)
  : res A :=
  match l with
  | [] => Ok acc
  | x :: t => acc' <- f acc x ;; fold_res f acc' t
  end.

(** A loop inside [try: ... except Exception]: an exception ends the loop
    and what was collected before it stays. *)
Fixpoint fold_caught {A B : Type} (f : A -> B -> res A) (acc : A) (l : list B)
  : A :=
  match l with
  | [] => acc
  | x :: t =>
      match f acc x with
      | Ok acc' => fold_caught f acc' t
      | Raise _ => acc
      end
  end.

(** [if name and price: try: products.append({.. float(price)})
     except (ValueError, TypeError): pass] *)
Definition append_unchecked (products : list product) (name price : pyval)
  : res (list product) :=
  if truthy name && truthy price then
    price_float <- float_or_pass price ;;
    match price_float with
    | Some q => Ok (products ++ [{| title := name; price := q |}])
    | None => Ok products
    end
  else Ok products.

(** The minor-unit correction above [threshold], when there is one, and the
    plausibility bound [lo <= p <= hi]. *)
Definition plausible (lo hi : Z) (p : Qc) : bool :=
  Qc_leb (Qc_of_Z lo) p && Qc_leb p (Qc_of_Z hi).

Definition corrected (threshold : option Z) (p : Qc) : Qc :=
  match threshold with
  | Some t => if Qc_ltb (Qc_of_Z t) p then (p / Qc_of_Z 100)%Qc else p
  | None => p
  end.

Definition append_checked (threshold : option Z) (lo hi : Z)
    (products : list product) (name : pyval) (price : res Qc) : list product :=
  match price with
  | Ok q =>
      let price_float := corrected threshold q in
      if plausible lo hi price_float
      then products ++ [{| title := name; price := price_float |}]
      else products
  | Raise _ => products
  end.

(** *** 1. JSON-LD, lines 919-962 *)

Definition quote : Re.regex := Re.Cls (Text.is_code 34).
Definition not_quote : Re.regex := Re.NCls (Text.is_code 34).
Definition any_quote : Re.regex :=
  Re.Cls (fun c => Text.is_code 34 c || Text.is_code 39 c).
Definition wild : Re.regex := Re.Cls Re.any.
Definition key (s : string) : Re.regex := Re.seq [quote; Re.lit s; quote].
Definition colon : Re.regex :=
  Re.seq [Re.star Re.space; Re.chr ":"; Re.star Re.space].

(** A script element of type application/ld+json; group 1 is its text. *)
Definition jsonld_pattern : Re.regex :=
  Re.seq [Re.lit "<script"; Re.star (Re.none_of ">");
          Re.lit "type="; any_quote; Re.lit "application/ld+json"; any_quote;
          Re.star (Re.none_of ">"); Re.chr ">";
          Re.Group 1 (Re.lazy_star wild); Re.lit "</script>"].

Definition jsonld_list_element (products : list product) (elem : pyval)
  : res (list product) :=
  match elem with
  | PDict d =>
      let prod := get_or d "item" PNone in
      if truthy prod then
        name <- py_get prod "name" (PStr "") ;;
        offers <- py_get prod "offers" (PDict []) ;;
        let price :=
          match offers with PDict o => get_or o "price" PNone | _ => PNone end in
        append_unchecked products name price
      else Ok products
  | _ => Ok products
  end.

Definition jsonld_item (products : list product) (item : pyval)
  : res (list product) :=
  item_type <- py_get item "@type" (PStr "") ;;
  if str_is item_type "Product" || str_is item_type "ItemList"
     || str_is item_type "ProductGroup" then
    if str_is item_type "ItemList" then
      elements <- py_get item "itemListElement" (PList []) ;;
      elems <- py_iter elements ;;
      fold_res jsonld_list_element products elems
    else
      name <- py_get item "name" (PStr "") ;;
      offers0 <- py_get item "offers" (PDict []) ;;
      let offers := match offers0 with PList (o :: _) => o | _ => offers0 end in
      let price :=
        match offers with PDict o => get_or o "price" PNone | _ => PNone end in
      let price :=
        match offers with
        | PDict o =>
            if negb (truthy price)
            then py_or (get_or o "lowPrice" PNone) (get_or o "highPrice" PNone)
            else price
        | _ => price
        end in
      append_unchecked products name price
  else Ok products.

(** One block: only [JSONDecodeError] is caught. *)
Definition jsonld_block (products : list product) (jsonld : string)
  : res (list product) :=
  match Json.loads jsonld with
  | None => Ok products
  | Some data =>
      let items := match data with PList l => l | _ => [data] end in
      fold_res jsonld_item products items
  end.

(** *** 2a. The [__STATE__] object, lines 969-1006 *)

Definition state_pattern : Re.regex :=
  Re.seq [Re.lit "__STATE__"; Re.star Re.space; Re.chr "="; Re.star Re.space;
          Re.Group 1 (Re.seq [Re.chr "{"; Re.lazy_star wild; Re.chr "}"]);
          Re.opt (Re.chr ";"); Re.star Re.space;
          Re.Alt (Re.lit "</script>") (Re.lit "window.")].

(** The price under items[0].sellers[0].commertialOffer; [None] when the
    path is not there and [price] keeps its value. *)
Definition state_offer_price (d : list (string * pyval)) : res (option pyval) :=
  let items := get_or d "items" (PList []) in
  if truthy items then
    item0 <- py_first items ;;
    if is_dict item0 then
      sellers <- py_get item0 "sellers" (PList []) ;;
      if truthy sellers then
        seller0 <- py_first sellers ;;
        if is_dict seller0 then
          offer <- py_get seller0 "commertialOffer" (PDict []) ;;
          a <- py_get offer "Price" PNone ;;
          b <- py_get offer "sellingPrice" PNone ;;
          Ok (Some (py_or a b))
        else Ok None
      else Ok None
    else Ok None
  else Ok None.

Definition state_entry (products : list product) (value : pyval)
  : res (list product) :=
  match value with
  | PDict d =>
      if dict_has d "productName" || dict_has d "name" then
        let name := py_or (get_or d "productName" PNone) (get_or d "name" (PStr "")) in
        let price0 :=
          py_or (py_or (get_or d "price" PNone) (get_or d "sellingPrice" PNone))
                (get_or d "Price" PNone) in
        price <- (if truthy price0 then Ok price0
                  else p <- state_offer_price d ;;
                       Ok (match p with Some x => x | None => price0 end)) ;;
        if truthy name && truthy price then
          price_float <- float_or_pass price ;;
          match price_float with
          | Some q => Ok (append_checked (Some 10000%Z) 5 50000 products name (Ok q))
          | None => Ok products
          end
        else Ok products
      else Ok products
  | _ => Ok products
  end.

Definition state_products (html : string) : list product :=
  match Re.search_group false state_pattern 1 html with
  | Some state_str =>
      match Json.loads (Text.replace "undefined" "null" state_str) with
      | Some (PDict state_data) => fold_caught state_entry [] (map snd state_data)
      | _ => []
      end
  | None => []
  end.

(** *** 2b-2d and 4. Paired fields in the text, lines 1009-1053 and 1094-1108 *)

Definition not_brace : Re.regex := Re.star (Re.none_of "}").
Definition quoted (r : Re.regex) : Re.regex := Re.seq [quote; r; quote].
Definition name_group : Re.regex :=
  quoted (Re.Group 1 (Re.plus not_quote)).
Definition digits_dots : Re.regex :=
  Re.plus (Re.Cls (fun c => Text.is_digit c || Text.is_code 46 c)).

Fixpoint alts (ws : list string) : Re.regex :=
  match ws with
  | [] => Re.Eps
  | [w] => Re.lit w
  | w :: t => Re.Alt (Re.lit w) (alts t)
  end.

(** productName, then sellingPrice before the next closing brace. *)
Definition vtex_render_pattern : Re.regex :=
  Re.seq [key "productName"; colon; name_group; not_brace;
          key "sellingPrice"; colon; Re.Group 2 (Re.plus Re.digit)].

(** product {.. productName ..} .. priceRange {.. sellingPrice {.. lowPrice *)
Definition vtex_query_pattern : Re.regex :=
  Re.seq [key "product"; colon; Re.chr "{"; not_brace;
          key "productName"; colon; name_group; not_brace; Re.chr "}";
          not_brace; key "priceRange"; colon; Re.chr "{"; not_brace;
          key "sellingPrice"; colon; Re.chr "{"; not_brace;
          key "lowPrice"; colon; Re.Group 2 digits_dots].

(** productName, then Price or sellingPrice within 500 characters. *)
Definition vtex_simple : Re.regex :=
  Re.seq [key "productName"; colon; name_group; Re.Rep false 0 500 wild;
          quoted (alts ["Price"; "sellingPrice"]); colon;
          Re.Group 2 digits_dots].

(** A name of 5 to 100 characters, then a price within 300 characters. *)
Definition generic_pattern : Re.regex :=
  Re.seq [quoted (alts ["name"; "title"; "productName"]); colon;
          quoted (Re.Group 1 (Re.Rep true 5 100 not_quote));
          Re.Rep false 0 300 wild;
          quoted (alts ["price"; "Price"; "salePrice"; "sellingPrice";
                        "currentPrice"]);
          colon; Re.opt quote; Re.Group 2 digits_dots; Re.opt quote].

(** [for name, price in re.findall(pattern, html): try: ... float(price) ...
     except (ValueError, TypeError): continue] *)
Definition paired_products (pattern : Re.regex) (threshold : option Z)
    (lo hi : Z) (html : string) : list product :=
  fold_left
    (fun products np =>
       append_checked threshold lo hi products (PStr (fst np))
                      (Num.float_of_str (snd np)))
    (Re.findall2 false pattern html) [].

(** *** 3. The [__NEXT_DATA__] island, lines 1058-1087 *)

Definition next_pattern : Re.regex :=
  Re.seq [Re.lit "<script"; Re.star (Re.none_of ">");
          Re.lit "id="; quoted (Re.lit "__NEXT_DATA__");
          Re.star (Re.none_of ">"); Re.chr ">";
          Re.Group 1 (Re.lazy_star wild); Re.lit "</script>"].

Definition next_product (products : list product) (prod : pyval)
  : res (list product) :=
  match prod with
  | PDict d =>
      let name :=
        py_or (py_or (get_or d "name" PNone) (get_or d "title" PNone))
              (get_or d "productName" (PStr "")) in
      let price0 :=
        py_or (py_or (get_or d "price" PNone) (get_or d "salePrice" PNone))
              (get_or d "sellingPrice" PNone) in
      price <- (if negb (truthy price0) && dict_has d "priceInfo"
                then py_get (get_or d "priceInfo" PNone) "currentPrice" PNone
                else Ok price0) ;;
      append_unchecked products name price
  | _ => Ok products
  end.

Definition next_search_results (next_data : pyval) : res (list pyval) :=
  props0 <- py_get next_data "props" (PDict []) ;;
  props <- py_get props0 "pageProps" (PDict []) ;;
  items <- py_get props "items" (PList []) ;;
  products <- py_get props "products" items ;;
  search_results <- py_get props "searchResults" products ;;
  search_results <-
    (if is_dict search_results then
       its <- py_get search_results "items" (PList []) ;;
       py_get search_results "products" its
     else Ok search_results) ;;
  Ok (match search_results with PList l => l | _ => [] end).

Definition next_products (html : string) : list product :=
  match Re.search_group false next_pattern 1 html with
  | Some text =>
      match Json.loads text with
      | Some next_data =>
          match next_search_results next_data with
          | Ok l => fold_caught next_product [] l
          | Raise _ => []
          end
      | None => []
      end
  | None => []
  end.

(** *** 5. Markup: a labelled text, then a price after a dollar sign,
    lines 1116-1141 *)

Definition dollar_price (window : nat) : Re.regex :=
  Re.seq [Re.Rep false 0 window wild; Re.chr "$"; Re.star Re.space;
          Re.Group 2
            (Re.Seq (Re.plus (Re.Cls (fun c => Text.is_digit c || Text.is_code 44 c)))
                    (Re.opt (Re.Seq (Re.chr ".") (Re.Rep true 2 2 Re.digit))))].

Definition label (lo hi : nat) (stop : string) : Re.regex :=
  Re.Group 1 (Re.Rep true lo hi (Re.none_of stop)).

Definition h23 : Re.regex := Re.Cls (Re.one_of "23").
Definition not_gt : Re.regex := Re.star (Re.none_of ">").

Definition html_product_patterns : list Re.regex :=
  [ Re.seq [Re.lit "data-product-name="; quote; Re.Group 1 (Re.Rep true 5 100 not_quote);
            quote; dollar_price 500];
    Re.seq [Re.lit "aria-label="; quote; Re.Group 1 (Re.Rep true 5 100 not_quote);
            quote; dollar_price 300];
    Re.seq [Re.lit "<img"; not_gt; Re.lit "title="; quote;
            Re.Group 1 (Re.Rep true 5 80 not_quote); quote; not_gt;
            Re.chr ">"; dollar_price 400];
    Re.seq [Re.lit "<h"; h23; not_gt; Re.chr ">"; label 5 80 "<";
            Re.lit "</h"; h23; Re.chr ">"; dollar_price 300] ].

Definition html_products (html : string) : list product :=
  fold_left
    (fun products pattern =>
       fold_left
         (fun products np =>
            let price_str := Text.replace "," "" (snd np) in
            append_checked None 5 50000 products (PStr (Text.strip (fst np)))
                           (Num.float_of_str price_str))
         (Re.findall2 true pattern html) products)
    html_product_patterns [].

(** *** The cascade

    [extract_products_from_html], lines 908-1141.  The first strategy that
    yields a product returns.  The store name of the source only labels the
    log lines and is left out. *)
Definition extract_products_from_html (html : string) : res (list product) :=
  products <- fold_res jsonld_block [] (Re.findall1 true jsonld_pattern html) ;;
  if negb (is_nil products) then Ok products else
  let products := state_products html in
  if negb (is_nil products) then Ok products else
  let products := paired_products vtex_render_pattern (Some 10000%Z) 5 50000 html in
  if negb (is_nil products) then Ok products else
  let products := paired_products vtex_query_pattern None 5 5000 html in
  if negb (is_nil products) then Ok products else
  let products := paired_products vtex_simple (Some 1000%Z) 5 5000 html in
  if negb (is_nil products) then Ok products else
  let products := next_products html in
  if negb (is_nil products) then Ok products else
  let products := paired_products generic_pattern (Some 10000%Z) 5 50000 html in
  if negb (is_nil products) then Ok products else
  Ok (html_products html).

End Cascade.

(* ================================================================= *)
(** ** Consolidator *)

(** An observed offer, as the scrapers and the estimators return it: a
    dict whose keys may be missing. *)
Record price_item : Type := {
  item_store : option string;
  item_price : option pyval;
  item_estimated : option bool;
  item_url : option string;
  item_source_api : option string
}.

(** One consolidated offer: the value stored under a store key. *)
Record store_entry : Type := {
  store : string;
  price : Qc;
  url : string;
  source_api : string;
  estimated : bool
}.

(** [d.get(k, dflt)] on an optional field. *)
Definition field {A : Type} (o : option A) (dflt : A) : A :=
  match o with Some x => x | None => dflt end.

(** The canonical name of a store, by the first keyword its lower-cased
    name contains. *)
Definition store_key_of (store : string) : string :=
  let store_lower := Text.lower store in
  if Text.contains "amazon" store_lower then "Amazon Mexico"
  else if Text.contains "walmart" store_lower then "Walmart Mexico"
  else if Text.contains "mercado" store_lower then "Mercado Libre"
  else if Text.contains "soriana" store_lower then "Soriana"
  else if Text.contains "chedraui" store_lower then "Chedraui"
  else if Text.contains "guadalajara" store_lower then "Farmacias Guadalajara"
  else if Text.contains "ahorro" store_lower then "Farmacias del Ahorro"
  else if Text.contains "benavides" store_lower then "Farmacias Benavides"
  else if Text.contains "sam" store_lower then "Sam's Club"
  else if Text.contains "costco" store_lower then "Costco"
  else if Text.contains "heb" store_lower then "HEB"
  else if Text.contains "liverpool" store_lower then "Liverpool"
  else if Text.contains "coppel" store_lower then "Coppel"
  else if Text.contains "lacomer" store_lower
          || Text.contains "la comer" store_lower then "La Comer"
  else store.

(** [re.sub(r'[^\d.]', '', price)]: the digits and dots of the text. *)
Definition digits_and_dots (s : string) : string :=
  Text.str (filter (fun c => Text.is_digit c || Text.is_code 46 c) (Text.chars s)).

(** The conversion inside [try: ... except: continue]. *)
Definition price_to_float (price : pyval) : res Qc :=
  match price with
  | PStr s => Num.float_of_str (digits_and_dots s)
  | _ => py_float price
  end.

Definition new_entry (store_key : string) (p : Qc) (price_item : price_item)
    (est : bool) : store_entry :=
  {| store := store_key;
     price := p;
     url := field (item_url price_item) "";
     source_api := field (item_source_api price_item) "";
     estimated := est |}.

(** The body of the loop of [consolidate_prices], lines 1806-1890. *)
Definition consolidate_step (stores : dict store_entry) (price_item : price_item)
  : dict store_entry :=
  let store := field (item_store price_item) "Desconocido" in
  let raw_price := field (item_price price_item) PNone in
  let is_estimated := field (item_estimated price_item) false in
  if negb (truthy raw_price) then stores
  else
    let store_key := store_key_of store in
    match price_to_float raw_price with
    | Raise _ => stores
    | Ok p =>
        match dict_get store_key stores with
        | None =>
            dict_set store_key (new_entry store_key p price_item is_estimated) stores
        | Some existing =>
            let existing_estimated := estimated existing in
            if existing_estimated && negb is_estimated then
              dict_set store_key (new_entry store_key p price_item false) stores
            else if Bool.eqb existing_estimated is_estimated
                    && Qc_ltb p (price existing) then
              dict_set store_key (new_entry store_key p price_item is_estimated) stores
            else stores
        end
    end.

(** [consolidate_prices], lines 1802-1892. *)
Definition consolidate_prices (all_prices : list price_item) : dict store_entry :=
  fold_left consolidate_step all_prices [].

(* ================================================================= *)
(** ** Response assembly of [api_price_check] *)

Record product_info : Type := {
  product_name : option string;
  brand : option string;
  upc : option string
}.

(** The [result] object of a successful response. *)
Record price_report : Type := {
  product : string * string * string;     (* name, brand, upc *)
  stores : list store_entry;
  lowest : option store_entry;
  count : nat;
  timestamp : string
}.

(** [{"success": True, "result": ...}] or [{"success": False, "error": ...}] *)
Inductive body : Type :=
| Success (result : price_report)
| Failure (error : exn).

Record http_response : Type := { status : nat; payload : body }.

(** [sorted(values, key=lambda x: x['price'])]: a stable sort. *)
Fixpoint insert_by_price (e : store_entry) (l : list store_entry)
  : list store_entry :=
  match l with
  | [] => [e]
  | x :: t =>
      if Qc_leb (price e) (price x) then e :: l else x :: insert_by_price e t
  end.

Definition sorted_by_price (l : list store_entry) : list store_entry :=
  fold_right insert_by_price [] l.

(** [api_price_check], lines 1919-1994, from the point where the product
    is identified.  [found] is the outcome of the search for prices; an
    exception anywhere inside the [try] becomes a 500 response. *)
Definition api_price_check (info : product_info)
    (found : res (list price_item)) (now : string) : http_response :=
  match found with
  | Raise e => {| status := 500; payload := Failure e |}
  | Ok oxylabs_prices =>
      let all_prices := [] ++ oxylabs_prices in
      let consolidated := consolidate_prices all_prices in
      let stores_list := sorted_by_price (dict_values consolidated) in
      {| status := 200;
         payload := Success
           {| product := (field (product_name info) "Producto",
                          field (brand info) "", field (upc info) "");
              stores := stores_list;
              lowest := hd_error stores_list;
              count := length stores_list;
              timestamp := now |} |}
  end.

(* ================================================================= *)
(** ** Price patterns

    The patterns of the three functions that read a price out of a text,
    written with one vocabulary.  Group 1 of every pattern is the price. *)

Module Pat.

Definition dq : ascii := "034"%char.

(** The members of a bracketed class: one character, or a digit. *)
Inductive item : Type :=
| Ch (c : ascii)
| Digit.

Definition member (c : ascii) (i : item) : bool :=
  match i with
  | Ch x => Ascii.eqb x c
  | Digit => Text.is_digit c
  end.

Definition set (l : list item) : Re.regex :=
  Re.Cls (fun c => existsb (member c) l).
Definition nset (l : list item) : Re.regex :=
  Re.NCls (fun c => existsb (member c) l).

(** Runs of characters. *)
Definition spaces : Re.regex := Re.star Re.space.
Definition in_attr : Re.regex := Re.star (nset [Ch dq]).
Definition in_tag : Re.regex := Re.star (nset [Ch ">"]).
Definition in_object : Re.regex := Re.star (nset [Ch "}"]).
Definition quote : Re.regex := Re.chr dq.
Definition opt_quote : Re.regex := Re.opt (Re.chr dq).
Definition opt_dollar : Re.regex := Re.opt (Re.lit "$").

(** The captured numerals: digits and commas with an optional fraction of
    two digits; the same with any fraction; digits with an optional
    fraction of two digits; digits and dots; digits and commas; digits. *)
Definition amount : Re.regex :=
  Re.Group 1 (Re.seq [Re.plus (set [Digit; Ch ","]);
                      Re.opt (Re.seq [Re.lit "."; Re.Rep true 2 2 Re.digit])]).
Definition loose_amount : Re.regex :=
  Re.Group 1 (Re.seq [Re.plus (set [Digit; Ch ","]); Re.opt (Re.lit ".");
                      Re.star Re.digit]).
Definition plain_amount : Re.regex :=
  Re.Group 1 (Re.seq [Re.plus Re.digit;
                      Re.opt (Re.seq [Re.lit "."; Re.Rep true 2 2 Re.digit])]).
Definition number : Re.regex := Re.Group 1 (Re.plus (set [Digit; Ch "."])).
Definition whole : Re.regex := Re.Group 1 (Re.plus (set [Digit; Ch ","])).
Definition digits : Re.regex := Re.Group 1 (Re.plus Re.digit).

(** Pieces of a pattern, as the list of their parts: a quoted key, a colon
    between spaces, an optional dollar sign between spaces, and a class
    attribute that holds the words in their order, up to the end of its
    tag. *)
Definition key (s : string) : list Re.regex := [Re.chr dq; Re.lit s; Re.chr dq].
Definition colon : list Re.regex := [spaces; Re.lit ":"; spaces].
Definition priced : list Re.regex := [spaces; opt_dollar; spaces].
Definition class_attr (words : list string) : list Re.regex :=
  [Re.lit "class="; quote; in_attr]
  ++ flat_map (fun w => [Re.lit w; in_attr]) words
  ++ [quote; in_tag].

(** Whole patterns that recur. *)
Definition json_number (k : string) : Re.regex :=
  Re.seq (key k ++ colon ++ [number]).
Definition json_digits (k : string) : Re.regex :=
  Re.seq (key k ++ colon ++ [digits]).
Definition json_amount (k : string) : Re.regex :=
  Re.seq (key k ++ colon ++ [opt_quote; opt_dollar; amount; opt_quote]).
Definition class_amount (words : list string) : Re.regex :=
  Re.seq (class_attr words ++ [Re.lit ">"] ++ priced ++ [amount]).
Definition class_whole (words : list string) : Re.regex :=
  Re.seq (class_attr words ++ [Re.lit ">"] ++ priced ++ [whole]).
Definition attr_amount (name : string) : Re.regex :=
  Re.seq [Re.lit (name ++ "="); quote; amount; quote].
Definition itemprop_price : Re.regex :=
  Re.seq ([Re.lit "itemprop="] ++ key "price"
          ++ [spaces; Re.lit "content="; quote; number; quote]).

(** The patterns of [extract_price_from_text], lines 649-657, in their
    order; the flag marks the pattern that must reach the end of the text. *)
Definition price_text_patterns : list (Re.regex * bool) :=
  [ (Re.seq [Re.lit "$"; spaces; loose_amount], false);
    (Re.seq [Re.lit "MXN"; spaces; loose_amount], false);
    (Re.seq [loose_amount; spaces; Re.lit "MXN"], false);
    (Re.seq [loose_amount; spaces; Re.lit "pesos"], false);
    (Re.Group 1 (Re.seq [Re.Rep true 1 3 Re.digit;
      Re.star (Re.seq [Re.lit ","; Re.Rep true 3 3 Re.digit]); Re.lit ".";
      Re.Rep true 2 2 Re.digit]), false);
    (Re.seq [Re.Group 1 (Re.seq [Re.plus Re.digit; Re.lit ".";
      Re.Rep true 2 2 Re.digit]); Re.WordB], false);
    (Re.seq [whole; spaces; Re.opt (Re.lit "00")], true) ].

(** The patterns of [extract_price_for_store] by store, lines 1418-1453;
    the flag marks a pattern whose text mentions sellingPrice. *)
Definition store_price_patterns : dict (list (Re.regex * bool)) :=
  [ ("Farmacias San Pablo",
     [ (Re.seq (key "price" ++ colon ++ [opt_quote; opt_dollar;
         plain_amount; quote]), false);
       (Re.seq (key "offers" ++ [in_object] ++ key "price" ++ colon ++
         [opt_quote; plain_amount; opt_quote]), false);
       (itemprop_price, false);
       (class_amount ["precio"; "final"], false);
       (class_amount ["final"; "precio"], false) ]);
    ("Walmart Mexico",
     [ (json_number "currentPrice", false);
       (Re.seq (key "priceInfo" ++ [in_object] ++ key "currentPrice" ++
         colon ++ [number]), false);
       (itemprop_price, false);
       (class_whole ["price-characteristic"], false);
       (Re.seq ([Re.lit "aria-hidden="] ++ key "true" ++ [in_tag;
         Re.lit ">$"; whole; Re.lit "<"]), false) ]);
    ("Bodega Aurrera",
     [ (json_number "currentPrice", false);
       (itemprop_price, false);
       (json_number "price", false) ]);
    ("Farmacias Guadalajara",
     [ (Re.seq (key "price" ++ colon ++ [opt_quote; opt_dollar;
         plain_amount; quote]), false);
       (itemprop_price, false);
       (class_amount ["precio"], false) ]);
    ("Chedraui",
     [ (json_digits "sellingPrice", true);
       (json_number "Price", false);
       (itemprop_price, false) ]);
    ("HEB",
     [ (Re.seq (key "price" ++ colon ++ [Re.lit "{"; in_object] ++
         key "value" ++ colon ++ [number]), false);
       (itemprop_price, false);
       (json_number "salePrice", false) ]) ].

(** The patterns of [extract_price_for_store] for any store, lines
    1456-1462. *)
Definition generic_price_patterns : list (Re.regex * bool) :=
  [ (itemprop_price, false);
    (Re.seq (key "offers" ++ [in_object] ++ key "price" ++ colon ++
      [opt_quote; plain_amount; opt_quote]), false);
    (Re.seq (key "price" ++ colon ++ [opt_quote; opt_dollar; plain_amount;
      quote]), false);
    (json_number "currentPrice", false);
    (json_number "salePrice", false) ].

(** The base patterns of [get_store_specific_patterns], lines 818-838; the
    flag marks a pattern whose text mentions sellingPrice or spotPrice. *)
Definition base_patterns : list (Re.regex * bool) :=
  [ (Re.seq [Re.lit ">"; spaces; Re.lit "$"; spaces; amount; spaces;
      Re.lit "<"], false);
    (Re.seq [Re.lit "$"; spaces; amount], false);
    (attr_amount "data-price", false);
    (attr_amount "data-product-price", false);
    (attr_amount "data-price-value", false);
    (json_amount "price", false);
    (json_amount "salePrice", false);
    (json_amount "offerPrice", false);
    (json_amount "finalPrice", false);
    (json_amount "regularPrice", false);
    (class_amount ["price"], false);
    (class_amount ["precio"], false);
    (Re.seq ([Re.lit "MXN"] ++ priced ++ [amount]), false);
    (Re.seq [amount; spaces; Re.lit "MXN"], false) ].

(** The patterns of [get_store_specific_patterns] by store key, lines
    841-902. *)
Definition specific_patterns : dict (list (Re.regex * bool)) :=
  [ ("walmart",
     [ (Re.seq (class_attr ["w_iUH7"] ++ [Re.lit ">"; amount]), false);
       (Re.seq (key "priceInfo" ++ [in_object] ++ key "currentPrice" ++
         [Re.lit ":"; number]), false);
       (Re.seq [Re.lit "aria-label="; quote; in_attr; Re.lit "$"; amount;
         in_attr; Re.lit "precio actual"; quote], false);
       (class_whole ["price-main"], false);
       (Re.seq ([Re.lit "<span"; in_tag] ++ class_attr ["f2"] ++
         [Re.lit ">$"; whole]), false) ]);
    ("soriana",
     [ (class_amount ["product-price"], false);
       (class_amount ["vtex-product-price"], false);
       (json_digits "sellingPrice", true);
       (json_number "Price", false);
       (class_whole ["currencyContainer"], false) ]);
    ("chedraui",
     [ (class_amount ["product-price"], false);
       (json_digits "sellingPrice", true);
       (Re.seq (class_attr ["vtex-product-price"] ++ [Re.lit ">"; spaces;
         whole]), false);
       (json_digits "spotPrice", true);
       (Re.seq (class_attr ["price"] ++ [Re.lit "data"; in_tag;
         Re.lit ">"] ++ priced ++ [whole]), false) ]);
    ("heb",
     [ (class_amount ["product-price"], false);
       (Re.seq (key "price" ++ colon ++ [Re.lit "{"; spaces] ++
         key "value" ++ colon ++ [number]), false);
       (json_number "salePrice", false);
       (class_whole ["price_text"], false) ]);
    ("fahorro",
     [ (class_amount ["price"], false);
       (Re.seq (key "price" ++ colon ++ [quote; amount; quote]), false);
       (Re.seq [Re.lit "data-price-amount="; quote; number; quote], false);
       (class_whole ["product-item-price"], false);
       (Re.seq ([Re.lit "itemprop="] ++ key "price" ++ [in_tag;
         Re.lit "content="; quote; number; quote]), false) ]);
    ("fguadalajara",
     [ (class_amount ["precio"], false);
       (class_amount ["product-price"], false);
       (json_number "price", false);
       (class_whole ["price-box"], false) ]);
    ("lacomer",
     [ (class_amount ["product-price"], false);
       (json_digits "sellingPrice", true);
       (json_number "Price", false);
       (Re.seq (class_attr ["vtex"; "price"] ++ [Re.lit ">"; spaces;
         whole]), false);
       (class_whole ["currencyContainer"], false) ]);
    ("sams",
     [ (json_amount "price", false);
       (class_amount ["Price"], false);
       (json_number "salePrice", false);
       (json_number "finalPrice", false);
       (Re.seq (class_attr ["sc-"] ++ [Re.lit ">$"; whole]), false);
       (Re.seq [Re.lit "aria-label="; quote; in_attr; Re.lit "$"; amount;
         quote], false) ]);
    ("superama",
     [ (class_amount ["product-price"], false);
       (json_digits "sellingPrice", true);
       (json_number "price", false) ]) ].

End Pat.

(* ================================================================= *)
(** ** Prices from text *)

(** [lo <= p <= hi] *)
Definition between (lo hi p : Qc) : bool := Qc_leb lo p && Qc_leb p hi.

(** [min(l)] for a list that is not empty. *)
Definition py_min (l : list Qc) : option Qc :=
  match l with
  | [] => None
  | p :: t => Some (fold_left Qc_min t p)
  end.

(** The position a dollar sign at the end of a pattern accepts: the end of
    the text, or the place before a newline that ends the text. *)
Definition at_end (st : Re.mstate) : bool :=
  match Re.rest st with
  | [] => true
  | [c] => Text.is_code 10 c
  | _ => false
  end.

(** The first match, from left to right, that stops at the end of the text. *)
Fixpoint scan_to_end (icase : bool) (r : Re.regex) (pv : option ascii)
    (l : list ascii) : option Re.mstate :=
  match Re.m icase r {| Re.prev := pv; Re.rest := l; Re.caps := [] |}
             (fun st => if at_end st then Some st else None) with
  | Some st => Some st
  | None =>
      match l with
      | [] => None
      | c :: t => scan_to_end icase r (Some c) t
      end
  end.

(** [re.search(pattern, text, re.IGNORECASE).group(1)], for a pattern that
    ends with a dollar sign when [anchored]. *)
Definition search_price (pattern : Re.regex) (anchored : bool) (text : string)
  : option string :=
  if anchored then
    match scan_to_end true pattern None (Text.chars text) with
    | Some st => Some (Text.str (Re.get_cap 1 (Re.caps st)))
    | None => None
    end
  else Re.search_group true pattern 1 text.

(** The loop of [extract_price_from_text], lines 659-669: the first pattern
    whose match is a number between 1 and 100000 gives the price. *)
Fixpoint first_price (patterns : list (Re.regex * bool)) (text : string)
  : option Qc :=
  match patterns with
  | [] => None
  | (pattern, anchored) :: rest =>
      match search_price pattern anchored text with
      | Some group1 =>
          match Num.float_of_str (Text.replace "," "" group1) with
          | Ok price =>
              if between (Qc_of_Z 1) (Qc_of_Z 100000) price then Some price
              else first_price rest text
          | Raise _ => first_price rest text
          end
      | None => first_price rest text
      end
  end.

(** [extract_price_from_text], lines 640-671. *)
Definition extract_price_from_text (text : string) : option Qc :=
  if String.eqb text "" then None
  else first_price Pat.price_text_patterns (Text.strip text).

(** The body of the inner loops of [extract_price_for_store], lines
    1469-1482, and of the fallback of [scrape_store_universal], lines
    1233-1245: the number a match spells, divided by 100 above 10000 when
    the pattern is one of minor units, and kept when it is in the range. *)
Definition accepted_price (minor : bool) (lo hi : Qc) (found : string)
  : list Qc :=
  match Num.float_of_str (Text.replace "," "" found) with
  | Ok price_float =>
      let price_float :=
        Cascade.corrected (if minor then Some 10000%Z else None) price_float in
      if between lo hi price_float then [price_float] else []
  | Raise _ => []
  end.

(** The prices the patterns find in a text, in the order of the loops. *)
Definition found_prices (patterns : list (Re.regex * bool)) (lo hi : Qc)
    (content : string) : list Qc :=
  flat_map (fun pattern =>
              flat_map (accepted_price (snd pattern) lo hi)
                       (Re.findall1 true (fst pattern) content))
           patterns.

(** [extract_price_for_store], lines 1410-1488. *)
Definition extract_price_for_store (content store_name : string)
    (expected_range : Qc * Qc) : option Qc :=
  let '(min_price, max_price) := expected_range in
  let patterns_to_use :=
    field (dict_get store_name Pat.store_price_patterns) []
    ++ Pat.generic_price_patterns in
  py_min (found_prices patterns_to_use min_price max_price content).

(** [get_store_specific_patterns], lines 814-906. *)
Definition get_store_specific_patterns (store_key : string)
  : list (Re.regex * bool) :=
  let specific := field (dict_get store_key Pat.specific_patterns) [] in
  specific ++ Pat.base_patterns.

(* ================================================================= *)
(** ** Scrapers

    The three scrapers from the point where the response of the scraping
    service has been decoded: [data_results] is the list under the key
    [results] of a response with status 200.  Without such a response each
    scraper returns what it has collected, which is nothing; an exception
    inside a scraper ends it in the same way. *)

(** [len(v)] *)
Definition py_len (v : pyval) : res nat :=
  match v with
  | PStr s => Ok (String.length s)
  | PList l => Ok (length l)
  | PDict d => Ok (length d)
  | _ => Raise TypeError
  end.

(** [v[:n]]; a dict raises [TypeError] before Python 3.12 and [KeyError]
    from it, and every caller catches both. *)
Definition py_slice (n : nat) (v : pyval) : res pyval :=
  match v with
  | PStr s => Ok (PStr (substring 0 n s))
  | PList l => Ok (PList (firstn n l))
  | _ => Raise TypeError
  end.

(** [calculate_product_match_score] on any two values: a false value on
    either side scores 0.0 before anything is read; otherwise both are
    lower-cased, which only a string allows. *)
Definition title_score `{SetOrder} (search_name found_name : pyval) : res Qc :=
  match search_name, found_name with
  | PStr s, PStr t => Ok (calculate_product_match_score s t)
  | _, _ =>
      if negb (truthy search_name) || negb (truthy found_name) then Ok 0%Qc
      else Raise AttributeError
  end.

(** [is_multipack] on any value. *)
Definition title_is_multipack (title : pyval) : res bool :=
  match title with
  | PStr t => Ok (is_multipack t)
  | _ => Raise AttributeError
  end.

(** A stable sort by a comparison, as [list.sort] is. *)
Fixpoint insert_by {A : Type} (le : A -> A -> bool) (e : A) (l : list A)
  : list A :=
  match l with
  | [] => [e]
  | x :: t => if le e x then e :: l else x :: insert_by le e t
  end.

Definition sort_by {A : Type} (le : A -> A -> bool) (l : list A) : list A :=
  fold_right (insert_by le) [] l.

Module Scrape.

(** An offer as a scraper returns it; only the Amazon scraper sets the
    key [is_multipack]. *)
Record offer : Type := {
  store : string;
  price : Qc;
  title : pyval;
  url : pyval;
  source_api : string;
  match_score : Qc;
  is_multipack : option bool
}.

(** An entry of [MEXICAN_STORES], lines 537-601. *)
Record store_config : Type := {
  name : string;
  search_url : string;
  upc_url : option string;
  source : string;
  domain : string
}.

Definition MEXICAN_STORES : dict store_config :=
  [ ("amazon",
     {| name := "Amazon Mexico";
        search_url := "https://www.amazon.com.mx/s?k={query}";
        upc_url := Some "https://www.amazon.com.mx/s?k={upc}";
        source := "amazon_search"; domain := "com.mx" |});
    ("walmart",
     {| name := "Walmart Mexico";
        search_url := "https://www.walmart.com.mx/search?q={query}";
        upc_url := Some "https://www.walmart.com.mx/ip/{upc}";
        source := "universal"; domain := "walmart.com.mx" |});
    ("soriana",
     {| name := "Soriana";
        search_url := "https://www.soriana.com/buscar?q={query}";
        upc_url := None;
        source := "universal"; domain := "soriana.com" |});
    ("chedraui",
     {| name := "Chedraui";
        search_url := "https://www.chedraui.com.mx/search?q={query}";
        upc_url := None;
        source := "universal"; domain := "chedraui.com.mx" |});
    ("heb",
     {| name := "HEB";
        search_url := "https://www.heb.com.mx/search?q={query}";
        upc_url := None;
        source := "universal"; domain := "heb.com.mx" |});
    ("fahorro",
     {| name := "Farmacias del Ahorro";
        search_url := "https://www.fahorro.com/catalogsearch/result/?q={query}";
        upc_url := None;
        source := "universal"; domain := "fahorro.com" |});
    ("fguadalajara",
     {| name := "Farmacias Guadalajara";
        search_url := "https://www.farmaciasguadalajara.com/search?q={query}";
        upc_url := None;
        source := "universal"; domain := "farmaciasguadalajara.com" |});
    ("lacomer",
     {| name := "La Comer";
        search_url := "https://www.lacomer.com.mx/{query}?_q={query}&map=ft";
        upc_url := None;
        source := "universal"; domain := "lacomer.com.mx" |});
    ("sams",
     {| name := "Sam's Club";
        search_url := "https://www.sams.com.mx/search/{query}";
        upc_url := None;
        source := "universal"; domain := "sams.com.mx" |}) ].

(** What [search_google_for_prices] says of a found page. *)
Record url_info : Type := {
  info_url : string;
  info_title : pyval;
  info_store : string;
  info_domain : string;
  info_google_price : option pyval
}.

(** The best match so far and its score. *)
Definition best : Type := (option offer * Qc)%type.

(** [product_name or query] and the like, for two strings. *)
Definition str_or (a b : string) : string :=
  if String.eqb a "" then b else a.

Section Scrapers.
Context `{SetOrder}.

(** [requests.utils.quote] and [str] on a value that is not a string are
    library functions the properties do not depend on. *)
Variable quote : string -> string.
Variable repr : pyval -> string.

(** [str(v)] *)
Definition py_str (v : pyval) : string :=
  match v with
  | PStr s => s
  | _ => repr v
  end.

(** *** [scrape_store_universal], lines 1143-1275 *)

(** The body of the loop over the extracted products, lines 1196-1217. *)
Definition universal_step (store_name search_url search_term : string)
    (min_match_score : Qc) (st : best) (prod : Cascade.product) : res best :=
  let title := Cascade.title prod in
  let price := Cascade.price prod in
  if negb (Cascade.plausible 10 5000 price) then Ok st
  else
    match_score <- title_score (PStr search_term) title ;;
    _ <- py_slice 40 title ;;
    if Qc_leb min_match_score match_score && Qc_ltb (snd st) match_score then
      title100 <- py_slice 100 title ;;
      Ok (Some {| store := store_name;
                  price := price;
                  title := title100;
                  url := PStr search_url;
                  source_api := "oxylabs";
                  match_score := match_score;
                  is_multipack := None |},
          match_score)
    else Ok st.

(** The body of the loop over the results, lines 1179-1265.  Without
    extracted products the prices the patterns find are collected in a set,
    and the least of them is the price. *)
Definition universal_result (store_key store_name search_url query
    product_name : string) (min_match_score : Qc) (results : list offer)
    (result : pyval) : res (list offer) :=
  content <- py_get result "content" (PStr "") ;;
  match content with
  | PStr html =>
      if Nat.ltb 100 (String.length html) then
        extracted_products <- Cascade.extract_products_from_html html ;;
        if negb (is_nil extracted_products) then
          let search_term := str_or product_name query in
          found <- Cascade.fold_res
                     (universal_step store_name search_url search_term
                                     min_match_score)
                     (None, 0%Qc) extracted_products ;;
          match fst found with
          | Some best_match => Ok (results ++ [best_match])
          | None => Ok results
          end
        else
          let price_patterns := get_store_specific_patterns store_key in
          match py_min (found_prices price_patterns (Qc_of_Z 15) (Qc_of_Z 100)
                                     html) with
          | Some best_price =>
              Ok (results ++ [{| store := store_name;
                                 price := best_price;
                                 title := PStr query;
                                 url := PStr search_url;
                                 source_api := "oxylabs";
                                 match_score := Q2Qc (1 # 2);
                                 is_multipack := None |}])
          | None => Ok results
          end
      else Ok results
  | _ => Ok results
  end.

Definition scrape_store_universal (store_key query product_name : string)
    (min_match_score : Qc) (data_results : list pyval) : list offer :=
  match dict_get store_key MEXICAN_STORES with
  | None => []
  | Some store_config =>
      let store_name := name store_config in
      let search_url :=
        Text.replace "{query}" (quote query) (search_url store_config) in
      Cascade.fold_caught
        (universal_result store_key store_name search_url query product_name
                          min_match_score)
        [] data_results
  end.

(** *** [scrape_product_url], lines 1490-1584 *)

(** The body of the loop over the extracted products, lines 1531-1550. *)
Definition product_step (store_name url : string) (search_term : pyval)
    (st : best) (prod : Cascade.product) : res best :=
  let title := Cascade.title prod in
  let price := Cascade.price prod in
  if negb (Cascade.plausible 5 500 price) then Ok st
  else
    match_score <- title_score search_term title ;;
    if Qc_ltb (snd st) match_score then
      title100 <- py_slice 100 title ;;
      Ok (Some {| store := store_name;
                  price := price;
                  title := title100;
                  url := PStr url;
                  source_api := "oxylabs_google";
                  match_score := match_score;
                  is_multipack := None |},
          match_score)
    else Ok st.

(** The structured extraction, lines 1525-1554: the offer it returns. *)
Definition structured_offer (store_name url : string) (search_term : pyval)
    (extracted : list Cascade.product) : res (option offer) :=
  if negb (is_nil extracted) then
    found <- Cascade.fold_res (product_step store_name url search_term)
                              (None, 0%Qc) extracted ;;
    match fst found with
    | Some best_match =>
        if Qc_leb (Q2Qc (1 # 5)) (snd found) then Ok (Some best_match)
        else Ok None
    | None => Ok None
    end
  else Ok None.

(** The body of the loop over the results, lines 1518-1571: the offer the
    function returns at this result, if it does. *)
Definition product_result (url_info : url_info) (product_name : string)
    (result : pyval) : res (option offer) :=
  let url := info_url url_info in
  let store_name := info_store url_info in
  let google_title := info_title url_info in
  content <- py_get result "content" (PStr "") ;;
  match content with
  | PStr html =>
      if Nat.ltb 100 (String.length html) then
        extracted <- Cascade.extract_products_from_html html ;;
        let search_term :=
          if String.eqb product_name "" then google_title
          else PStr product_name in
        structured <- structured_offer store_name url search_term extracted ;;
        match structured with
        | Some best_match => Ok (Some best_match)
        | None =>
            match extract_price_for_store html store_name
                    (Qc_of_Z 10, Qc_of_Z 200) with
            | Some price =>
                if Qc_eqb price 0%Qc then Ok None
                else
                  title <- (if truthy google_title
                            then py_slice 100 google_title
                            else Ok (PStr (substring 0 100 product_name))) ;;
                  Ok (Some {| store := store_name;
                              price := price;
                              title := title;
                              url := PStr url;
                              source_api := "oxylabs_google";
                              match_score := Q2Qc (1 # 2);
                              is_multipack := None |})
            | None => Ok None
            end
        end
      else Ok None
  | _ => Ok None
  end.

(** The first result that returns an offer ends the loop. *)
Fixpoint first_offer (f : pyval -> res (option offer)) (l : list pyval)
  : res (option offer) :=
  match l with
  | [] => Ok None
  | result :: t =>
      found <- f result ;;
      match found with
      | Some o => Ok (Some o)
      | None => first_offer f t
      end
  end.

Definition scrape_product_url (url_info : url_info) (product_name : string)
    (data_results : list pyval) : option offer :=
  match first_offer (product_result url_info product_name) data_results with
  | Ok found => found
  | Raise _ => None
  end.

(** *** [scrape_amazon_mexico], lines 689-812 *)

(** The products of a result, lines 722-738. *)
Definition amazon_products (content : pyval) : res pyval :=
  match content with
  | PDict d =>
      if dict_has d "results"
         && is_dict (Cascade.get_or d "results" PNone) then
        py_get (Cascade.get_or d "results" PNone) "organic" (PList [])
      else if dict_has d "organic" then
        Ok (Cascade.get_or d "organic" (PList []))
      else Ok (PList [])
  | PList _ => Ok content
  | _ => Ok (PList [])
  end.

(** The body of the loop over the products, lines 743-781. *)
Definition amazon_product (query product_name : string) (min_match_score : Qc)
    (valid_products : list offer) (product : pyval) : res (list offer) :=
  match product with
  | PDict d =>
      let price := Cascade.get_or d "price" PNone in
      let price_str :=
        Cascade.get_or d "price_string" (Cascade.get_or d "price_upper" (PStr "")) in
      let title := Cascade.get_or d "title" (PStr "") in
      let url := Cascade.get_or d "url" (Cascade.get_or d "url_product" (PStr "")) in
      let asin := Cascade.get_or d "asin" (PStr "") in
      match_score <- title_score (PStr (str_or product_name query)) title ;;
      price_float <- (if truthy price then float_or_pass price else Ok None) ;;
      let price_float :=
        match price_float with
        | Some p =>
            if Qc_eqb p 0%Qc && truthy price_str
            then extract_price_from_text (py_str price_str)
            else price_float
        | None =>
            if truthy price_str
            then extract_price_from_text (py_str price_str)
            else None
        end in
      match price_float with
      | Some p =>
          if negb (Qc_eqb p 0%Qc) && Cascade.plausible 10 5000 p
             && Qc_leb min_match_score match_score then
            multipack <- title_is_multipack title ;;
            _ <- py_slice 50 title ;;
            let full_url :=
              if truthy asin
              then PStr ("https://www.amazon.com.mx/dp/" ++ py_str asin)
              else url in
            title100 <- (if truthy title then py_slice 100 title
                         else Ok (PStr "")) ;;
            Ok (valid_products ++ [{| store := "Amazon Mexico";
                                      price := p;
                                      title := title100;
                                      url := full_url;
                                      source_api := "oxylabs";
                                      match_score := match_score;
                                      is_multipack := Some multipack |}])
          else Ok valid_products
      | None => Ok valid_products
      end
  | _ => Ok valid_products
  end.

Definition is_pack (p : offer) : bool :=
  match is_multipack p with
  | Some b => b
  | None => false
  end.

(** The order of [(-match_score, price)]: [a] does not come after [b]. *)
Definition better_or_equal (a b : offer) : bool :=
  Qc_ltb (match_score b) (match_score a)
  || (Qc_eqb (match_score a) (match_score b) && Qc_leb (price a) (price b)).

(** The choice among the valid products, lines 788-800. *)
Definition best_match (valid_products : list offer) : option offer :=
  let unitarios := filter (fun p => negb (is_pack p)) valid_products in
  let multipacks := filter is_pack valid_products in
  let candidates := if is_nil unitarios then multipacks else unitarios in
  hd_error (sort_by better_or_equal candidates).

(** The body of the loop over the results, lines 721-803. *)
Definition amazon_result (query product_name : string) (min_match_score : Qc)
    (results : list offer) (result : pyval) : res (list offer) :=
  content <- py_get result "content" (PDict []) ;;
  products <- amazon_products content ;;
  _ <- py_len products ;;
  first15 <- py_slice 15 products ;;
  items <- Cascade.py_iter first15 ;;
  valid_products <- Cascade.fold_res
                      (amazon_product query product_name min_match_score)
                      [] items ;;
  match best_match valid_products with
  | Some best_match => Ok (results ++ [best_match])
  | None => Ok results
  end.

Definition scrape_amazon_mexico (query product_name : string)
    (min_match_score : Qc) (data_results : list pyval) : list offer :=
  Cascade.fold_caught (amazon_result query product_name min_match_score)
                      [] data_results.

End Scrapers.

End Scrape.

(* ================================================================= *)
(** ** Search: from Google to the offers of one store each *)

(** [s.split()]: the words between runs of white space. *)
Fixpoint words (cur : list ascii) (l : list ascii) : list (list ascii) :=
  match l with
  | [] => if is_nil cur then [] else [rev cur]
  | c :: t =>
      if Text.is_space c
      then if is_nil cur then words [] t else rev cur :: words [] t
      else words (c :: cur) t
  end.

Definition split (s : string) : list string :=
  map Text.str (words [] (Text.chars s)).

(** The allow-list of [search_google_for_prices], lines 1283-1289. *)
Definition mexican_store_domains : list string :=
  [ "amazon.com.mx"; "walmart.com.mx"; "soriana.com"; "chedraui.com.mx";
    "heb.com.mx"; "fahorro.com"; "farmaciasguadalajara.com"; "lacomer.com.mx";
    "sams.com.mx"; "costco.com.mx"; "superama.com.mx"; "bodegaaurrera.com.mx";
    "liverpool.com.mx"; "coppel.com"; "mercadolibre.com.mx"; "sanborns.com.mx";
    "farmaciasdelahorro.com.mx"; "farmaciasanpablo.com.mx" ].

(** [identify_store_from_domain], lines 1386-1408. *)
Definition domain_to_store : dict string :=
  [ ("amazon.com.mx", "Amazon Mexico");
    ("walmart.com.mx", "Walmart Mexico");
    ("soriana.com", "Soriana");
    ("chedraui.com.mx", "Chedraui");
    ("heb.com.mx", "HEB");
    ("fahorro.com", "Farmacias del Ahorro");
    ("farmaciasdelahorro.com.mx", "Farmacias del Ahorro");
    ("farmaciasguadalajara.com", "Farmacias Guadalajara");
    ("lacomer.com.mx", "La Comer");
    ("sams.com.mx", "Sam's Club");
    ("costco.com.mx", "Costco");
    ("superama.com.mx", "Superama");
    ("bodegaaurrera.com.mx", "Bodega Aurrera");
    ("liverpool.com.mx", "Liverpool");
    ("coppel.com", "Coppel");
    ("mercadolibre.com.mx", "Mercado Libre");
    ("sanborns.com.mx", "Sanborns");
    ("farmaciasanpablo.com.mx", "Farmacias San Pablo") ].

Definition identify_store_from_domain (domain : string) : string :=
  field (dict_get domain domain_to_store) domain.

(** The loop over the allow-list, lines 1336-1347: the first domain the
    lower-cased URL contains. *)
Definition store_domain (url_lower : string) : option string :=
  find (fun domain => Text.contains domain url_lower) mexican_store_domains.

(** A loop that appends to a list and may raise inside
    [try: ... except Exception]: what was appended before the exception
    stays. *)
Definition kept (A : Type) : Type := (A * option exn)%type.

Fixpoint fold_kept {A B : Type} (f : A -> B -> kept A) (acc : A) (l : list B)
  : kept A :=
  match l with
  | [] => (acc, None)
  | x :: t =>
      match f acc x with
      | (acc', None) => fold_kept f acc' t
      | (acc', Some e) => (acc', Some e)
      end
  end.

Definition keep {A : Type} (acc : A) (r : res A) : kept A :=
  match r with
  | Ok a => (a, None)
  | Raise e => (acc, Some e)
  end.

(** One organic or shopping item, lines 1331-1347 and 1351-1367. *)
Definition google_item (shopping : bool) (urls_found : list Scrape.url_info)
    (item : pyval) : kept (list Scrape.url_info) :=
  keep urls_found
    (url <- py_get item "url" (PStr "") ;;
     title <- py_get item "title" (PStr "") ;;
     price <- (if shopping then py_get item "price" (PStr "") else Ok PNone) ;;
     match url with
     | PStr u =>
         match store_domain (Text.lower u) with
         | Some domain =>
             let store_name := identify_store_from_domain domain in
             Ok (urls_found ++
                 [{| Scrape.info_url := u;
                     Scrape.info_title := title;
                     Scrape.info_store := store_name;
                     Scrape.info_domain := domain;
                     Scrape.info_google_price :=
                       if shopping then Some price else None |}])
         | None => Ok urls_found
         end
     | _ => Raise AttributeError
     end).

(** The organic results of a content, lines 1325-1331, and its shopping
    results, lines 1350-1351. *)
Definition organic_items (content : pyval) : res (list pyval) :=
  results <- py_get content "results" (PDict []) ;;
  organic <- py_get results "organic" (PList []) ;;
  organic <- (if negb (truthy organic) && is_dict content
              then py_get content "organic" (PList [])
              else Ok organic) ;;
  _ <- py_len organic ;;
  first20 <- py_slice 20 organic ;;
  Cascade.py_iter first20.

Definition shopping_items (content : pyval) : res (list pyval) :=
  results <- py_get content "results" (PDict []) ;;
  shopping <- py_get results "shopping" (PList []) ;;
  first10 <- py_slice 10 shopping ;;
  Cascade.py_iter first10.

(** The body of the loop over the results, lines 1321-1367. *)
Definition google_result (urls_found : list Scrape.url_info) (result : pyval)
  : kept (list Scrape.url_info) :=
  match py_get result "content" (PDict []) with
  | Raise e => (urls_found, Some e)
  | Ok content =>
      match organic_items content with
      | Raise e => (urls_found, Some e)
      | Ok organic =>
          match fold_kept (google_item false) urls_found organic with
          | (urls_found, Some e) => (urls_found, Some e)
          | (urls_found, None) =>
              match shopping_items content with
              | Raise e => (urls_found, Some e)
              | Ok shopping => fold_kept (google_item true) urls_found shopping
              end
          end
      end
  end.

(** The removal of repeated URLs, lines 1375-1381. *)
Definition unique_step (st : list string * list Scrape.url_info)
    (item : Scrape.url_info) : list string * list Scrape.url_info :=
  let '(seen_urls, unique_urls) := st in
  if in_list (Scrape.info_url item) seen_urls then st
  else (Scrape.info_url item :: seen_urls, unique_urls ++ [item]).

Definition unique_by_url (urls_found : list Scrape.url_info)
  : list Scrape.url_info :=
  snd (fold_left unique_step urls_found ([], [])).

(** [search_google_for_prices], lines 1277-1384, from the decoded answer
    of the search: [None] stands for an answer without a body of status
    200, after which nothing has been found. *)
Definition search_google_for_prices (data : option pyval)
  : list Scrape.url_info :=
  let urls_found :=
    match data with
    | Some data =>
        match results <- py_get data "results" (PList []) ;;
              Cascade.py_iter results with
        | Ok results => fst (fold_kept google_result [] results)
        | Raise _ => []
        end
    | None => []
    end in
  unique_by_url urls_found.

(** The name [search_prices_oxylabs] searches for, lines 1603-1604. *)
Definition clean_product_name (product_name : string) : string :=
  if String.eqb product_name "" then product_name
  else substring 0 80 (String.concat " " (split product_name)).

(** The pages to scrape, lines 1624-1640: those of the search by code, then
    the new ones of the search by name when the first gave fewer than ten. *)
Definition google_urls (product_name upc : string)
    (upc_data name_data : option pyval) : list Scrape.url_info :=
  let google_urls :=
    if negb (String.eqb upc "") then search_google_for_prices upc_data
    else [] in
  if negb (String.eqb product_name "") && Nat.ltb (length google_urls) 10 then
    let name_urls := search_google_for_prices name_data in
    let existing_urls := map Scrape.info_url google_urls in
    google_urls
    ++ filter (fun url_info =>
                 negb (in_list (Scrape.info_url url_info) existing_urls))
              name_urls
  else google_urls.

(** The stores scraped directly besides, lines 1662-1674: the priority
    stores whose name no found page carries. *)
Definition priority_stores : list string :=
  ["walmart"; "chedraui"; "heb"; "fguadalajara"].

Definition direct_stores (google_urls : list Scrape.url_info) : list string :=
  let stores_in_google :=
    map (fun u => Text.lower (Scrape.info_store u)) google_urls in
  filter (fun store_key =>
            let store_name :=
              match dict_get store_key Scrape.MEXICAN_STORES with
              | Some store_config => Text.lower (Scrape.name store_config)
              | None => ""
              end in
            negb (existsb (Text.contains store_name) stores_in_google))
         priority_stores.

(** The last loop of [search_prices_oxylabs], lines 1721-1735: of the
    offers priced from 5 to 500, one per store, the first of the best
    score. *)
Definition validate_step (stores_seen : dict Scrape.offer)
    (result : Scrape.offer) : dict Scrape.offer :=
  let store := Scrape.store result in
  let score := Scrape.match_score result in
  let price := Scrape.price result in
  if negb (Cascade.plausible 5 500 price) then stores_seen
  else
    match dict_get store stores_seen with
    | None => dict_set store result stores_seen
    | Some seen =>
        if Qc_ltb (Scrape.match_score seen) score
        then dict_set store result stores_seen
        else stores_seen
    end.

Definition validated_results (all_results : list Scrape.offer)
  : list Scrape.offer :=
  dict_values (fold_left validate_step all_results []).

(** The last filter of [search_prices_direct], line 1792. *)
Definition direct_results (all_results : list Scrape.offer)
  : list Scrape.offer :=
  filter (fun r => Qc_leb (Q2Qc (1 # 4)) (Scrape.match_score r)) all_results.


(* ================================================================= *)
(** ** The text of the database query *)

(** The text [search_products_in_database] splices into its SQL string
    literals, lines 121-125: the query with every single quote doubled,
    and the first five words of it that have more than two characters. *)
Definition clean_query (query : string) : string :=
  Text.strip (Text.replace "'" "''" query).

Definition query_keywords (clean_query : string) : list string :=
  filter (fun kw => Nat.ltb 2 (String.length kw)) (firstn 5 (split clean_query)).

(* ================================================================= *)
(** ** Notions used to state the properties *)

(** What the consolidator reads from an offer: its store key, its flag, and
    the price as a float when the offer is not skipped. *)
Definition offer_key (it : price_item) : string :=
  store_key_of (field (item_store it) "Desconocido").

Definition offer_estimated (it : price_item) : bool :=
  field (item_estimated it) false.

Definition offer_float (it : price_item) : option Qc :=
  let raw := field (item_price it) PNone in
  if truthy raw then
    match price_to_float raw with Ok p => Some p | Raise _ => None end
  else None.

(** The entry an offer becomes when it is stored. *)
Definition entry_of (it : price_item) (p : Qc) : store_entry :=
  new_entry (offer_key it) p it (offer_estimated it).

(** The price fields that make the consolidator skip an offer: a missing
    key, [None], a number equal to zero ([False] counts as 0), or a string
    whose digits and dots do not spell a number. *)
Definition no_usable_price (raw : option pyval) : bool :=
  match raw with
  | None => true
  | Some PNone => true
  | Some (PBool b) => negb b
  | Some (PInt z) => Z.eqb z 0
  | Some (PFloat q) => Qc_eqb q 0%Qc
  | Some (PStr s) =>
      match Num.float_of_str (digits_and_dots s) with
      | Ok _ => false
      | Raise _ => true
      end
  | Some _ => false
  end.

(** The decision the consolidator takes on an offer with a usable price. *)
Definition replaces (it : price_item) (p : Qc) (existing : store_entry) : bool :=
  (estimated existing && negb (offer_estimated it))
  || (Bool.eqb (estimated existing) (offer_estimated it)
      && Qc_ltb p (price existing)).

(** [e] is the best offer of [l] for the store [k]: it is one of the usable
    offers of the list for [k]; it is estimated only when all of them are;
    and no offer of its own class is cheaper. *)
Definition best_for (l : list price_item) (k : string) (e : store_entry) : Prop :=
  (exists it p, In it l /\ offer_key it = k /\ offer_float it = Some p
                /\ e = entry_of it p)
  /\ (forall it p, In it l -> offer_key it = k -> offer_float it = Some p ->
        (estimated e = true -> offer_estimated it = true)
        /\ (offer_estimated it = estimated e -> (price e <= p)%Qc)).

(** What [consolidate_prices] holds for each store. *)
Definition consolidated_for (l : list price_item) (k : string)
    (r : option store_entry) : Prop :=
  match r with
  | None => forall it, In it l -> offer_key it = k -> offer_float it = None
  | Some e => best_for l k e
  end.

(** The order of the response: ascending price. *)
Definition price_le (a b : store_entry) : Prop := (price a <= price b)%Qc.

(** Whether the bonus applies: the first keyword of the query's set, in the
    order the set enumerates them, is among the candidate's keywords. *)
Definition bonus_applies `{SetOrder} (search_keywords found_keywords : list string)
  : bool :=
  match hd_error (set_list search_keywords) with
  | Some first => in_list first found_keywords
  | None => false
  end.

(** Every extracted offer passed the bound [lo <= price <= hi]. *)
Definition all_plausible (lo hi : Z) (products : list Cascade.product) : Prop :=
  Forall (fun p => Cascade.plausible lo hi (Cascade.price p) = true) products.

(** What a store entry says about the offer, without where it came from. *)
Definition summary (e : option store_entry) : option (string * Qc * bool) :=
  match e with
  | Some x => Some (store x, price x, estimated x)
  | None => None
  end.

(** [e] is the entry of the first offer of [l] among the usable offers for
    the store [k] that have the class and the price of [e]: the offer
    whose url and source the entry carries. *)
Definition first_among_ties (l : list price_item) (k : string)
    (e : store_entry) : Prop :=
  exists l1 w pw l2,
    l = l1 ++ w :: l2
    /\ offer_key w = k /\ offer_float w = Some pw /\ e = entry_of w pw
    /\ (forall it, In it l1 -> offer_key it = k -> offer_float it = Some pw ->
          offer_estimated it <> offer_estimated w).

(** The plausibility range [lo <= p <= hi]. *)
Definition within_range (lo hi p : Qc) : Prop := (lo <= p)%Qc /\ (p <= hi)%Qc.

(** The Jaccard similarity of two keyword sets. *)
Definition jaccard (a b : list string) : Qc :=
  (Qc_of_nat (length (set_inter a b)) / Qc_of_nat (length (set_union a b)))%Qc.

(** An offer with a store, a price, a flag and a source URL. *)
Definition offer (s : string) (p : pyval) (est : bool) (u : string) : price_item :=
  {| item_store := Some s; item_price := Some p; item_estimated := Some est;
     item_url := Some u; item_source_api := Some "oxylabs" |}.

(** Two verified offers of one store at one price, from two pages. *)
Definition tie_first : price_item :=
  offer "Soriana" (PFloat (Qc_of_Z 20)) false "https://soriana.example/a".

Definition tie_second : price_item :=
  offer "Soriana Super" (PFloat (Qc_of_Z 20)) false "https://soriana.example/b".

(** An offer whose price is the text of a zero. *)
Definition text_zero_offer : price_item :=
  offer "Soriana" (PStr "0") false "https://soriana.example/a".

(** An offer far above every plausibility bound of the source. *)
Definition million_offer : price_item :=
  offer "Soriana" (PInt 1000000) false "https://soriana.example/a".

(** A page text in which every backquote stands for a double quote. *)
Definition page (s : string) : string :=
  Text.str (map (fun c => if Text.is_code 96 c then ascii_of_N 34 else c)
                (Text.chars s)).

(** A result page, longer than the 100 characters the callers ask for,
    whose JSON-LD block is a product priced 1.50. *)
Definition cheap_jsonld_page : string :=
  page "<html><head><title>Resultados de busqueda: agua</title><script type=`application/ld+json`>{`@context`:`https://schema.org`,`@type`:`Product`,`name`:`Agua Natural 600 ml`,`offers`:{`@type`:`Offer`,`priceCurrency`:`MXN`,`price`:`1.50`}}</script></head><body></body></html>".

(** A result page whose JSON-LD block is an item list that names each item
    by its URL. *)
Definition url_items_jsonld_page : string :=
  page "<html><head><title>Resultados de busqueda: agua</title><script type=`application/ld+json`>{`@context`:`https://schema.org`,`@type`:`ItemList`,`itemListElement`:[{`@type`:`ListItem`,`position`:1,`item`:`https://www.tienda.example/agua-600`}]}</script></head><body></body></html>".

(** A page whose JSON-LD block is a list that holds a number. *)
Definition number_jsonld_page : string :=
  "<script type='application/ld+json'>[1]</script>".

(** The names [store_key_of] gives to the stores it knows. *)
Definition canonical_stores : list string :=
  [ "Amazon Mexico"; "Walmart Mexico"; "Mercado Libre"; "Soriana"; "Chedraui";
    "Farmacias Guadalajara"; "Farmacias del Ahorro"; "Farmacias Benavides";
    "Sam's Club"; "Costco"; "HEB"; "Liverpool"; "Coppel"; "La Comer" ].

(** The number a match of a price pattern spells: the text without its
    commas read as a float; when the pattern is one of minor units and the
    number is above 10000, its hundredth. *)
Definition spelled_price (minor : bool) (found : string) : option Qc :=
  match Num.float_of_str (Text.replace "," "" found) with
  | Ok p =>
      Some (if minor && Qc_ltb (Qc_of_Z 10000) p
            then (p / Qc_of_Z 100)%Qc else p)
  | Raise _ => None
  end.

(** The numbers the matches of the patterns spell in a text, whatever the
    range. *)
Definition price_candidates (patterns : list (Re.regex * bool))
    (content : string) : list Qc :=
  flat_map (fun pattern =>
              flat_map (fun found =>
                          match spelled_price (snd pattern) found with
                          | Some p => [p]
                          | None => []
                          end)
                       (Re.findall1 true (fst pattern) content))
           patterns.

(** The patterns [extract_price_for_store] uses for a store. *)
Definition patterns_for_store (store_name : string) : list (Re.regex * bool) :=
  field (dict_get store_name Pat.store_price_patterns) []
  ++ Pat.generic_price_patterns.

(** [s] occurs in [t] as a run of consecutive characters. *)
Definition occurs_in (s t : list ascii) : Prop :=
  exists before after, t = before ++ s ++ after.

(** A state of the matcher inside the text [t]: it stands at a position of
    [t], and what it has captured are runs of [t]. *)
Definition state_in (t : list ascii) (st : Re.mstate) : Prop :=
  (exists before, t = before ++ Re.rest st)
  /\ Forall (fun c => occurs_in (snd c) t) (Re.caps st).

(** The two loops of the matcher, with their counters as arguments. *)
Definition star_loop {A : Type} (icase g : bool) (r : Re.regex)
    (k : Re.mstate -> option A) : nat -> Re.mstate -> option A :=
  fix loop (n : nat) (st : Re.mstate) {struct n} : option A :=
    match n with
    | O => k st
    | S n' =>
        if g then
          match Re.m icase r st (fun st' =>
                  if Nat.ltb (length (Re.rest st')) (length (Re.rest st))
                  then loop n' st' else None) with
          | Some x => Some x
          | None => k st
          end
        else
          match k st with
          | Some x => Some x
          | None =>
              Re.m icase r st (fun st' =>
                if Nat.ltb (length (Re.rest st')) (length (Re.rest st))
                then loop n' st' else None)
          end
    end.

Definition rep_loop {A : Type} (icase g : bool) (r : Re.regex)
    (k : Re.mstate -> option A) : nat -> nat -> Re.mstate -> option A :=
  fix loop (lo hi : nat) (st : Re.mstate) {struct hi} : option A :=
    match hi with
    | O => k st
    | S hi' =>
        match lo with
        | S lo' => Re.m icase r st (fun st' => loop lo' hi' st')
        | O =>
            if g then
              match Re.m icase r st (fun st' => loop 0 hi' st') with
              | Some x => Some x
              | None => k st
              end
            else
              match k st with
              | Some x => Some x
              | None => Re.m icase r st (fun st' => loop 0 hi' st')
              end
        end
    end.

(** Whether a text has a decimal digit in it. *)
Definition has_digit (s : string) : bool :=
  existsb Text.is_digit (Text.chars s).

(** The range the last loop of [search_prices_oxylabs] keeps. *)
Definition in_final_range (r : Scrape.offer) : bool :=
  Cascade.plausible 5 500 (Scrape.price r).

(** [r] is the offer the last loop keeps for the store [k] out of [l]: an
    offer of [l] for [k] in the range, whose score no other such offer
    exceeds. *)
Definition best_scored (l : list Scrape.offer) (k : string) (r : Scrape.offer)
  : Prop :=
  In r l /\ Scrape.store r = k /\ in_final_range r = true
  /\ forall r', In r' l -> Scrape.store r' = k -> in_final_range r' = true ->
                (Scrape.match_score r' <= Scrape.match_score r)%Qc.

Definition validated_for (l : list Scrape.offer) (k : string)
    (found : option Scrape.offer) : Prop :=
  match found with
  | Some r => best_scored l k r
  | None => forall r', In r' l -> Scrape.store r' = k ->
                       in_final_range r' = false
  end.

(** A found page is classified: its domain is on the allow-list and occurs
    in its lower-cased URL, and its store is the one the table gives to the
    domain. *)
Definition classified (u : Scrape.url_info) : Prop :=
  In (Scrape.info_domain u) mexican_store_domains
  /\ Text.contains (Scrape.info_domain u) (Text.lower (Scrape.info_url u)) = true
  /\ In (Scrape.info_domain u, Scrape.info_store u) domain_to_store.

(** An offer made from the products the cascade extracts from a page of a
    store: one of the products, priced from 10 to 5000, with the first 100
    characters of its title and the score of its title against the search
    term, a positive score that reaches the score asked for. *)
Definition extracted_offer `{SetOrder} (store_name search_url search_term : string)
    (min_match_score : Qc) (extracted : list Cascade.product)
    (o : Scrape.offer) : Prop :=
  Scrape.store o = store_name
  /\ Scrape.url o = PStr search_url
  /\ Scrape.source_api o = "oxylabs"
  /\ Scrape.is_multipack o = None
  /\ exists prod,
       In prod extracted
       /\ Scrape.price o = Cascade.price prod
       /\ py_slice 100 (Cascade.title prod) = Ok (Scrape.title o)
       /\ title_score (PStr search_term) (Cascade.title prod)
          = Ok (Scrape.match_score o)
       /\ Cascade.plausible 10 5000 (Scrape.price o) = true
       /\ (min_match_score <= Scrape.match_score o)%Qc
       /\ (0 < Scrape.match_score o)%Qc /\ (Scrape.match_score o <= 1)%Qc.

(** An offer made from the text of a page of a store: the least number
    between 15 and 100 among those the patterns of the store find in the
    text, at the score 0.5 under the query as its title. *)
Definition pattern_offer (store_key store_name search_url query html : string)
    (o : Scrape.offer) : Prop :=
  Scrape.store o = store_name
  /\ Scrape.url o = PStr search_url
  /\ Scrape.source_api o = "oxylabs"
  /\ Scrape.is_multipack o = None
  /\ In (Scrape.price o)
        (price_candidates (get_store_specific_patterns store_key) html)
  /\ within_range (Qc_of_Z 15) (Qc_of_Z 100) (Scrape.price o)
  /\ (forall q,
        In q (price_candidates (get_store_specific_patterns store_key) html) ->
        within_range (Qc_of_Z 15) (Qc_of_Z 100) q -> (Scrape.price o <= q)%Qc)
  /\ Scrape.match_score o = Q2Qc (1 # 2)
  /\ Scrape.title o = PStr query.

(** What [scrape_store_universal] may return for a store: an offer made
    from one page of the response whose content is a text of more than 100
    characters; from the products the cascade extracts from it when there
    are any, and from the patterns of the store when there are none. *)
Definition universal_offer `{SetOrder} (store_key store_name search_url query
    search_term : string) (min_match_score : Qc) (pages : list pyval)
    (o : Scrape.offer) : Prop :=
  exists result html,
    In result pages
    /\ py_get result "content" (PStr "") = Ok (PStr html)
    /\ Nat.ltb 100 (String.length html) = true
    /\ ((exists extracted,
           Cascade.extract_products_from_html html = Ok extracted
           /\ extracted <> []
           /\ extracted_offer store_name search_url search_term
                              min_match_score extracted o)
        \/ (Cascade.extract_products_from_html html = Ok []
            /\ pattern_offer store_key store_name search_url query html o)).


(** What [scrape_amazon_mexico] may return. *)
Definition amazon_offer (min_match_score : Qc) (o : Scrape.offer) : Prop :=
  Scrape.store o = "Amazon Mexico"
  /\ Scrape.source_api o = "oxylabs"
  /\ Scrape.is_multipack o <> None
  /\ Cascade.plausible 10 5000 (Scrape.price o) = true
  /\ (min_match_score <= Scrape.match_score o)%Qc
  /\ (0 <= Scrape.match_score o)%Qc /\ (Scrape.match_score o <= 1)%Qc.

(** A text whose only white space is single spaces between words: no
    leading space, no two spaces in a row, no other white space.
    [after_space] tells whether the text follows a space. *)
Fixpoint single_spaced (after_space : bool) (l : list ascii) : bool :=
  match l with
  | [] => true
  | c :: t =>
      if Text.is_code 32 c then negb after_space && single_spaced true t
      else negb (Text.is_space c) && single_spaced false t
  end.

(** What the consolidator reads of an offer of a scraper. *)
Definition offered (o : Scrape.offer) (it : price_item) : Prop :=
  item_store it = Some (Scrape.store o)
  /\ item_price it = Some (PFloat (Scrape.price o))
  /\ item_estimated it = None.

(** A result page, longer than 100 characters, with one product in its
    markup. *)
Definition markup_page : string :=
  page "<html><head><title>Resultados de busqueda</title></head><body><div class=`item`><h2>Suero Electrolit Coco 625 ml</h2><span class=`price`>$ 24.50</span></div></body></html>".


(** A result page, longer than 100 characters, that shows two prices under
    a class and no product any strategy of the cascade reads. *)
Definition two_prices_page : string :=
  page "<html><head><title>Resultados de busqueda</title></head><body><div class=`item`><span class=`price`>$ 31.90</span></div><div class=`item`><span class=`price`>$ 24.50</span></div></body></html>".

(** The result of the scraping service that holds a page. *)
Definition page_result (html : string) : pyval :=
  PDict [("content", PStr html)].

(** A page Google found at Walmart. *)
Definition walmart_page : Scrape.url_info :=
  {| Scrape.info_url := "https://www.walmart.com.mx/ip/electrolit-coco/00750";
     Scrape.info_title := PStr "Electrolit Coco 625 ml | Walmart";
     Scrape.info_store := "Walmart Mexico";
     Scrape.info_domain := "walmart.com.mx";
     Scrape.info_google_price := None |}.

(** A product of the Amazon search, as the scraping service gives it. *)
Definition amazon_item (title : string) (price : Z) (asin : string) : pyval :=
  PDict [("title", PStr title); ("price", PInt price); ("asin", PStr asin);
         ("url", PStr "/dp/ref")].

(** An offer of a scraper, for a store at a price and a score. *)
Definition scraped (store : string) (price score : Qc) : Scrape.offer :=
  {| Scrape.store := store; Scrape.price := price; Scrape.title := PStr "";
     Scrape.url := PStr ""; Scrape.source_api := "oxylabs";
     Scrape.match_score := score; Scrape.is_multipack := None |}.

(** A text in which every single quote stands in a pair of two quotes in a
    row, as the body of an SQL string literal must have them. *)
Fixpoint quotes_paired (l : list ascii) : bool :=
  match l with
  | [] => true
  | c :: t =>
      if Text.is_code 39 c then
        match t with
        | d :: t' => Text.is_code 39 d && quotes_paired t'
        | [] => false
        end
      else quotes_paired t
  end.

(* ================================================================= *)
(** ** Dictionaries *)

Lemma dict_get_set_same {V : Type} (k : string) (v : V) (d : dict V) :
  dict_get k (dict_set k v d) = Some v.
Proof.
  induction d as [|[k' v'] t IH]; simpl.
  - now rewrite String.eqb_refl.
  - destruct (String.eqb k k') eqn:E; simpl.
    + now rewrite String.eqb_refl.
    + now rewrite E.
Qed.

Lemma dict_get_set_other {V : Type} (k k0 : string) (v : V) (d : dict V) :
  k0 <> k -> dict_get k0 (dict_set k v d) = dict_get k0 d.
Proof.
  intros Hne. induction d as [|[k' v'] t IH]; simpl.
  - destruct (String.eqb k0 k) eqn:E; [|reflexivity].
    apply String.eqb_eq in E. contradiction.
  - destruct (String.eqb k k') eqn:E; simpl.
    + apply String.eqb_eq in E. subst k'.
      destruct (String.eqb k0 k) eqn:E0; [|reflexivity].
      apply String.eqb_eq in E0. contradiction.
    + now rewrite IH.
Qed.

(* ================================================================= *)
(** ** Floats *)

Lemma Qc_ltb_lt (a b : Qc) : Qc_ltb a b = true <-> (a < b)%Qc.
Proof.
  unfold Qc_ltb. rewrite Qclt_alt.
  destruct (a ?= b)%Qc; split; intros H; congruence.
Qed.

Lemma Qc_leb_le (a b : Qc) : Qc_leb a b = true <-> (a <= b)%Qc.
Proof.
  unfold Qc_leb. rewrite Qcle_alt.
  destruct (a ?= b)%Qc; split; intros H; congruence.
Qed.

Lemma Qc_ltb_ge (a b : Qc) : Qc_ltb a b = false <-> (b <= a)%Qc.
Proof.
  split; intros H.
  - apply Qcnot_lt_le. intros L. apply Qc_ltb_lt in L. congruence.
  - destruct (Qc_ltb a b) eqn:E; [|reflexivity].
    apply Qc_ltb_lt in E. exfalso. now apply (Qcle_not_lt _ _ H).
Qed.

Lemma Qc_leb_gt (a b : Qc) : Qc_leb a b = false <-> (b < a)%Qc.
Proof.
  split; intros H.
  - apply Qcnot_le_lt. intros L. apply Qc_leb_le in L. congruence.
  - destruct (Qc_leb a b) eqn:E; [|reflexivity].
    apply Qc_leb_le in E. exfalso. now apply (Qclt_not_le _ _ H).
Qed.

(* ================================================================= *)
(** ** The consolidator, one offer at a time *)

(** An offer without a usable price leaves the stores as they are. *)
Lemma consolidate_step_skip (stores : dict store_entry) (it : price_item) :
  offer_float it = None -> consolidate_step stores it = stores.
Proof.
  unfold offer_float, consolidate_step.
  destruct (truthy (field (item_price it) PNone)); simpl; [|reflexivity].
  destruct (price_to_float (field (item_price it) PNone)); [discriminate|reflexivity].
Qed.

Lemma consolidate_step_usable (stores : dict store_entry) (it : price_item) (p : Qc) :
  offer_float it = Some p ->
  consolidate_step stores it =
    match dict_get (offer_key it) stores with
    | None => dict_set (offer_key it) (entry_of it p) stores
    | Some existing =>
        if replaces it p existing
        then dict_set (offer_key it) (entry_of it p) stores
        else stores
    end.
Proof.
  unfold offer_float, consolidate_step, replaces, entry_of, offer_key, offer_estimated.
  destruct (truthy (field (item_price it) PNone)); simpl; [|discriminate].
  destruct (price_to_float (field (item_price it) PNone)) as [q|]; [|discriminate].
  intros H. injection H as ->.
  destruct (dict_get _ stores) as [existing|]; [|reflexivity].
  destruct (estimated existing), (field (item_estimated it) false); simpl;
    try reflexivity.
Qed.

Lemma consolidate_prices_snoc (l : list price_item) (it : price_item) :
  consolidate_prices (l ++ [it]) = consolidate_step (consolidate_prices l) it.
Proof. unfold consolidate_prices. now rewrite fold_left_app. Qed.

Lemma best_for_snoc_keep (l : list price_item) (it : price_item) (k : string)
    (e : store_entry) :
  best_for l k e ->
  (forall p, offer_key it = k -> offer_float it = Some p ->
     (estimated e = true -> offer_estimated it = true)
     /\ (offer_estimated it = estimated e -> (price e <= p)%Qc)) ->
  best_for (l ++ [it]) k e.
Proof.
  intros [(w & pw & Hin & Hk & Hf & He) Hmin] Hnew. split.
  - exists w, pw. repeat split; auto. apply in_or_app. now left.
  - intros it' p' Hin' Hk' Hf'. apply in_app_or in Hin' as [Hin'|[<-|[]]].
    + now apply Hmin.
    + now apply Hnew.
Qed.

Lemma best_for_snoc_new (l : list price_item) (it : price_item) (p : Qc) :
  offer_float it = Some p ->
  (forall it' p', In it' l -> offer_key it' = offer_key it ->
     offer_float it' = Some p' ->
     (offer_estimated it = true -> offer_estimated it' = true)
     /\ (offer_estimated it' = offer_estimated it -> (p <= p')%Qc)) ->
  best_for (l ++ [it]) (offer_key it) (entry_of it p).
Proof.
  intros Hf Hold. split.
  - exists it, p. repeat split; auto. apply in_or_app. right. now left.
  - intros it' p' Hin' Hk' Hf'. apply in_app_or in Hin' as [Hin'|[<-|[]]].
    + now apply Hold.
    + simpl. rewrite Hf in Hf'. injection Hf' as <-.
      split; [auto|]. intros _. apply Qcle_refl.
Qed.

(** The invariant of the loop. *)
Lemma consolidate_prices_spec (l : list price_item) (k : string) :
  consolidated_for l k (dict_get k (consolidate_prices l)).
Proof.
  induction l as [|it l IH] using rev_ind.
  - simpl. intros it [].
  - rewrite consolidate_prices_snoc.
    destruct (offer_float it) as [p|] eqn:Hf.
    2:{ rewrite (consolidate_step_skip _ _ Hf).
        destruct (dict_get k (consolidate_prices l)) as [e|]; simpl in *.
        - apply best_for_snoc_keep; [assumption|]. intros p _ H. congruence.
        - intros it' Hin Hk. apply in_app_or in Hin as [Hin|[<-|[]]]; auto. }
    rewrite (consolidate_step_usable _ _ _ Hf).
    destruct (string_dec k (offer_key it)) as [->|Hne].
    + (* the store of the new offer *)
      destruct (dict_get (offer_key it) (consolidate_prices l)) as [e|] eqn:Hget;
        simpl in IH.
      * destruct (replaces it p e) eqn:Hrep.
        -- rewrite dict_get_set_same. simpl.
           apply best_for_snoc_new; [assumption|].
           destruct IH as [_ Hmin]. intros it' p' Hin' Hk' Hf'.
           destruct (Hmin it' p' Hin' Hk' Hf') as [Hest Hle].
           unfold replaces in Hrep.
           destruct (estimated e) eqn:Ee, (offer_estimated it) eqn:Ei;
             simpl in Hrep; try discriminate.
           ++ apply Qc_ltb_lt in Hrep. split; [auto|]. intros Heq.
              apply Qclt_le_weak. eapply Qclt_le_trans; [exact Hrep|]. auto.
           ++ split; [discriminate|]. intros Heq.
              rewrite (Hest eq_refl) in Heq. discriminate.
           ++ apply Qc_ltb_lt in Hrep. split; [discriminate|]. intros Heq.
              apply Qclt_le_weak. eapply Qclt_le_trans; [exact Hrep|]. auto.
        -- rewrite Hget. simpl. apply best_for_snoc_keep; [assumption|].
           intros p' _ Hf'. rewrite Hf in Hf'. injection Hf' as <-.
           unfold replaces in Hrep.
           destruct (estimated e) eqn:Ee, (offer_estimated it) eqn:Ei;
             simpl in Hrep; try discriminate.
           ++ split; [auto|]. intros _. now apply Qc_ltb_ge.
           ++ split; [discriminate|]. discriminate.
           ++ split; [discriminate|]. intros _. now apply Qc_ltb_ge.
      * rewrite dict_get_set_same. simpl.
        apply best_for_snoc_new; [assumption|].
        intros it' p' Hin' Hk' Hf'. rewrite (IH it' Hin' Hk') in Hf'. discriminate.
    + (* another store *)
      assert (Hsame : dict_get k
                (match dict_get (offer_key it) (consolidate_prices l) with
                 | None => dict_set (offer_key it) (entry_of it p) (consolidate_prices l)
                 | Some existing =>
                     if replaces it p existing
                     then dict_set (offer_key it) (entry_of it p) (consolidate_prices l)
                     else consolidate_prices l
                 end) = dict_get k (consolidate_prices l)).
      { destruct (dict_get (offer_key it) (consolidate_prices l)) as [e|].
        - destruct (replaces it p e); [|reflexivity].
          now apply dict_get_set_other.
        - now apply dict_get_set_other. }
      rewrite Hsame.
      destruct (dict_get k (consolidate_prices l)) as [e|]; simpl in *.
      * apply best_for_snoc_keep; [assumption|]. intros p' Hk. congruence.
      * intros it' Hin Hk. apply in_app_or in Hin as [Hin|[<-|[]]]; auto.
        congruence.
Qed.

Lemma consolidate_prices_get (l : list price_item) (k : string) (e : store_entry) :
  dict_get k (consolidate_prices l) = Some e -> best_for l k e.
Proof.
  intros H. pose proof (consolidate_prices_spec l k) as S.
  now rewrite H in S.
Qed.

Lemma consolidate_prices_some (l : list price_item) (it : price_item) (p : Qc) :
  In it l -> offer_float it = Some p ->
  exists e, dict_get (offer_key it) (consolidate_prices l) = Some e.
Proof.
  intros Hin Hf. pose proof (consolidate_prices_spec l (offer_key it)) as S.
  destruct (dict_get (offer_key it) (consolidate_prices l)) as [e|].
  - now exists e.
  - simpl in S. rewrite (S it Hin eq_refl) in Hf. discriminate.
Qed.

(** An offer of the list changes nothing when it is consolidated again. *)
Lemma consolidate_step_again (l : list price_item) (it : price_item) :
  In it l ->
  consolidate_step (consolidate_prices l) it = consolidate_prices l.
Proof.
  intros Hin. destruct (offer_float it) as [p|] eqn:Hf.
  2:{ now apply consolidate_step_skip. }
  rewrite (consolidate_step_usable _ _ _ Hf).
  destruct (consolidate_prices_some l it p Hin Hf) as [e He].
  rewrite He. apply consolidate_prices_get in He.
  destruct He as [_ Hmin]. destruct (Hmin it p Hin eq_refl Hf) as [Hest Hle].
  unfold replaces.
  destruct (estimated e) eqn:Ee, (offer_estimated it) eqn:Ei; simpl;
    try reflexivity.
  - assert (L : (price e <= p)%Qc) by auto.
    apply Qc_ltb_ge in L. now rewrite L.
  - specialize (Hest eq_refl). discriminate.
  - assert (L : (price e <= p)%Qc) by auto.
    apply Qc_ltb_ge in L. now rewrite L.
Qed.

Lemma best_for_permutation (l l' : list price_item) (k : string) (e : store_entry) :
  Permutation l l' -> best_for l k e -> best_for l' k e.
Proof.
  intros HP [(w & pw & Hin & Hk & Hf & He) Hmin]. split.
  - exists w, pw. repeat split; auto. eapply Permutation_in; eauto.
  - intros it p Hin'. apply Hmin. eapply Permutation_in; [|exact Hin'].
    now apply Permutation_sym.
Qed.

(** Two best offers of one list for one store agree on store, price and
    flag. *)
Lemma best_for_summary (l : list price_item) (k : string) (e e' : store_entry) :
  best_for l k e -> best_for l k e' ->
  (store e, price e, estimated e) = (store e', price e', estimated e').
Proof.
  intros [(w & pw & Hin & Hk & Hf & He) Hmin]
         [(w' & pw' & Hin' & Hk' & Hf' & He') Hmin'].
  destruct (Hmin w' pw' Hin' Hk' Hf') as [A B].
  destruct (Hmin' w pw Hin Hk Hf) as [A' B'].
  assert (Ew : estimated e = offer_estimated w) by (subst e; reflexivity).
  assert (Ew' : estimated e' = offer_estimated w') by (subst e'; reflexivity).
  assert (Pw : price e = pw) by (subst e; reflexivity).
  assert (Pw' : price e' = pw') by (subst e'; reflexivity).
  assert (Sw : store e = k) by (subst e; simpl; assumption).
  assert (Sw' : store e' = k) by (subst e'; simpl; assumption).
  assert (Eest : estimated e = estimated e').
  { destruct (estimated e) eqn:E1, (estimated e') eqn:E2; try reflexivity.
    - rewrite (A eq_refl) in Ew'. discriminate.
    - rewrite (A' eq_refl) in Ew. discriminate. }
  assert (Eprice : price e = price e').
  { apply Qcle_antisym.
    - rewrite Pw'. apply B. congruence.
    - rewrite Pw. apply B'. congruence. }
  congruence.
Qed.

(* ================================================================= *)
(** ** Properties of the consolidator *)

(** C1.  Whenever the list holds an offer [v] with a usable price, its store
    has an entry, and the entry is one of the usable offers of the list for
    that store.  If [v] is verified the entry is verified, whatever the
    prices; the entry is no dearer than any offer of its own class; and an
    offer strictly cheaper than all others of its class is the one kept.
    A verified 30 beats an estimated 10 in both orders, and of two
    verified offers at 45 and 38 the one at 38 survives. *)
Theorem consolidate_prices_precedence :
  (forall (l : list price_item) (v : price_item) (pv : Qc),
      In v l -> offer_float v = Some pv ->
      exists e,
        dict_get (offer_key v) (consolidate_prices l) = Some e
        /\ (exists w pw, In w l /\ offer_key w = offer_key v
                         /\ offer_float w = Some pw /\ e = entry_of w pw)
        /\ (offer_estimated v = false -> estimated e = false)
        /\ (offer_estimated v = estimated e -> (price e <= pv)%Qc)
        /\ (offer_estimated v = estimated e ->
            (forall w pw, In w l -> offer_key w = offer_key v ->
               offer_float w = Some pw ->
               offer_estimated w = offer_estimated v ->
               w = v \/ (pv < pw)%Qc) ->
            e = entry_of v pv))
  /\ (forall u1 u2 : string,
        summary (dict_get "Soriana" (consolidate_prices
          [offer "Soriana" (PFloat (Qc_of_Z 30)) false u1;
           offer "Soriana" (PFloat (Qc_of_Z 10)) true u2]))
        = Some ("Soriana", Qc_of_Z 30, false)
        /\ summary (dict_get "Soriana" (consolidate_prices
          [offer "Soriana" (PFloat (Qc_of_Z 10)) true u2;
           offer "Soriana" (PFloat (Qc_of_Z 30)) false u1]))
        = Some ("Soriana", Qc_of_Z 30, false))
  /\ (forall u1 u2 : string,
        summary (dict_get "Soriana" (consolidate_prices
          [offer "Soriana" (PFloat (Qc_of_Z 45)) false u1;
           offer "Soriana" (PFloat (Qc_of_Z 38)) false u2]))
        = Some ("Soriana", Qc_of_Z 38, false)
        /\ summary (dict_get "Soriana" (consolidate_prices
          [offer "Soriana" (PFloat (Qc_of_Z 38)) false u2;
           offer "Soriana" (PFloat (Qc_of_Z 45)) false u1]))
        = Some ("Soriana", Qc_of_Z 38, false)).
Proof.
  split; [|split; intros u1 u2; split; reflexivity].
  intros l v pv Hin Hf.
  destruct (consolidate_prices_some l v pv Hin Hf) as [e He].
  exists e. split; [assumption|].
  apply consolidate_prices_get in He.
  destruct He as [(w & pw & Hw & Hk & Hfw & Ee) Hmin].
  destruct (Hmin v pv Hin eq_refl Hf) as [Hest Hle].
  split; [now exists w, pw|]. split; [|split].
  - intros Hv. destruct (estimated e); [|reflexivity].
    rewrite (Hest eq_refl) in Hv. discriminate.
  - assumption.
  - intros Hclass Hstrict.
    assert (Ew : estimated e = offer_estimated w) by (subst e; reflexivity).
    assert (Pw : price e = pw) by (subst e; reflexivity).
    destruct (Hstrict w pw Hw Hk Hfw) as [->|Hlt]; [congruence| |].
    + rewrite Hf in Hfw. injection Hfw as <-. assumption.
    + exfalso. specialize (Hle Hclass). rewrite Pw in Hle.
      now apply (Qcle_not_lt _ _ Hle).
Qed.

(** The theorem at a verified offer of 20 beside a verified offer of one
    million. *)
Lemma consolidate_prices_precedence_witness :
  exists e,
    dict_get (offer_key tie_first) (consolidate_prices [tie_first; million_offer])
    = Some e
    /\ (exists w pw, In w [tie_first; million_offer]
                     /\ offer_key w = offer_key tie_first
                     /\ offer_float w = Some pw /\ e = entry_of w pw)
    /\ (offer_estimated tie_first = false -> estimated e = false)
    /\ (offer_estimated tie_first = estimated e -> (price e <= Qc_of_Z 20)%Qc)
    /\ (offer_estimated tie_first = estimated e ->
        (forall w pw, In w [tie_first; million_offer] ->
           offer_key w = offer_key tie_first ->
           offer_float w = Some pw ->
           offer_estimated w = offer_estimated tie_first ->
           w = tie_first \/ (Qc_of_Z 20 < pw)%Qc) ->
        e = entry_of tie_first (Qc_of_Z 20)).
Proof.
  apply (proj1 consolidate_prices_precedence
           [tie_first; million_offer] tie_first (Qc_of_Z 20)).
  - simpl. left. reflexivity.
  - reflexivity.
Defined.

(** The entry a store holds is that of the first offer seen among the
    offers of its class and price: a later offer replaces it only when it is
    verified against estimated, or strictly cheaper in the same class. *)
Lemma consolidate_prices_first (l : list price_item) (k : string)
    (e : store_entry) :
  dict_get k (consolidate_prices l) = Some e -> first_among_ties l k e.
Proof.
  revert e. induction l as [|it l IH] using rev_ind; intros e.
  - discriminate.
  - rewrite consolidate_prices_snoc.
    assert (Keep : dict_get k (consolidate_prices l) = Some e ->
                   first_among_ties (l ++ [it]) k e).
    { intros H. destruct (IH e H) as (l1 & w & pw & l2 & -> & R).
      exists l1, w, pw, (l2 ++ [it]).
      split; [now rewrite <- app_assoc|exact R]. }
    destruct (offer_float it) as [p|] eqn:Hf.
    2:{ now rewrite (consolidate_step_skip _ _ Hf). }
    rewrite (consolidate_step_usable _ _ _ Hf).
    destruct (string_dec k (offer_key it)) as [->|Hne].
    + destruct (dict_get (offer_key it) (consolidate_prices l)) as [e0|] eqn:Hget.
      * destruct (replaces it p e0) eqn:Hrep; [|now rewrite Hget].
        rewrite dict_get_set_same. intros He. injection He as <-.
        exists l, it, p, [].
        split; [reflexivity|]. split; [reflexivity|].
        split; [assumption|]. split; [reflexivity|].
        intros it' Hin Hk Hf' Hcl.
        destruct (consolidate_prices_get _ _ _ Hget) as [_ Hmin].
        destruct (Hmin it' p Hin Hk Hf') as [Hest Hle].
        unfold replaces in Hrep.
        destruct (estimated e0) eqn:Ee, (offer_estimated it) eqn:Ei;
          simpl in Hrep; try discriminate.
        -- apply Qc_ltb_lt in Hrep.
           exact (Qcle_not_lt _ _ (Hle Hcl) Hrep).
        -- rewrite (Hest eq_refl) in Hcl. discriminate.
        -- apply Qc_ltb_lt in Hrep.
           exact (Qcle_not_lt _ _ (Hle Hcl) Hrep).
      * rewrite dict_get_set_same. intros He. injection He as <-.
        exists l, it, p, [].
        split; [reflexivity|]. split; [reflexivity|].
        split; [assumption|]. split; [reflexivity|].
        intros it' Hin Hk Hf' _.
        pose proof (consolidate_prices_spec l (offer_key it)) as S.
        rewrite Hget in S. simpl in S.
        rewrite (S it' Hin Hk) in Hf'. discriminate.
    + assert (Hsame : dict_get k
                (match dict_get (offer_key it) (consolidate_prices l) with
                 | None => dict_set (offer_key it) (entry_of it p) (consolidate_prices l)
                 | Some existing =>
                     if replaces it p existing
                     then dict_set (offer_key it) (entry_of it p) (consolidate_prices l)
                     else consolidate_prices l
                 end) = dict_get k (consolidate_prices l)).
      { destruct (dict_get (offer_key it) (consolidate_prices l)) as [e0|].
        - destruct (replaces it p e0); [|reflexivity].
          now apply dict_get_set_other.
        - now apply dict_get_set_other. }
      now rewrite Hsame.
Qed.

(** C7, as the code has it.  Consolidating a permutation of a list gives
    every store the same store name, price and flag.  The url and the
    source of a store's entry are those of the first offer of the list
    among the usable offers of that store with the entry's class and
    price, so they follow the order of the list.  Consolidating a list
    followed by itself gives what consolidating the list gives. *)
Theorem consolidate_prices_permutation_idempotent (l l' : list price_item) :
  Permutation l l' ->
  (forall k, summary (dict_get k (consolidate_prices l))
             = summary (dict_get k (consolidate_prices l')))
  /\ (forall k e, dict_get k (consolidate_prices l) = Some e ->
        exists l1 w pw l2,
          l = l1 ++ w :: l2
          /\ offer_key w = k /\ offer_float w = Some pw
          /\ offer_estimated w = estimated e /\ pw = price e
          /\ url e = field (item_url w) ""
          /\ source_api e = field (item_source_api w) ""
          /\ (forall it, In it l1 -> offer_key it = k ->
                offer_float it = Some (price e) ->
                offer_estimated it <> estimated e))
  /\ consolidate_prices (l ++ l) = consolidate_prices l.
Proof.
  intros HP. split; [|split].
  - intros k.
    pose proof (consolidate_prices_spec l k) as S.
    pose proof (consolidate_prices_spec l' k) as S'.
    destruct (dict_get k (consolidate_prices l)) as [e|],
             (dict_get k (consolidate_prices l')) as [e'|]; simpl in *.
    + f_equal. apply (best_for_summary l' k); [|assumption].
      now apply (best_for_permutation l l').
    + destruct S as [(w & pw & Hin & Hk & Hf & _) _].
      rewrite (S' w (Permutation_in _ HP Hin) Hk) in Hf. discriminate.
    + destruct S' as [(w & pw & Hin & Hk & Hf & _) _].
      rewrite (S w (Permutation_in _ (Permutation_sym HP) Hin) Hk) in Hf.
      discriminate.
    + reflexivity.
  - intros k e He.
    destruct (consolidate_prices_first l k e He)
      as (l1 & w & pw & l2 & El & Hk & Hf & Ee & Hfirst).
    exists l1, w, pw, l2. subst e. simpl.
    split; [assumption|]. split; [assumption|]. split; [assumption|].
    split; [reflexivity|]. split; [reflexivity|].
    split; [reflexivity|]. split; [reflexivity|]. exact Hfirst.
  - unfold consolidate_prices at 1. rewrite fold_left_app.
    fold (consolidate_prices l).
    assert (G : forall l1, incl l1 l ->
                fold_left consolidate_step l1 (consolidate_prices l)
                = consolidate_prices l).
    { induction l1 as [|it l1 IH]; intros Hincl; simpl; [reflexivity|].
      rewrite consolidate_step_again.
      - apply IH. intros x Hx. apply Hincl. now right.
      - apply Hincl. now left. }
    apply G. apply incl_refl.
Qed.

(** The theorem at the two orders of two equal offers. *)
Lemma consolidate_prices_permutation_idempotent_witness :
  (forall k, summary (dict_get k (consolidate_prices [tie_first; tie_second]))
             = summary (dict_get k (consolidate_prices [tie_second; tie_first])))
  /\ (forall k e,
        dict_get k (consolidate_prices [tie_first; tie_second]) = Some e ->
        exists l1 w pw l2,
          [tie_first; tie_second] = l1 ++ w :: l2
          /\ offer_key w = k /\ offer_float w = Some pw
          /\ offer_estimated w = estimated e /\ pw = price e
          /\ url e = field (item_url w) ""
          /\ source_api e = field (item_source_api w) ""
          /\ (forall it, In it l1 -> offer_key it = k ->
                offer_float it = Some (price e) ->
                offer_estimated it <> estimated e))
  /\ consolidate_prices ([tie_first; tie_second] ++ [tie_first; tie_second])
     = consolidate_prices [tie_first; tie_second].
Proof.
  apply (consolidate_prices_permutation_idempotent
           [tie_first; tie_second] [tie_second; tie_first]).
  apply perm_swap.
Defined.

(** C7, as stated, fails: of two verified offers of one store at one price
    the entry keeps the source URL of whichever comes first, so the two
    orders of the list give different entries. *)
Lemma consolidate_prices_order_shows :
  Permutation [tie_first; tie_second] [tie_second; tie_first]
  /\ option_map url (dict_get "Soriana" (consolidate_prices [tie_first; tie_second]))
     = Some "https://soriana.example/a"%string
  /\ option_map url (dict_get "Soriana" (consolidate_prices [tie_second; tie_first]))
     = Some "https://soriana.example/b"%string
  /\ dict_get "Soriana" (consolidate_prices [tie_first; tie_second])
     <> dict_get "Soriana" (consolidate_prices [tie_second; tie_first]).
Proof.
  split; [apply perm_swap|].
  split; [reflexivity|]. split; [reflexivity|].
  vm_compute. intros H. discriminate H.
Qed.

Lemma no_usable_price_skipped (it : price_item) :
  no_usable_price (item_price it) = true -> offer_float it = None.
Proof.
  unfold no_usable_price, offer_float.
  destruct (item_price it) as [[| b | z | q | s | l | d]|]; simpl;
    try reflexivity; try discriminate.
  - now destruct b.
  - intros ->. reflexivity.
  - intros ->. reflexivity.
  - destruct (Num.float_of_str (digits_and_dots s)); [discriminate|].
    intros _. now destruct (negb (String.eqb s "")).
Qed.

(** C9, as the code has it.  The consolidator checks no range: the price of
    every entry is the float of a usable offer of the list for that store,
    so the entries lie within a range whenever the usable offers do. *)
Theorem consolidate_prices_range_of_inputs
    (l : list price_item) (lo hi : Qc) :
  (forall it p, In it l -> offer_float it = Some p -> within_range lo hi p) ->
  forall k e, dict_get k (consolidate_prices l) = Some e ->
    (exists it, In it l /\ offer_key it = k /\ offer_float it = Some (price e))
    /\ within_range lo hi (price e).
Proof.
  intros Hall k e He. apply consolidate_prices_get in He.
  destruct He as [(w & pw & Hin & Hk & Hf & Ee) _].
  assert (P : price e = pw) by (subst e; reflexivity).
  rewrite P. split.
  - now exists w.
  - now apply (Hall w).
Qed.

(** The theorem at two offers of 20 and the bound 5..50000. *)
Lemma consolidate_prices_range_of_inputs_witness :
  (exists it, In it [tie_first; tie_second] /\ offer_key it = "Soriana"
              /\ offer_float it = Some (price (entry_of tie_first (Qc_of_Z 20))))
  /\ within_range (Qc_of_Z 5) (Qc_of_Z 50000)
                  (price (entry_of tie_first (Qc_of_Z 20))).
Proof.
  apply (consolidate_prices_range_of_inputs
           [tie_first; tie_second] (Qc_of_Z 5) (Qc_of_Z 50000)).
  - intros it p [<-|[<-|[]]] H; vm_compute in H; injection H as <-;
      split; vm_compute; discriminate.
  - reflexivity.
Defined.

(** C9, as stated, fails: an offer of one million is stored as it is, above
    the widest bound of the source, 50000. *)
Lemma consolidate_prices_keeps_million :
  exists e, dict_get "Soriana" (consolidate_prices [million_offer]) = Some e
            /\ price e = Qc_of_Z 1000000
            /\ ~ within_range (Qc_of_Z 5) (Qc_of_Z 50000) (price e).
Proof.
  eexists. split; [reflexivity|]. split; [reflexivity|].
  intros [_ H]. vm_compute in H. now apply H.
Qed.

(** C10, as the code has it.  An offer whose price field is missing, [None],
    a number equal to zero, or a string whose digits and dots spell no
    number changes no store, wherever it stands in the list. *)
Theorem consolidate_prices_skips_unusable (it : price_item) :
  no_usable_price (item_price it) = true ->
  (forall stores, consolidate_step stores it = stores)
  /\ (forall l1 l2, consolidate_prices (l1 ++ it :: l2)
                    = consolidate_prices (l1 ++ l2)).
Proof.
  intros H. apply no_usable_price_skipped in H.
  assert (S : forall stores, consolidate_step stores it = stores)
    by (intros; now apply consolidate_step_skip).
  split; [exact S|].
  intros l1 l2. unfold consolidate_prices.
  rewrite !fold_left_app. simpl. now rewrite S.
Qed.

(** The theorem at an offer whose price is a word. *)
Lemma consolidate_prices_skips_unusable_witness :
  (forall stores,
      consolidate_step stores (offer "Soriana" (PStr "agotado") false "") = stores)
  /\ (forall l1 l2,
        consolidate_prices (l1 ++ offer "Soriana" (PStr "agotado") false "" :: l2)
        = consolidate_prices (l1 ++ l2)).
Proof.
  apply (consolidate_prices_skips_unusable
           (offer "Soriana" (PStr "agotado") false "")).
  reflexivity.
Defined.

(** C10, as stated, fails: an offer whose price is the text of a zero, 0
    or $0.00, is priced exactly 0 and is stored, at the price 0. *)
Lemma consolidate_prices_keeps_text_zero :
  item_price text_zero_offer = Some (PStr "0")
  /\ (exists e, dict_get "Soriana" (consolidate_prices [text_zero_offer]) = Some e
                /\ price e = 0%Qc)
  /\ (exists e,
        dict_get "Soriana"
          (consolidate_prices
             [offer "Soriana" (PStr "$0.00") false "https://soriana.example/a"])
        = Some e
        /\ price e = 0%Qc).
Proof.
  split; [reflexivity|]. split.
  - eexists. split; reflexivity.
  - eexists. split; [reflexivity|]. apply Qc_is_canon. reflexivity.
Qed.

(* ================================================================= *)
(** ** Properties of the response *)

Lemma insert_by_price_perm (e : store_entry) (l : list store_entry) :
  Permutation (e :: l) (insert_by_price e l).
Proof.
  induction l as [|x t IH]; simpl; [reflexivity|].
  destruct (Qc_leb (price e) (price x)); [reflexivity|].
  rewrite perm_swap. now apply perm_skip.
Qed.

Lemma sorted_by_price_perm (l : list store_entry) :
  Permutation l (sorted_by_price l).
Proof.
  induction l as [|x t IH]; simpl; [constructor|].
  rewrite <- insert_by_price_perm. now apply perm_skip.
Qed.

Lemma insert_by_price_sorted (e : store_entry) (l : list store_entry) :
  Sorted price_le l -> Sorted price_le (insert_by_price e l).
Proof.
  induction l as [|x t IH]; simpl; intros HS.
  - repeat constructor.
  - destruct (Qc_leb (price e) (price x)) eqn:E.
    + constructor; [assumption|]. constructor. now apply Qc_leb_le.
    + apply Qc_leb_gt in E. apply Qclt_le_weak in E.
      inversion HS as [|? ? HS' Hd]; subst.
      constructor; [now apply IH|].
      destruct t as [|y t']; simpl.
      * now constructor.
      * destruct (Qc_leb (price e) (price y)); constructor;
          [assumption|now inversion Hd].
Qed.

Lemma sorted_by_price_sorted (l : list store_entry) :
  Sorted price_le (sorted_by_price l).
Proof.
  induction l as [|x t IH]; simpl; [constructor|].
  now apply insert_by_price_sorted.
Qed.

(** C4.  However the search ends, as long as it raises nothing: the
    response is a success with status 200; its stores are those of the
    consolidated result in ascending order of price; [lowest] is the first
    of them, or nothing when there is none; [count] is their number; and an
    empty consolidated result gives the empty list, count 0 and no lowest,
    still as a success. *)
Theorem api_price_check_report
    (info : product_info) (all_prices : list price_item) (now : string) :
  exists report,
    api_price_check info (Ok all_prices) now
    = {| status := 200; payload := Success report |}
    /\ Sorted price_le (stores report)
    /\ Permutation (dict_values (consolidate_prices all_prices)) (stores report)
    /\ lowest report = hd_error (stores report)
    /\ count report = length (stores report)
    /\ (consolidate_prices all_prices = [] ->
        stores report = [] /\ count report = 0 /\ lowest report = None).
Proof.
  eexists. split; [reflexivity|]. simpl.
  repeat split.
  - apply sorted_by_price_sorted.
  - apply sorted_by_price_perm.
  - now rewrite H.
  - now rewrite H.
  - now rewrite H.
Qed.

(** The theorem at a search that found nothing. *)
Lemma api_price_check_report_witness :
  exists report,
    api_price_check {| product_name := None; brand := None; upc := None |}
                    (Ok []) "2024-01-01T00:00:00"
    = {| status := 200; payload := Success report |}
    /\ stores report = [] /\ count report = 0 /\ lowest report = None.
Proof.
  destruct (api_price_check_report
              {| product_name := None; brand := None; upc := None |}
              [] "2024-01-01T00:00:00")
    as (report & E & _ & _ & _ & _ & Hempty).
  exists report. split; [exact E|]. apply Hempty. reflexivity.
Defined.

(* ================================================================= *)
(** ** Properties of the match scorer *)

Lemma Qc_of_nat_le (i u : nat) : i <= u -> (Qc_of_nat i <= Qc_of_nat u)%Qc.
Proof.
  intros H. unfold Qcle, Qc_of_nat, Q2Qc. cbn [this]. rewrite !Qred_correct.
  rewrite <- Zle_Qle. lia.
Qed.

Lemma ratio_bounds (i u : nat) :
  i <= u -> 0 < u ->
  (0 <= Qc_of_nat i / Qc_of_nat u)%Qc /\ (Qc_of_nat i / Qc_of_nat u <= 1)%Qc.
Proof.
  intros Hle Hpos.
  assert (Hu : (0 < inject_Z (Z.of_nat u))%Q).
  { change 0%Q with (inject_Z 0). rewrite <- Zlt_Qlt. lia. }
  assert (Hi : (0 <= inject_Z (Z.of_nat i))%Q).
  { change 0%Q with (inject_Z 0). rewrite <- Zle_Qle. lia. }
  assert (Hiu : (inject_Z (Z.of_nat i) <= inject_Z (Z.of_nat u))%Q).
  { rewrite <- Zle_Qle. lia. }
  unfold Qcle, Qcdiv, Qcmult, Qcinv, Qc_of_nat, Q2Qc. cbn [this].
  rewrite !Qred_correct.
  change (inject_Z (Z.of_nat i) * / inject_Z (Z.of_nat u))%Q
    with (inject_Z (Z.of_nat i) / inject_Z (Z.of_nat u))%Q.
  split.
  - apply Qle_shift_div_l; [assumption|]. now rewrite Qmult_0_l.
  - apply Qle_shift_div_r; [assumption|]. now rewrite Qmult_1_l.
Qed.

Lemma in_list_In (w : string) (l : list string) : in_list w l = true <-> In w l.
Proof.
  unfold in_list. rewrite existsb_exists. split.
  - intros (x & Hx & E). apply String.eqb_eq in E. now subst.
  - intros H. exists w. split; [assumption|apply String.eqb_refl].
Qed.

Lemma set_inter_le_union (a b : list string) :
  length (set_inter a b) <= length (set_union a b).
Proof.
  unfold set_inter, set_union. apply NoDup_incl_length.
  - apply NoDup_filter. apply NoDup_nodup.
  - intros x Hx. apply filter_In in Hx as [Hx _].
    apply nodup_In in Hx. apply nodup_In. apply in_or_app. now left.
Qed.

Lemma set_union_nonempty (a b : list string) :
  a <> [] -> 0 < length (set_union a b).
Proof.
  destruct a as [|x a]; [congruence|]. intros _.
  assert (Hin : In x (set_union (x :: a) b)).
  { unfold set_union. apply nodup_In. now left. }
  destruct (set_union (x :: a) b); [destruct Hin|simpl; lia].
Qed.

Lemma jaccard_bounds (a b : list string) :
  a <> [] -> (0 <= jaccard a b)%Qc /\ (jaccard a b <= 1)%Qc.
Proof.
  intros Ha. apply ratio_bounds.
  - apply set_inter_le_union.
  - now apply set_union_nonempty.
Qed.

Lemma set_list_nil `{SetOrder} (l : list string) : set_list l = [] -> l = [].
Proof.
  intros E. pose proof (set_list_perm l) as P. rewrite E in P.
  apply Permutation_nil in P. destruct l as [|x l]; [reflexivity|].
  assert (Hin : In x (nodup string_dec (x :: l))) by (apply nodup_In; now left).
  rewrite P in Hin. destruct Hin.
Qed.

(** The score of two non-empty names whose query has a keyword. *)
Lemma match_score_keywords `{SetOrder} (search_name found_name : string) :
  search_name <> "" -> found_name <> "" ->
  normalize_product_name search_name <> [] ->
  calculate_product_match_score search_name found_name =
    let a := normalize_product_name search_name in
    let b := normalize_product_name found_name in
    if bonus_applies a b
    then Qc_min 1%Qc (jaccard a b + Q2Qc (1 # 5))%Qc
    else jaccard a b.
Proof.
  intros Hs Hf Hk. unfold calculate_product_match_score.
  apply String.eqb_neq in Hs. apply String.eqb_neq in Hf. rewrite Hs, Hf. simpl.
  destruct (normalize_product_name search_name) as [|w ws] eqn:Ea; [congruence|].
  simpl is_nil.
  pose proof (set_union_nonempty (w :: ws) (normalize_product_name found_name) Hk) as Hu.
  destruct (set_union (w :: ws) (normalize_product_name found_name)) as [|u us] eqn:Eu;
    [simpl in Hu; lia|].
  simpl is_nil. unfold bonus_applies, jaccard. rewrite Eu.
  destruct (set_list (w :: ws)) as [|first rest_s] eqn:Es; simpl; [reflexivity|].
  destruct (set_list (normalize_product_name found_name)) as [|g gs] eqn:Eg;
    [|reflexivity].
  apply set_list_nil in Eg. rewrite Eg. reflexivity.
Qed.

Lemma Qc_min_bounds (x : Qc) :
  (0 <= x)%Qc -> (0 <= Qc_min 1%Qc x)%Qc /\ (Qc_min 1%Qc x <= 1)%Qc.
Proof.
  intros Hx. unfold Qc_min. destruct (Qc_ltb x 1%Qc) eqn:E.
  - apply Qc_ltb_lt in E. split; [assumption|now apply Qclt_le_weak].
  - split; [|apply Qcle_refl]. unfold Qcle. simpl. discriminate.
Qed.

Lemma set_list_In `{SetOrder} (l : list string) (w : string) :
  In w (set_list l) <-> In w l.
Proof.
  split; intros Hin.
  - apply (Permutation_in _ (set_list_perm l)) in Hin. now apply nodup_In in Hin.
  - apply (Permutation_in _ (Permutation_sym (set_list_perm l))).
    now apply nodup_In.
Qed.

(** The bonus needs a query keyword in the candidate's set, and is sure
    when all of them are there. *)
Lemma bonus_applies_all `{SetOrder} (a b : list string) :
  a <> [] -> (forall w, In w a -> In w b) -> bonus_applies a b = true.
Proof.
  intros Ha Hall. unfold bonus_applies.
  destruct (set_list a) as [|first rest_a] eqn:E.
  - apply set_list_nil in E. contradiction.
  - simpl. apply in_list_In. apply Hall. apply set_list_In. rewrite E. now left.
Qed.

Lemma bonus_applies_none `{SetOrder} (a b : list string) :
  (forall w, In w a -> ~ In w b) -> bonus_applies a b = false.
Proof.
  intros Hnone. unfold bonus_applies.
  destruct (set_list a) as [|first rest_a] eqn:E; [reflexivity|]. simpl.
  destruct (in_list first b) eqn:Ein; [|reflexivity].
  apply in_list_In in Ein. exfalso. apply (Hnone first); [|assumption].
  apply set_list_In. rewrite E. now left.
Qed.

(** C2, as the code has it.  The score lies in [0,1].  It is 0 when either
    name is the empty string; otherwise 0.5 when the query has no keyword;
    otherwise the union of the keyword sets is not empty and the score is
    the Jaccard similarity of the two sets, with or without the bonus of
    0.2 capped at 1: with it when every keyword of the query is in the
    candidate's set, without it when none is. *)
Theorem calculate_product_match_score_spec `{SetOrder}
    (search_name found_name : string) :
  let score := calculate_product_match_score search_name found_name in
  let search_keywords := normalize_product_name search_name in
  let found_keywords := normalize_product_name found_name in
  let similarity := jaccard search_keywords found_keywords in
  let with_bonus := Qc_min 1%Qc (similarity + Q2Qc (1 # 5))%Qc in
  ((0 <= score)%Qc /\ (score <= 1)%Qc)
  /\ (search_name = "" \/ found_name = "" -> score = 0%Qc)
  /\ (search_name <> "" -> found_name <> "" -> search_keywords = [] ->
      score = Q2Qc (1 # 2))
  /\ (search_name <> "" -> found_name <> "" -> search_keywords <> [] ->
      set_union search_keywords found_keywords <> []
      /\ (score = similarity \/ score = with_bonus)
      /\ ((forall w, In w search_keywords -> In w found_keywords) ->
          score = with_bonus)
      /\ ((forall w, In w search_keywords -> ~ In w found_keywords) ->
          score = similarity)).
Proof.
  intros score a b similarity with_bonus.
  assert (Empty : search_name = "" \/ found_name = "" -> score = 0%Qc).
  { intros E. unfold score, calculate_product_match_score.
    destruct E as [-> | ->]; simpl; [reflexivity|].
    now rewrite orb_true_r. }
  assert (NoKw : search_name <> "" -> found_name <> "" -> a = [] ->
                 score = Q2Qc (1 # 2)).
  { intros Hs Hf Ha. unfold score, calculate_product_match_score.
    apply String.eqb_neq in Hs. apply String.eqb_neq in Hf. rewrite Hs, Hf. simpl.
    fold a. now rewrite Ha. }
  assert (Kw : search_name <> "" -> found_name <> "" -> a <> [] ->
               score = if bonus_applies a b then with_bonus else similarity).
  { intros Hs Hf Ha. unfold score. now rewrite match_score_keywords. }
  split; [|split; [assumption|split; [assumption|]]].
  - destruct (string_dec search_name "") as [Es|Es].
    { rewrite Empty by now left. split; [apply Qcle_refl|]. unfold Qcle. simpl. discriminate. }
    destruct (string_dec found_name "") as [Ef|Ef].
    { rewrite Empty by now right. split; [apply Qcle_refl|]. unfold Qcle. simpl. discriminate. }
    destruct a as [|w ws] eqn:Ea.
    { rewrite NoKw by auto. split; unfold Qcle; simpl; discriminate. }
    rewrite Kw by (auto; discriminate).
    assert (Hne : w :: ws <> []) by discriminate.
    destruct (jaccard_bounds (w :: ws) b Hne) as [J0 J1].
    destruct (bonus_applies (w :: ws) b); [|now split].
    apply Qc_min_bounds.
    apply Qcle_trans with similarity; [assumption|].
    rewrite <- (Qcplus_0_r similarity) at 1.
    apply Qcplus_le_compat; [apply Qcle_refl|]. unfold Qcle. simpl. discriminate.
  - intros Hs Hf Ha. rewrite (Kw Hs Hf Ha). repeat split.
    + intros E. pose proof (set_union_nonempty a b Ha) as L.
      rewrite E in L. simpl in L. lia.
    + destruct (bonus_applies a b); [now right|now left].
    + intros Hall. now rewrite bonus_applies_all.
    + intros Hnone. now rewrite bonus_applies_none.
Qed.

(** The theorem at a one-word query and a two-word name that holds the
    word. *)
Lemma calculate_product_match_score_spec_witness :
  @calculate_product_match_score first_occurrence_order "coca" "coca cola"
  = Qc_min 1%Qc (jaccard (normalize_product_name "coca")
                         (normalize_product_name "coca cola")
                 + Q2Qc (1 # 5))%Qc.
Proof.
  apply (proj2 (proj2 (proj2
           (@calculate_product_match_score_spec first_occurrence_order
              "coca" "coca cola")))).
  - discriminate.
  - discriminate.
  - vm_compute. discriminate.
  - vm_compute. intros w [<-|[]]. left. reflexivity.
Defined.

(** C2, as stated, fails: the empty string has no keyword, and its score
    against any name is 0, not 0.5, whatever the order of the sets. *)
Lemma match_score_empty_query_is_zero :
  normalize_product_name "" = []
  /\ forall order : SetOrder,
       @calculate_product_match_score order "" "coca cola" = 0%Qc
       /\ @calculate_product_match_score order "" "coca cola" <> Q2Qc (1 # 2).
Proof.
  split; [reflexivity|]. intros order. split; [reflexivity|].
  intros E. apply (f_equal this) in E. vm_compute in E. discriminate E.
Qed.









(** Which keyword counts as the first is the set's choice, not the
    query's: the query coca cola against the candidate coca gets the bonus
    under one order and not under the other. *)
Lemma match_score_depends_on_set_order :
  this (@calculate_product_match_score first_occurrence_order "coca cola" "coca")
  = (7 # 10)%Q
  /\ this (@calculate_product_match_score last_occurrence_order "coca cola" "coca")
     = (1 # 2)%Q.
Proof. split; vm_compute; reflexivity. Qed.

(** C6.  The title with the count and the word pack is a multipack; the
    title with a volume in millilitres is not. *)
Theorem is_multipack_examples :
  is_multipack "Producto X 6 pack" = true
  /\ is_multipack "Producto X 600ml" = false.
Proof. split; vm_compute; reflexivity. Qed.

(* ================================================================= *)
(** ** The extraction cascade at two pages *)

(** The strategies that check the bound keep it. *)
Lemma append_checked_plausible (threshold : option Z) (lo hi : Z)
    (products : list Cascade.product) (name : pyval) (p : res Qc) :
  all_plausible lo hi products ->
  all_plausible lo hi (Cascade.append_checked threshold lo hi products name p).
Proof.
  intros H. unfold Cascade.append_checked. destruct p as [q|]; [|assumption].
  destruct (Cascade.plausible lo hi (Cascade.corrected threshold q)) eqn:E;
    [|assumption].
  apply Forall_app. split; [assumption|]. constructor; [exact E|constructor].
Qed.

Lemma paired_products_plausible (pattern : Re.regex) (threshold : option Z)
    (lo hi : Z) (html : string) :
  all_plausible lo hi (Cascade.paired_products pattern threshold lo hi html).
Proof.
  unfold Cascade.paired_products.
  assert (G : forall l acc, all_plausible lo hi acc ->
              all_plausible lo hi
                (fold_left
                   (fun products np =>
                      Cascade.append_checked threshold lo hi products
                        (PStr (fst np)) (Num.float_of_str (snd np))) l acc)).
  { induction l as [|x l IH]; intros acc Hacc; simpl; [assumption|].
    apply IH. now apply append_checked_plausible. }
  apply G. constructor.
Qed.

Lemma state_entry_plausible (products products' : list Cascade.product)
    (value : pyval) :
  all_plausible 5 50000 products ->
  Cascade.state_entry products value = Ok products' ->
  all_plausible 5 50000 products'.
Proof.
  intros H. unfold Cascade.state_entry.
  destruct value as [| | | | | |d]; try (intros E; injection E as <-; assumption).
  destruct (dict_has d "productName" || dict_has d "name");
    [|intros E; injection E as <-; assumption].
  match goal with
  | |- bind ?m _ = _ -> _ => destruct m as [price|]; simpl; [|discriminate]
  end.
  destruct (truthy _ && truthy price);
    [|intros E; injection E as <-; assumption].
  destruct (float_or_pass price) as [[q|]|]; cbn [bind];
    [| |discriminate]; intros E; injection E as <-; [|assumption].
  exact (append_checked_plausible (Some 10000%Z) 5 50000 products _ (Ok q) H).
Qed.

Lemma state_products_plausible (html : string) :
  all_plausible 5 50000 (Cascade.state_products html).
Proof.
  unfold Cascade.state_products.
  destruct (Re.search_group false Cascade.state_pattern 1 html) as [text|];
    [|constructor].
  destruct (Json.loads _) as [[| | | | | |d]|]; try constructor.
  assert (G : forall l acc, all_plausible 5 50000 acc ->
              all_plausible 5 50000 (Cascade.fold_caught Cascade.state_entry acc l)).
  { induction l as [|x l IH]; intros acc Hacc; simpl; [assumption|].
    destruct (Cascade.state_entry acc x) as [acc'|] eqn:E; [|assumption].
    apply IH. now apply (state_entry_plausible acc acc' x). }
  apply G. constructor.
Qed.

Lemma html_products_plausible (html : string) :
  all_plausible 5 50000 (Cascade.html_products html).
Proof.
  unfold Cascade.html_products.
  assert (Inner : forall l acc, all_plausible 5 50000 acc ->
            all_plausible 5 50000
              (fold_left
                 (fun products (np : string * string) =>
                    let price_str := Text.replace "," "" (snd np) in
                    Cascade.append_checked None 5 50000 products
                      (PStr (Text.strip (fst np))) (Num.float_of_str price_str))
                 l acc)).
  { induction l as [|x l IH]; intros acc Hacc; simpl; [assumption|].
    apply IH. now apply append_checked_plausible. }
  assert (Outer : forall ps acc, all_plausible 5 50000 acc ->
            all_plausible 5 50000
              (fold_left
                 (fun products pattern =>
                    fold_left
                      (fun products (np : string * string) =>
                         let price_str := Text.replace "," "" (snd np) in
                         Cascade.append_checked None 5 50000 products
                           (PStr (Text.strip (fst np)))
                           (Num.float_of_str price_str))
                      (Re.findall2 true pattern html) products)
                 ps acc)).
  { induction ps as [|x ps IH]; intros acc Hacc; simpl; [assumption|].
    apply IH. now apply Inner. }
  apply Outer. constructor.
Qed.

Lemma plausible_widen (p : Qc) :
  Cascade.plausible 5 5000 p = true -> Cascade.plausible 5 50000 p = true.
Proof.
  unfold Cascade.plausible. intros H. apply andb_true_iff in H as [L U].
  apply andb_true_iff. split; [assumption|].
  apply Qc_leb_le in U. apply Qc_leb_le.
  eapply Qcle_trans; [exact U|]. unfold Qcle. simpl. discriminate.
Qed.

Lemma all_plausible_widen (products : list Cascade.product) :
  all_plausible 5 5000 products -> all_plausible 5 50000 products.
Proof.
  intros H. eapply Forall_impl; [|exact H]. intros p. apply plausible_widen.
Qed.

(** When the JSON-LD strategy and the [__NEXT_DATA__] strategy yield
    nothing, every price the cascade returns passed the bound 5..50000. *)
Lemma extract_products_checked_strategies (html : string)
    (products : list Cascade.product) :
  Cascade.fold_res Cascade.jsonld_block []
    (Re.findall1 true Cascade.jsonld_pattern html) = Ok [] ->
  Cascade.next_products html = [] ->
  Cascade.extract_products_from_html html = Ok products ->
  all_plausible 5 50000 products.
Proof.
  intros Hld Hnext. unfold Cascade.extract_products_from_html.
  rewrite Hld, Hnext. simpl.
  repeat match goal with
  | |- (if negb (is_nil ?x) then _ else _) = _ -> _ =>
      let E := fresh "E" in
      destruct (negb (is_nil x)) eqn:E;
      [intros H; injection H as <-;
       first [ apply state_products_plausible
             | apply paired_products_plausible
             | apply all_plausible_widen, paired_products_plausible ]
      |]
  end.
  intros H. injection H as <-. apply html_products_plausible.
Qed.

(** Without a JSON-LD block the cascade raises nothing. *)
Lemma extract_products_without_jsonld (html : string) :
  Re.findall1 true Cascade.jsonld_pattern html = [] ->
  exists products, Cascade.extract_products_from_html html = Ok products.
Proof.
  intros H. unfold Cascade.extract_products_from_html. rewrite H. simpl.
  repeat match goal with
  | |- exists _, (if ?c then _ else _) = _ => destruct c; [eexists; reflexivity|]
  end.
  eexists. reflexivity.
Qed.

(** C3.  The JSON-LD strategy appends the price it reads without a bound:
    a block that offers a product at 1.50 is returned as it is, below the
    lower bound 5 that the state, paired-field and markup strategies
    check. *)
Theorem extract_products_jsonld_unchecked :
  Nat.ltb 100 (String.length cheap_jsonld_page) = true
  /\ exists p,
       Cascade.extract_products_from_html cheap_jsonld_page = Ok [p]
       /\ Cascade.title p = PStr "Agua Natural 600 ml"
       /\ this (Cascade.price p) = (3 # 2)%Q
       /\ Cascade.plausible 5 50000 (Cascade.price p) = false.
Proof.
  split; [vm_compute; reflexivity|].
  eexists. split; [vm_compute; reflexivity|].
  repeat split.
Qed.

(** C5.  A JSON-LD block that parses but is not shaped as the strategy
    expects makes the cascade raise: an item list whose items are URLs, or
    a list that holds a number, has a value without [get], and the strategy
    catches [JSONDecodeError] only. *)
Theorem extract_products_jsonld_raises :
  Nat.ltb 100 (String.length url_items_jsonld_page) = true
  /\ Cascade.extract_products_from_html url_items_jsonld_page
     = Raise AttributeError
  /\ Cascade.extract_products_from_html number_jsonld_page
     = Raise AttributeError.
Proof.
  repeat split; vm_compute; reflexivity.
Qed.

(** A page that no strategy matches gives the empty list. *)
Lemma extract_products_no_match :
  Cascade.extract_products_from_html "<html><body>Sin resultados</body></html>"
  = Ok [].
Proof. vm_compute. reflexivity. Qed.

(* ================================================================= *)
(** ** Dictionaries, continued *)

Lemma dict_get_In {V : Type} (k : string) (v : V) (d : dict V) :
  dict_get k d = Some v -> In (k, v) d.
Proof.
  induction d as [|[k' v'] t IH]; simpl; [discriminate|].
  destruct (String.eqb k k') eqn:E.
  - apply String.eqb_eq in E. subst k'. intros [= ->]. now left.
  - intros H. right. now apply IH.
Qed.

Lemma dict_In_get {V : Type} (k : string) (v : V) (d : dict V) :
  NoDup (map fst d) -> In (k, v) d -> dict_get k d = Some v.
Proof.
  induction d as [|[k' v'] t IH]; simpl; [intros _ []|].
  intros ND [E|Hin].
  - injection E as -> ->. now rewrite String.eqb_refl.
  - inversion ND as [|? ? Hnot ND']; subst.
    destruct (String.eqb k k') eqn:E.
    + apply String.eqb_eq in E. subst k'. exfalso. apply Hnot.
      change k with (fst (k, v)). now apply in_map.
    + now apply IH.
Qed.

Lemma dict_set_keys {V : Type} (k k0 : string) (v : V) (d : dict V) :
  In k0 (map fst (dict_set k v d)) -> k0 = k \/ In k0 (map fst d).
Proof.
  induction d as [|[k' v'] t IH]; simpl.
  - intros [<-|[]]. now left.
  - destruct (String.eqb k k') eqn:E; simpl.
    + apply String.eqb_eq in E. subst k'. intros [<-|H]; auto.
    + intros [<-|H]; [auto|]. destruct (IH H); auto.
Qed.

Lemma dict_set_NoDup {V : Type} (k : string) (v : V) (d : dict V) :
  NoDup (map fst d) -> NoDup (map fst (dict_set k v d)).
Proof.
  induction d as [|[k' v'] t IH]; simpl; intros ND.
  - constructor; [intros []|constructor].
  - inversion ND as [|? ? Hnot ND']; subst.
    destruct (String.eqb k k') eqn:E; simpl.
    + apply String.eqb_eq in E. subst k'. now constructor.
    + constructor; [|now apply IH].
      intros Hin. apply dict_set_keys in Hin as [->|Hin]; [|contradiction].
      now rewrite String.eqb_refl in E.
Qed.

(** The values of a dictionary whose values name their own key. *)
Lemma dict_values_keys {V : Type} (f : V -> string) (d : dict V) :
  (forall k v, In (k, v) d -> f v = k) ->
  map f (dict_values d) = map fst d.
Proof.
  unfold dict_values. induction d as [|[k v] t IH]; simpl; intros H.
  - reflexivity.
  - rewrite (H k v) by now left. f_equal. apply IH.
    intros k' v' Hin. apply H. now right.
Qed.

(* ================================================================= *)
(** ** One entry per store *)

Lemma store_key_of_cases (s : string) :
  store_key_of s = s \/ In (store_key_of s) canonical_stores.
Proof.
  unfold store_key_of.
  repeat match goal with
         | |- context [if ?b then _ else _] =>
             destruct b; [right; simpl; tauto|]
         end.
  now left.
Qed.

Lemma store_key_of_canonical (s : string) :
  store_key_of (store_key_of s) = store_key_of s.
Proof.
  destruct (store_key_of_cases s) as [E|Hin].
  - now rewrite E.
  - simpl in Hin.
    repeat (destruct Hin as [<-|Hin]; [reflexivity|]).
    destruct Hin.
Qed.

Lemma consolidate_step_NoDup (stores : dict store_entry) (it : price_item) :
  NoDup (map fst stores) -> NoDup (map fst (consolidate_step stores it)).
Proof.
  intros ND. unfold consolidate_step.
  repeat match goal with
         | |- context [if ?b then _ else _] => destruct b
         | |- context [match ?x with _ => _ end] => destruct x
         end; auto using dict_set_NoDup.
Qed.

Lemma consolidate_prices_NoDup (l : list price_item) :
  NoDup (map fst (consolidate_prices l)).
Proof.
  induction l as [|it l IH] using rev_ind.
  - constructor.
  - rewrite consolidate_prices_snoc. now apply consolidate_step_NoDup.
Qed.

Lemma consolidate_prices_store (l : list price_item) (k : string)
    (e : store_entry) :
  In (k, e) (consolidate_prices l) ->
  store e = k /\ store_key_of k = k /\ best_for l k e.
Proof.
  intros Hin.
  apply dict_In_get in Hin; [|apply consolidate_prices_NoDup].
  pose proof (consolidate_prices_get _ _ _ Hin) as B.
  assert (Hk : store e = k /\ store_key_of k = k).
  { destruct B as [(it & p & _ & Hk & _ & He) _]. rewrite He. simpl.
    split; [exact Hk|]. rewrite <- Hk. apply store_key_of_canonical. }
  tauto.
Qed.

(* ================================================================= *)
(** ** Prices from text *)

Lemma between_spec (lo hi p : Qc) :
  between lo hi p = true <-> within_range lo hi p.
Proof.
  unfold between, within_range.
  rewrite andb_true_iff, !Qc_leb_le. tauto.
Qed.

Lemma Qc_min_le_l (a b : Qc) : (Qc_min a b <= a)%Qc.
Proof.
  unfold Qc_min. destruct (Qc_ltb b a) eqn:E.
  - apply Qc_ltb_lt in E. now apply Qclt_le_weak.
  - apply Qcle_refl.
Qed.

Lemma Qc_min_le_r (a b : Qc) : (Qc_min a b <= b)%Qc.
Proof.
  unfold Qc_min. destruct (Qc_ltb b a) eqn:E.
  - apply Qcle_refl.
  - now apply Qc_ltb_ge.
Qed.

Lemma Qc_min_cases (a b : Qc) : Qc_min a b = a \/ Qc_min a b = b.
Proof. unfold Qc_min. destruct (Qc_ltb b a); auto. Qed.

Lemma fold_min_spec (t : list Qc) (p : Qc) :
  In (fold_left Qc_min t p) (p :: t)
  /\ forall q, In q (p :: t) -> (fold_left Qc_min t p <= q)%Qc.
Proof.
  revert p. induction t as [|x t IH]; intros p; simpl.
  - split; [now left|]. intros q [<-|[]]. apply Qcle_refl.
  - destruct (IH (Qc_min p x)) as [Hin Hle]. split.
    + destruct Hin as [E|Hin]; [|now right; right].
      rewrite <- E. destruct (Qc_min_cases p x) as [->| ->]; simpl; auto.
    + intros q [<-|[<-|Hq]].
      * eapply Qcle_trans; [apply Hle; now left|apply Qc_min_le_l].
      * eapply Qcle_trans; [apply Hle; now left|apply Qc_min_le_r].
      * apply Hle. now right.
Qed.

(** [min] gives the least element. *)
Lemma py_min_spec (l : list Qc) :
  match py_min l with
  | Some m => In m l /\ forall q, In q l -> (m <= q)%Qc
  | None => l = []
  end.
Proof.
  destruct l as [|p t]; simpl; [reflexivity|].
  apply (fold_min_spec t p).
Qed.

Lemma accepted_price_spelled (minor : bool) (lo hi : Qc) (found : string) :
  accepted_price minor lo hi found
  = filter (between lo hi)
           (match spelled_price minor found with
            | Some p => [p]
            | None => []
            end).
Proof.
  unfold accepted_price, spelled_price, Cascade.corrected.
  destruct (Num.float_of_str (Text.replace "," "" found)) as [p|];
    [|reflexivity].
  destruct minor; cbn [andb filter]; now destruct (between lo hi _).
Qed.

Lemma filter_flat_map {A B : Type} (p : B -> bool) (f : A -> list B)
    (l : list A) :
  filter p (flat_map f l) = flat_map (fun x => filter p (f x)) l.
Proof.
  induction l as [|x t IH]; simpl; [reflexivity|].
  now rewrite filter_app, IH.
Qed.

(** The prices the loops keep are the candidates that lie in the range. *)
Lemma found_prices_candidates (patterns : list (Re.regex * bool)) (lo hi : Qc)
    (content : string) :
  found_prices patterns lo hi content
  = filter (between lo hi) (price_candidates patterns content).
Proof.
  unfold found_prices, price_candidates.
  rewrite filter_flat_map. apply flat_map_ext. intros pattern.
  rewrite filter_flat_map. apply flat_map_ext. intros found.
  apply accepted_price_spelled.
Qed.

(** The least candidate in the range, or nothing when there is none. *)
Lemma least_in_range (patterns : list (Re.regex * bool)) (lo hi : Qc)
    (content : string) :
  match py_min (found_prices patterns lo hi content) with
  | Some p =>
      In p (price_candidates patterns content) /\ within_range lo hi p
      /\ forall q, In q (price_candidates patterns content) ->
                   within_range lo hi q -> (p <= q)%Qc
  | None =>
      forall q, In q (price_candidates patterns content) ->
                ~ within_range lo hi q
  end.
Proof.
  pose proof (py_min_spec (found_prices patterns lo hi content)) as S.
  rewrite found_prices_candidates in *.
  destruct (py_min _) as [p|].
  - destruct S as [Hin Hle]. apply filter_In in Hin as [Hin Hb].
    split; [assumption|]. split; [now apply between_spec|].
    intros q Hq Hr. apply Hle. apply filter_In. split; [assumption|].
    now apply between_spec.
  - intros q Hq Hr. apply between_spec in Hr.
    assert (Hin : In q (filter (between lo hi) (price_candidates patterns content)))
      by (apply filter_In; now split).
    rewrite S in Hin. destruct Hin.
Qed.

Lemma first_price_found (patterns : list (Re.regex * bool)) (text : string)
    (price : Qc) :
  first_price patterns text = Some price ->
  exists pattern anchored group1,
    In (pattern, anchored) patterns
    /\ search_price pattern anchored text = Some group1
    /\ Num.float_of_str (Text.replace "," "" group1) = Ok price
    /\ within_range (Qc_of_Z 1) (Qc_of_Z 100000) price.
Proof.
  induction patterns as [|[pattern anchored] rest IH]; simpl; [discriminate|].
  intros H.
  assert (Hrest : first_price rest text = Some price ->
                  exists pattern0 anchored0 group1,
                    ((pattern, anchored) = (pattern0, anchored0)
                     \/ In (pattern0, anchored0) rest)
                    /\ search_price pattern0 anchored0 text = Some group1
                    /\ Num.float_of_str (Text.replace "," "" group1) = Ok price
                    /\ within_range (Qc_of_Z 1) (Qc_of_Z 100000) price).
  { intros H'. destruct (IH H') as (p0 & a0 & g & Hin & Hrest).
    exists p0, a0, g. split; [now right|assumption]. }
  destruct (search_price pattern anchored text) as [group1|] eqn:Es; [|auto].
  destruct (Num.float_of_str (Text.replace "," "" group1)) as [p|] eqn:Ef; [|auto].
  destruct (between (Qc_of_Z 1) (Qc_of_Z 100000) p) eqn:Eb; [|auto].
  injection H as <-. exists pattern, anchored, group1.
  split; [now left|]. split; [assumption|]. split; [assumption|].
  now apply between_spec.
Qed.

(* ================================================================= *)
(** ** What a match captures is a part of the text *)

Lemma occurs_in_nil (t : list ascii) : occurs_in [] t.
Proof. now exists [], t. Qed.

Lemma occurs_in_consumed (t before l l' : list ascii) :
  t = before ++ l -> occurs_in (Re.consumed l l') t.
Proof.
  intros ->. unfold Re.consumed.
  exists before, (skipn (length l - length l') l).
  now rewrite firstn_skipn.
Qed.

Lemma get_cap_occurs (t : list ascii) (i : nat) (cs : list (nat * list ascii)) :
  Forall (fun c => occurs_in (snd c) t) cs -> occurs_in (Re.get_cap i cs) t.
Proof.
  induction 1 as [|[j s] cs Hs _ IH]; simpl.
  - apply occurs_in_nil.
  - now destruct (Nat.eqb i j).
Qed.

Lemma state_in_step (t : list ascii) (st : Re.mstate) (c : ascii)
    (l : list ascii) :
  state_in t st -> Re.rest st = c :: l ->
  state_in t {| Re.prev := Some c; Re.rest := l; Re.caps := Re.caps st |}.
Proof.
  intros [[before E] Hc] Hr. split; [|exact Hc]. simpl.
  exists (before ++ [c]). rewrite E, Hr, <- app_assoc. reflexivity.
Qed.

Lemma m_star {A : Type} (icase g : bool) (r : Re.regex) (st : Re.mstate)
    (k : Re.mstate -> option A) :
  Re.m icase (Re.Star g r) st k
  = star_loop icase g r k (S (length (Re.rest st))) st.
Proof. reflexivity. Qed.

Lemma m_rep {A : Type} (icase g : bool) (lo hi : nat) (r : Re.regex)
    (st : Re.mstate) (k : Re.mstate -> option A) :
  Re.m icase (Re.Rep g lo hi r) st k = rep_loop icase g r k lo hi st.
Proof. reflexivity. Qed.

(** The matcher only moves forward in the text, and records in its groups
    what it has passed over. *)
Lemma m_state_in {A : Type} (icase : bool) (t : list ascii) (r : Re.regex) :
  forall (st : Re.mstate) (k : Re.mstate -> option A) (x : A),
    state_in t st -> Re.m icase r st k = Some x ->
    exists st', state_in t st' /\ k st' = Some x.
Proof.
  induction r as [|p|p|r1 IH1 r2 IH2|r1 IH1 r2 IH2|g r IH|g lo hi r IH|i r IH|];
    intros st k x Hst H.
  - simpl in H. eauto.
  - simpl in H. destruct (Re.rest st) as [|c l] eqn:Er; [discriminate|].
    destruct (Re.test icase p c); [|discriminate].
    eauto using state_in_step.
  - simpl in H. destruct (Re.rest st) as [|c l] eqn:Er; [discriminate|].
    destruct (Re.test icase p c); [discriminate|].
    eauto using state_in_step.
  - simpl in H. destruct (IH1 _ _ _ Hst H) as (st1 & H1 & K1). eauto.
  - simpl in H. destruct (Re.m icase r1 st k) eqn:E1.
    + injection H as ->. eauto.
    + eauto.
  - rewrite m_star in H. revert H.
    generalize (S (length (Re.rest st))). intros n. revert st Hst.
    induction n as [|n IHn]; intros st Hst H; simpl in H; [eauto|].
    destruct g.
    + match type of H with
      | match ?e with _ => _ end = _ => destruct e eqn:E
      end.
      * injection H as ->.
        destruct (IH _ _ _ Hst E) as (st1 & H1 & K1).
        destruct (Nat.ltb _ _); [eauto|discriminate].
      * eauto.
    + destruct (k st) eqn:E.
      * injection H as ->. eauto.
      * destruct (IH _ _ _ Hst H) as (st1 & H1 & K1).
        destruct (Nat.ltb _ _); [eauto|discriminate].
  - rewrite m_rep in H. revert lo st Hst H.
    induction hi as [|hi IHhi]; intros lo st Hst H; simpl in H; [eauto|].
    destruct lo as [|lo].
    + destruct g.
      * match type of H with
        | match ?e with _ => _ end = _ => destruct e eqn:E
        end.
        -- injection H as ->.
           destruct (IH _ _ _ Hst E) as (st1 & H1 & K1). eauto.
        -- eauto.
      * destruct (k st) eqn:E.
        -- injection H as ->. eauto.
        -- destruct (IH _ _ _ Hst H) as (st1 & H1 & K1). eauto.
    + destruct (IH _ _ _ Hst H) as (st1 & H1 & K1). eauto.
  - simpl in H. destruct (IH _ _ _ Hst H) as (st1 & [[b1 E1] C1] & K1).
    eexists. split; [|exact K1]. split; simpl.
    + now exists b1.
    + unfold Re.set_cap. constructor; simpl.
      * destruct Hst as [[b0 E0] _]. eapply occurs_in_consumed. exact E0.
      * apply Forall_forall. intros c Hc. apply filter_In in Hc as [Hc _].
        revert c Hc. now apply Forall_forall.
  - simpl in H. destruct (xorb _ _); [eauto|discriminate].
Qed.

Lemma state_in_start (t before l : list ascii) (pv : option ascii) :
  t = before ++ l ->
  state_in t {| Re.prev := pv; Re.rest := l; Re.caps := [] |}.
Proof. intros ->. split; simpl; [now exists before|constructor]. Qed.

Lemma scan_state_in (icase : bool) (r : Re.regex) (t : list ascii) :
  forall (l : list ascii) (pv : option ascii) (before start : list ascii)
         (st : Re.mstate),
    t = before ++ l -> Re.scan icase r pv l = Some (start, st) ->
    state_in t st /\ exists before', t = before' ++ start.
Proof.
  induction l as [|c l IH]; intros pv before start st E H; simpl in H.
  - destruct (Re.m icase r _ _) as [st0|] eqn:Em; [|discriminate].
    injection H as <- <-.
    destruct (m_state_in icase t r _ _ _ (state_in_start t before [] pv E) Em)
      as (st' & Hst & [= ->]).
    split; [assumption|now exists before].
  - destruct (Re.m icase r _ _) as [st0|] eqn:Em.
    + injection H as <- <-.
      destruct (m_state_in icase t r _ _ _
                  (state_in_start t before (c :: l) pv E) Em)
        as (st' & Hst & [= ->]).
      split; [assumption|now exists before].
    + apply (IH (Some c) (before ++ [c])); [|assumption].
      now rewrite <- app_assoc.
Qed.

Lemma scan_to_end_state_in (icase : bool) (r : Re.regex) (t : list ascii) :
  forall (l : list ascii) (pv : option ascii) (before : list ascii)
         (st : Re.mstate),
    t = before ++ l -> scan_to_end icase r pv l = Some st -> state_in t st.
Proof.
  induction l as [|c l IH]; intros pv before st E H; simpl in H.
  - destruct (Re.m icase r _ _) as [st0|] eqn:Em; [|discriminate].
    injection H as <-.
    destruct (m_state_in icase t r _ _ _ (state_in_start t before [] pv E) Em)
      as (st' & Hst & K).
    destruct (at_end st'); [|discriminate]. now injection K as ->.
  - destruct (Re.m icase r _ _) as [st0|] eqn:Em.
    + injection H as <-.
      destruct (m_state_in icase t r _ _ _
                  (state_in_start t before (c :: l) pv E) Em)
        as (st' & Hst & K).
      destruct (at_end st'); [|discriminate]. now injection K as ->.
    + apply (IH (Some c) (before ++ [c])); [|assumption].
      now rewrite <- app_assoc.
Qed.

Lemma matches_from_in (icase : bool) (r : Re.regex) (t : list ascii) :
  forall (n : nat) (l : list ascii) (pv : option ascii) (before : list ascii),
    t = before ++ l ->
    Forall (fun x => Forall (fun c => occurs_in (snd c) t) (snd x))
           (Re.matches_from n icase r pv l).
Proof.
  induction n as [|n IH]; intros l pv before E; simpl; [constructor|].
  destruct (Re.scan icase r pv l) as [[start st]|] eqn:Es; [|constructor].
  destruct (scan_state_in icase r t l pv before start st E Es)
    as [[[b1 E1] Hc] [b2 E2]].
  destruct (Nat.ltb _ _).
  - constructor; [exact Hc|]. now apply (IH _ _ b1).
  - destruct start as [|c start'].
    + constructor; [exact Hc|constructor].
    + constructor; [exact Hc|]. apply (IH _ _ (b2 ++ [c])).
      now rewrite <- app_assoc.
Qed.

Lemma chars_str (l : list ascii) : Text.chars (Text.str l) = l.
Proof. apply list_ascii_of_string_of_list_ascii. Qed.

(** Every text [re.findall] returns for group 1 is a run of the text. *)
Lemma findall1_occurs (icase : bool) (r : Re.regex) (s found : string) :
  In found (Re.findall1 icase r s) ->
  occurs_in (Text.chars found) (Text.chars s).
Proof.
  unfold Re.findall1, Re.matches. intros Hin.
  apply in_map_iff in Hin as (x & <- & Hx).
  rewrite chars_str. apply get_cap_occurs.
  pose proof (matches_from_in icase r (Text.chars s) (S (String.length s))
                (Text.chars s) None [] eq_refl) as F.
  rewrite Forall_forall in F. now apply F.
Qed.

(** So is group 1 of the match [re.search] finds. *)
Lemma search_price_occurs (pattern : Re.regex) (anchored : bool)
    (text group1 : string) :
  search_price pattern anchored text = Some group1 ->
  occurs_in (Text.chars group1) (Text.chars text).
Proof.
  unfold search_price, Re.search_group. destruct anchored.
  - destruct (scan_to_end _ _ _ _) as [st|] eqn:Es; [|discriminate].
    intros [= <-]. rewrite chars_str. apply get_cap_occurs.
    now apply (scan_to_end_state_in true pattern (Text.chars text)
                 (Text.chars text) None [] st eq_refl).
  - destruct (Re.scan _ _ _ _) as [[start st]|] eqn:Es; [|discriminate].
    intros [= <-]. rewrite chars_str. apply get_cap_occurs.
    now apply (scan_state_in true pattern (Text.chars text)
                 (Text.chars text) None [] start st eq_refl).
Qed.

Lemma lstrip_suffix (l : list ascii) : exists before, l = before ++ Text.lstrip l.
Proof.
  induction l as [|c l [b IH]]; simpl.
  - now exists [].
  - destruct (Text.is_space c).
    + exists (c :: b). simpl. now f_equal.
    + now exists [].
Qed.

Lemma strip_occurs (s : string) :
  occurs_in (Text.chars (Text.strip s)) (Text.chars s).
Proof.
  unfold Text.strip. rewrite chars_str.
  destruct (lstrip_suffix (Text.chars s)) as [b E].
  destruct (lstrip_suffix (rev (Text.lstrip (Text.chars s)))) as [b' E'].
  exists b, (rev b').
  rewrite E at 1. f_equal.
  rewrite <- rev_app_distr, <- E'. now rewrite rev_involutive.
Qed.

Lemma occurs_in_trans (a b c : list ascii) :
  occurs_in a b -> occurs_in b c -> occurs_in a c.
Proof.
  intros (x & y & ->) (u & v & ->).
  exists (u ++ x), (y ++ v). now rewrite <- !app_assoc.
Qed.

(* ================================================================= *)
(** ** A number read from a text has a digit *)

Lemma read_digits_rest (us : bool) (l : list ascii) :
  forall (acc : Z) (n : nat) (c : ascii),
    In c (snd (Num.read_digits us acc n l)) -> In c l.
Proof.
  induction l as [|d t IH]; intros acc n c; simpl; [auto|].
  destruct (Text.is_digit d).
  - intros H. right. exact (IH _ _ _ H).
  - destruct (us && Text.is_code 95 d && Nat.ltb 0 n); [|auto].
    destruct t as [|e t']; [auto|].
    destruct (Text.is_digit e); [|auto].
    intros H. right. exact (IH _ _ _ H).
Qed.

Lemma read_digits_none (us : bool) (acc : Z) (l : list ascii) :
  (forall c, In c l -> Text.is_digit c = false) ->
  snd (fst (Num.read_digits us acc 0 l)) = 0.
Proof.
  destruct l as [|d t]; simpl; [reflexivity|]. intros H.
  rewrite (H d) by now left.
  now rewrite andb_false_r.
Qed.

Lemma skip_blank_suffix (l : list ascii) :
  exists before, l = before ++ Num.skip_blank l.
Proof.
  induction l as [|c l [b IH]]; simpl.
  - now exists [].
  - destruct (Num.is_blank c).
    + exists (c :: b). simpl. now f_equal.
    + now exists [].
Qed.

Lemma float_of_chars_digit (l : list ascii) (p : Qc) :
  Num.float_of_chars l = Ok p -> existsb Text.is_digit l = true.
Proof.
  intros H.
  destruct (existsb Text.is_digit l) eqn:E; [reflexivity|exfalso].
  assert (Hno : forall c, In c l -> Text.is_digit c = false).
  { intros c Hc. destruct (Text.is_digit c) eqn:Ed; [|reflexivity].
    assert (existsb Text.is_digit l = true) by (apply existsb_exists; eauto).
    congruence. }
  clear E. unfold Num.float_of_chars in H.
  set (l' := rev (Num.skip_blank (rev (Num.skip_blank l)))) in H.
  assert (Hl' : forall c, In c l' -> Text.is_digit c = false).
  { intros c Hc. apply Hno. subst l'.
    apply in_rev in Hc.
    destruct (skip_blank_suffix (rev (Num.skip_blank l))) as [b Eb].
    assert (In c (rev (Num.skip_blank l)))
      by (rewrite Eb; apply in_or_app; now right).
    apply in_rev in H0.
    destruct (skip_blank_suffix l) as [b0 Eb0].
    rewrite Eb0. apply in_or_app. now right. }
  clearbody l'.
  set (sl := match l' with
             | [] => (false, l')
             | s :: t => if Num.is_sign s then (Num.is_minus s, t) else (false, l')
             end) in H.
  assert (Hl1 : forall c, In c (snd sl) -> Text.is_digit c = false).
  { intros c Hc. apply Hl'. subst sl. destruct l' as [|s t]; [exact Hc|].
    destruct (Num.is_sign s); simpl in Hc; [now right|exact Hc]. }
  destruct sl as [neg l1]. simpl in Hl1.
  pose proof (read_digits_none true 0 l1 Hl1) as Hni.
  assert (Hr1 : forall c, In c (snd (Num.read_digits true 0 0 l1)) ->
                          Text.is_digit c = false).
  { intros c Hc. apply Hl1. exact (read_digits_rest _ _ _ _ _ Hc). }
  destruct (Num.read_digits true 0 0 l1) as [[ip ni] r1].
  simpl in Hni, Hr1. subst ni.
  set (fr := match r1 with
             | [] => (0%Z, 0, r1)
             | c :: t => if Num.is_dot c then Num.read_digits true 0 0 t
                         else (0%Z, 0, r1)
             end) in H.
  assert (Hnf : snd (fst fr) = 0).
  { subst fr. destruct r1 as [|c t]; [reflexivity|].
    destruct (Num.is_dot c); [|reflexivity].
    apply read_digits_none. intros x Hx. apply Hr1. now right. }
  destruct fr as [[fp nf] r2]. simpl in Hnf. subst nf.
  simpl in H. discriminate.
Qed.

Lemma replace_nothing_chars (old l : list ascii) :
  forall (skip : nat) (c : ascii),
    In c (Text.replace_chars old [] l skip) -> In c l.
Proof.
  induction l as [|d t IH]; intros skip c; simpl; [auto|].
  destruct skip as [|k].
  - destruct (Text.starts_with old (d :: t)); simpl.
    + intros H. right. exact (IH _ _ H).
    + intros [<-|H]; [now left|]. right. exact (IH _ _ H).
  - intros H. right. exact (IH _ _ H).
Qed.

Lemma has_digit_occurs (s t : list ascii) :
  occurs_in s t -> existsb Text.is_digit s = true ->
  existsb Text.is_digit t = true.
Proof.
  intros (b & a & ->) H. apply existsb_exists in H as (c & Hc & Hd).
  apply existsb_exists. exists c. split; [|assumption].
  apply in_or_app. right. apply in_or_app. now left.
Qed.

(** A match that spells a number has a digit. *)
Lemma spelled_number_digit (found : string) (p : Qc) :
  Num.float_of_str (Text.replace "," "" found) = Ok p ->
  has_digit found = true.
Proof.
  unfold Num.float_of_str, Text.replace. rewrite chars_str. intros H.
  apply float_of_chars_digit in H.
  apply existsb_exists in H as (c & Hc & Hd).
  apply existsb_exists. exists c. split; [|assumption].
  exact (replace_nothing_chars _ _ _ _ Hc).
Qed.

Lemma candidates_found (patterns : list (Re.regex * bool)) (content : string)
    (q : Qc) :
  In q (price_candidates patterns content) ->
  exists pattern found,
    In pattern patterns
    /\ In found (Re.findall1 true (fst pattern) content)
    /\ spelled_price (snd pattern) found = Some q.
Proof.
  unfold price_candidates. intros H.
  apply in_flat_map in H as (pattern & Hp & H).
  apply in_flat_map in H as (found & Hf & H).
  exists pattern, found. split; [assumption|]. split; [assumption|].
  destruct (spelled_price (snd pattern) found) as [p|]; [|destruct H].
  destruct H as [<-|[]]. reflexivity.
Qed.

Lemma candidates_need_digit (patterns : list (Re.regex * bool))
    (content : string) :
  has_digit content = false -> price_candidates patterns content = [].
Proof.
  intros Hno.
  destruct (price_candidates patterns content) as [|q t] eqn:E; [reflexivity|].
  exfalso.
  destruct (candidates_found patterns content q) as (pattern & found & _ & Hf & Hs).
  { rewrite E. now left. }
  unfold spelled_price in Hs.
  destruct (Num.float_of_str (Text.replace "," "" found)) as [p|] eqn:Ef;
    [|discriminate].
  apply spelled_number_digit in Ef.
  apply findall1_occurs in Hf.
  pose proof (has_digit_occurs _ _ Hf Ef) as Hd.
  unfold has_digit in Hno. congruence.
Qed.

(* ================================================================= *)
(** ** The last loop of the search *)

Lemma validate_snoc (l : list Scrape.offer) (r : Scrape.offer) :
  fold_left validate_step (l ++ [r]) []
  = validate_step (fold_left validate_step l []) r.
Proof. now rewrite fold_left_app. Qed.

Lemma best_scored_keep (l : list Scrape.offer) (k : string)
    (r new : Scrape.offer) :
  best_scored l k r ->
  (Scrape.store new = k -> in_final_range new = true ->
   (Scrape.match_score new <= Scrape.match_score r)%Qc) ->
  best_scored (l ++ [new]) k r.
Proof.
  intros (Hin & Hk & Hr & Hmax) Hnew. repeat split; auto.
  - apply in_or_app. now left.
  - intros r' Hin' Hk' Hr'. apply in_app_or in Hin' as [Hin'|[<-|[]]]; auto.
Qed.

Lemma best_scored_new (l : list Scrape.offer) (new : Scrape.offer) :
  in_final_range new = true ->
  (forall r', In r' l -> Scrape.store r' = Scrape.store new ->
              in_final_range r' = true ->
              (Scrape.match_score r' <= Scrape.match_score new)%Qc) ->
  best_scored (l ++ [new]) (Scrape.store new) new.
Proof.
  intros Hr Hmax. repeat split; auto.
  - apply in_or_app. right. now left.
  - intros r' Hin' Hk' Hr'. apply in_app_or in Hin' as [Hin'|[<-|[]]]; auto.
    apply Qcle_refl.
Qed.

Lemma validate_step_skip (stores_seen : dict Scrape.offer) (r : Scrape.offer) :
  in_final_range r = false -> validate_step stores_seen r = stores_seen.
Proof. unfold validate_step, in_final_range. now intros ->. Qed.

Lemma validate_step_kept (stores_seen : dict Scrape.offer) (r : Scrape.offer) :
  in_final_range r = true ->
  validate_step stores_seen r
  = match dict_get (Scrape.store r) stores_seen with
    | Some seen =>
        if Qc_ltb (Scrape.match_score seen) (Scrape.match_score r)
        then dict_set (Scrape.store r) r stores_seen
        else stores_seen
    | None => dict_set (Scrape.store r) r stores_seen
    end.
Proof. unfold validate_step, in_final_range. now intros ->. Qed.

(** The invariant of the loop. *)
Lemma validate_spec (l : list Scrape.offer) (k : string) :
  validated_for l k (dict_get k (fold_left validate_step l [])).
Proof.
  induction l as [|new l IH] using rev_ind.
  - simpl. intros r' [].
  - rewrite validate_snoc.
    destruct (in_final_range new) eqn:Hr.
    2:{ rewrite (validate_step_skip _ _ Hr).
        destruct (dict_get k (fold_left validate_step l [])) as [r|]; simpl in *.
        - apply best_scored_keep; [assumption|]. congruence.
        - intros r' Hin Hk. apply in_app_or in Hin as [Hin|[<-|[]]]; auto. }
    rewrite (validate_step_kept _ _ Hr).
    destruct (string_dec k (Scrape.store new)) as [->|Hne].
    + destruct (dict_get (Scrape.store new) (fold_left validate_step l []))
        as [seen|] eqn:Hget; simpl in IH.
      * destruct (Qc_ltb (Scrape.match_score seen) (Scrape.match_score new))
          eqn:Hlt.
        -- rewrite dict_get_set_same. simpl.
           apply best_scored_new; [assumption|].
           intros r' Hin' Hk' Hr'. apply Qc_ltb_lt in Hlt.
           apply Qclt_le_weak. eapply Qcle_lt_trans; [|exact Hlt].
           destruct IH as (_ & _ & _ & Hmax). auto.
        -- rewrite Hget. simpl. apply best_scored_keep; [assumption|].
           intros _ _. now apply Qc_ltb_ge.
      * rewrite dict_get_set_same. simpl.
        apply best_scored_new; [assumption|].
        intros r' Hin' Hk' Hr'. rewrite (IH r' Hin' Hk') in Hr'. discriminate.
    + assert (Hsame : dict_get k
                (match dict_get (Scrape.store new) (fold_left validate_step l []) with
                 | Some seen =>
                     if Qc_ltb (Scrape.match_score seen) (Scrape.match_score new)
                     then dict_set (Scrape.store new) new
                                   (fold_left validate_step l [])
                     else fold_left validate_step l []
                 | None => dict_set (Scrape.store new) new
                                    (fold_left validate_step l [])
                 end) = dict_get k (fold_left validate_step l [])).
      { destruct (dict_get (Scrape.store new) _) as [seen|].
        - destruct (Qc_ltb _ _); [|reflexivity]. now apply dict_get_set_other.
        - now apply dict_get_set_other. }
      rewrite Hsame.
      destruct (dict_get k (fold_left validate_step l [])) as [r|]; simpl in *.
      * apply best_scored_keep; [assumption|]. congruence.
      * intros r' Hin Hk. apply in_app_or in Hin as [Hin|[<-|[]]]; auto.
        congruence.
Qed.

Lemma validate_step_NoDup (stores_seen : dict Scrape.offer) (r : Scrape.offer) :
  NoDup (map fst stores_seen) -> NoDup (map fst (validate_step stores_seen r)).
Proof.
  intros ND. unfold validate_step.
  repeat match goal with
         | |- context [if ?b then _ else _] => destruct b
         | |- context [match ?x with _ => _ end] => destruct x
         end; auto using dict_set_NoDup.
Qed.

Lemma validate_NoDup (l : list Scrape.offer) :
  NoDup (map fst (fold_left validate_step l [])).
Proof.
  induction l as [|r l IH] using rev_ind.
  - constructor.
  - rewrite validate_snoc. now apply validate_step_NoDup.
Qed.

Lemma validated_results_In (l : list Scrape.offer) (r : Scrape.offer) :
  In r (validated_results l) <-> best_scored l (Scrape.store r) r
                                 /\ dict_get (Scrape.store r)
                                      (fold_left validate_step l []) = Some r.
Proof.
  unfold validated_results, dict_values. split.
  - intros Hin. apply in_map_iff in Hin as ([k r0] & E & Hin). simpl in E.
    subst r0. apply dict_In_get in Hin; [|apply validate_NoDup].
    pose proof (validate_spec l k) as S. rewrite Hin in S. simpl in S.
    assert (Hk : Scrape.store r = k) by apply S.
    rewrite Hk. now split.
  - intros [_ Hget]. apply dict_get_In in Hget.
    apply in_map_iff. now exists (Scrape.store r, r).
Qed.

Lemma validated_results_stores (l : list Scrape.offer) :
  map Scrape.store (validated_results l)
  = map fst (fold_left validate_step l []).
Proof.
  apply dict_values_keys. intros k r Hin.
  apply dict_In_get in Hin; [|apply validate_NoDup].
  pose proof (validate_spec l k) as S. rewrite Hin in S. apply S.
Qed.

(* ================================================================= *)
(** ** The pages Google finds *)

Lemma NoDup_snoc {A : Type} (l : list A) (x : A) :
  NoDup l -> ~ In x l -> NoDup (l ++ [x]).
Proof.
  intros ND Hnot. apply (Permutation_NoDup (Permutation_cons_append l x)).
  now constructor.
Qed.

Lemma unique_step_snoc (l : list Scrape.url_info) (u : Scrape.url_info) :
  fold_left unique_step (l ++ [u]) ([], [])
  = unique_step (fold_left unique_step l ([], [])) u.
Proof. now rewrite fold_left_app. Qed.

(** The invariant of the loop that removes repeated URLs. *)
Lemma unique_spec (l : list Scrape.url_info) :
  let st := fold_left unique_step l ([], []) in
  (forall x, In x (fst st) <-> In x (map Scrape.info_url (snd st)))
  /\ NoDup (map Scrape.info_url (snd st))
  /\ (forall u, In u (snd st) -> In u l)
  /\ (forall u, In u l -> In (Scrape.info_url u) (fst st)).
Proof.
  induction l as [|u l IH] using rev_ind; simpl.
  - repeat split; auto; try constructor; intros ? [].
  - rewrite unique_step_snoc.
    destruct (fold_left unique_step l ([], [])) as [seen unique].
    simpl in IH. destruct IH as (Hseen & ND & Hsub & Hall).
    unfold unique_step.
    destruct (in_list (Scrape.info_url u) seen) eqn:E; simpl.
    + apply in_list_In in E. repeat split; auto.
      * apply Hseen.
      * apply Hseen.
      * intros v Hv. apply in_or_app. left. auto.
      * intros v Hv. apply in_app_or in Hv as [Hv|[<-|[]]]; auto.
    + assert (Hnot : ~ In (Scrape.info_url u) seen).
      { intros Hin. apply in_list_In in Hin. congruence. }
      repeat split.
      * intros [<-|Hx]; rewrite map_app; apply in_or_app;
          [right; now left|left; now apply Hseen].
      * rewrite map_app. intros Hx. apply in_app_or in Hx as [Hx|[<-|[]]];
          [right; now apply Hseen|now left].
      * rewrite map_app. apply NoDup_snoc; [assumption|].
        intros Hin. apply Hnot. now apply Hseen.
      * intros v Hv. apply in_app_or in Hv as [Hv|[<-|[]]];
          apply in_or_app; [left; auto|right; now left].
      * intros v Hv. apply in_app_or in Hv as [Hv|[<-|[]]];
          [right; auto|now left].
Qed.

Lemma store_domain_found (url_lower domain : string) :
  store_domain url_lower = Some domain ->
  In domain mexican_store_domains /\ Text.contains domain url_lower = true.
Proof. unfold store_domain. intros H. now apply find_some in H. Qed.

(** Every domain of the allow-list has a store in the table, under a name
    the consolidator leaves as it is. *)
Lemma allow_list_named (domain : string) :
  In domain mexican_store_domains ->
  In (domain, identify_store_from_domain domain) domain_to_store
  /\ store_key_of (identify_store_from_domain domain)
     = identify_store_from_domain domain.
Proof.
  intros Hin. simpl in Hin.
  repeat (destruct Hin as [<-|Hin];
          [split; [vm_compute; tauto|reflexivity]|]).
  destruct Hin.
Qed.

Lemma table_names_canonical (domain store : string) :
  In (domain, store) domain_to_store -> store_key_of store = store.
Proof.
  intros Hin. simpl in Hin.
  repeat (destruct Hin as [[= <- <-]|Hin]; [reflexivity|]).
  destruct Hin.
Qed.

Lemma fold_kept_Forall {A B : Type} (P : A -> Prop)
    (f : list A -> B -> kept (list A)) :
  (forall acc x, Forall P acc -> Forall P (fst (f acc x))) ->
  forall l acc, Forall P acc -> Forall P (fst (fold_kept f acc l)).
Proof.
  intros Hf. induction l as [|x t IH]; intros acc Hacc; simpl; [assumption|].
  pose proof (Hf acc x Hacc) as H.
  destruct (f acc x) as [acc' [e|]]; simpl in *; auto.
Qed.

Lemma google_item_classified (shopping : bool)
    (urls_found : list Scrape.url_info) (item : pyval) :
  Forall classified urls_found ->
  Forall classified (fst (google_item shopping urls_found item)).
Proof.
  intros Hacc. unfold google_item.
  destruct (py_get item "url" (PStr "")) as [url|]; simpl; [|assumption].
  destruct (py_get item "title" (PStr "")) as [title|]; simpl; [|assumption].
  destruct (if shopping then py_get item "price" (PStr "") else Ok PNone)
    as [price|]; simpl; [|assumption].
  destruct url; simpl; try assumption.
  destruct (store_domain (Text.lower s)) as [domain|] eqn:Ed; simpl;
    [|assumption].
  apply Forall_app. split; [assumption|]. constructor; [|constructor].
  apply store_domain_found in Ed as [Hin Hc].
  unfold classified; simpl. split; [assumption|]. split; [assumption|].
  now apply allow_list_named.
Qed.

Lemma google_result_classified (urls_found : list Scrape.url_info)
    (result : pyval) :
  Forall classified urls_found ->
  Forall classified (fst (google_result urls_found result)).
Proof.
  intros Hacc. unfold google_result.
  destruct (py_get result "content" (PDict [])) as [content|]; [|assumption].
  destruct (organic_items content) as [organic|]; [|assumption].
  pose proof (fold_kept_Forall classified (google_item false)
                (google_item_classified false) organic urls_found Hacc) as H1.
  destruct (fold_kept (google_item false) urls_found organic) as [found [e|]];
    simpl in *; [assumption|].
  destruct (shopping_items content) as [shopping|]; [|assumption].
  now apply fold_kept_Forall; [apply google_item_classified|].
Qed.

Lemma unique_by_url_spec (l : list Scrape.url_info) :
  NoDup (map Scrape.info_url (unique_by_url l))
  /\ (forall u, In u (unique_by_url l) -> In u l)
  /\ (forall u, In u l ->
        In (Scrape.info_url u) (map Scrape.info_url (unique_by_url l))).
Proof.
  unfold unique_by_url.
  destruct (unique_spec l) as (Hseen & ND & Hsub & Hall).
  split; [assumption|]. split; [assumption|].
  intros u Hu. apply Hseen. now apply Hall.
Qed.

Lemma search_google_classified (data : option pyval) :
  NoDup (map Scrape.info_url (search_google_for_prices data))
  /\ Forall classified (search_google_for_prices data).
Proof.
  unfold search_google_for_prices.
  set (urls_found := match data with Some _ => _ | None => _ end).
  destruct (unique_by_url_spec urls_found) as (ND & Hsub & _).
  split; [assumption|].
  assert (Hc : Forall classified urls_found).
  { subst urls_found. destruct data as [data|]; [|constructor].
    destruct (results <- py_get data "results" (PList []) ;;
              Cascade.py_iter results) as [results|]; [|constructor].
    apply fold_kept_Forall; [apply google_result_classified|constructor]. }
  rewrite Forall_forall in *. auto.
Qed.

Lemma google_urls_classified (product_name upc : string)
    (upc_data name_data : option pyval) :
  NoDup (map Scrape.info_url (google_urls product_name upc upc_data name_data))
  /\ Forall classified (google_urls product_name upc upc_data name_data).
Proof.
  unfold google_urls.
  set (first := if negb (String.eqb upc "") then _ else _).
  assert (H1 : NoDup (map Scrape.info_url first) /\ Forall classified first).
  { subst first. destruct (negb (String.eqb upc ""));
      [apply search_google_classified|split; constructor]. }
  destruct H1 as [ND1 C1].
  destruct (negb (String.eqb product_name "") && Nat.ltb (length first) 10);
    [|now split].
  destruct (search_google_classified name_data) as [ND2 C2].
  split.
  - rewrite map_app. apply NoDup_app.
    + assumption.
    + revert ND2. generalize (search_google_for_prices name_data).
      induction l as [|u l IH]; simpl; intros ND; [constructor|].
      inversion ND as [|? ? Hn ND']; subst.
      destruct (negb (in_list _ _)); simpl; [|auto].
      constructor; [|auto]. intros Hin. apply Hn.
      apply in_map_iff in Hin as (v & Ev & Hv). apply filter_In in Hv as [Hv _].
      rewrite <- Ev. now apply in_map.
    + intros x Hx Hy. apply in_map_iff in Hy as (v & <- & Hv).
      apply filter_In in Hv as [_ Hv]. apply negb_true_iff in Hv.
      apply in_list_In in Hx. congruence.
  - apply Forall_app. split; [assumption|].
    rewrite Forall_forall in *. intros u Hu. apply filter_In in Hu as [Hu _].
    auto.
Qed.

(* ================================================================= *)
(** ** Loops that may raise *)

Lemma fold_res_inv {A B : Type} (P : A -> Prop) (f : A -> B -> res A) :
  (forall a x a', P a -> f a x = Ok a' -> P a') ->
  forall l a r, P a -> Cascade.fold_res f a l = Ok r -> P r.
Proof.
  intros Hf. induction l as [|x t IH]; intros a r Ha H; simpl in H.
  - now injection H as <-.
  - destruct (f a x) as [a'|] eqn:E; simpl in H; [|discriminate].
    eauto.
Qed.

Lemma fold_caught_inv {A B : Type} (P : A -> Prop) (f : A -> B -> res A) :
  (forall a x a', P a -> f a x = Ok a' -> P a') ->
  forall l a, P a -> P (Cascade.fold_caught f a l).
Proof.
  intros Hf. induction l as [|x t IH]; intros a Ha; simpl; [assumption|].
  destruct (f a x) as [a'|] eqn:E; eauto.
Qed.

(** The same for a body that holds for the elements of the list. *)
Lemma fold_res_inv_in {A B : Type} (P : A -> Prop) (f : A -> B -> res A)
    (l : list B) :
  (forall a x a', In x l -> P a -> f a x = Ok a' -> P a') ->
  forall a r, P a -> Cascade.fold_res f a l = Ok r -> P r.
Proof.
  intros Hf.
  assert (G : forall t, incl t l ->
              forall a r, P a -> Cascade.fold_res f a t = Ok r -> P r).
  { induction t as [|x t IH]; intros Ht a r Ha E; simpl in E.
    - now injection E as <-.
    - destruct (f a x) as [a'|] eqn:Ex; simpl in E; [|discriminate].
      apply (IH (fun y Hy => Ht y (or_intror Hy)) a' r); [|assumption].
      apply (Hf a x a'); [|assumption|assumption].
      apply Ht. now left. }
  apply G. apply incl_refl.
Qed.

Lemma fold_caught_inv_in {A B : Type} (P : A -> Prop) (f : A -> B -> res A)
    (l : list B) :
  (forall a x a', In x l -> P a -> f a x = Ok a' -> P a') ->
  forall a, P a -> P (Cascade.fold_caught f a l).
Proof.
  intros Hf.
  assert (G : forall t, incl t l ->
              forall a, P a -> P (Cascade.fold_caught f a t)).
  { induction t as [|x t IH]; intros Ht a Ha; simpl; [assumption|].
    destruct (f a x) as [a'|] eqn:Ex; [|assumption].
    apply (IH (fun y Hy => Ht y (or_intror Hy))).
    apply (Hf a x a'); [|assumption|assumption].
    apply Ht. now left. }
  apply G. apply incl_refl.
Qed.

Lemma bind_Ok {A B : Type} (m : res A) (f : A -> res B) (b : B) :
  (x <- m ;; f x) = Ok b -> exists a, m = Ok a /\ f a = Ok b.
Proof. destruct m as [a|]; simpl; [eauto|discriminate]. Qed.

(* ================================================================= *)
(** ** The score of a title *)

Lemma match_score_unit `{SetOrder} (search_name found_name : string) :
  (0 <= calculate_product_match_score search_name found_name)%Qc
  /\ (calculate_product_match_score search_name found_name <= 1)%Qc.
Proof.
  assert (Z01 : (0 <= 0)%Qc /\ (0 <= 1)%Qc) by (split; discriminate).
  assert (H12 : (0 <= Q2Qc (1 # 2))%Qc /\ (Q2Qc (1 # 2) <= 1)%Qc)
    by (split; discriminate).
  destruct (String.eqb search_name "") eqn:Es.
  { unfold calculate_product_match_score. now rewrite Es. }
  destruct (String.eqb found_name "") eqn:Ef.
  { unfold calculate_product_match_score. rewrite Es, Ef. assumption. }
  destruct (normalize_product_name search_name) as [|w ws] eqn:Ek.
  { unfold calculate_product_match_score. rewrite Es, Ef, Ek. assumption. }
  apply String.eqb_neq in Es. apply String.eqb_neq in Ef.
  rewrite (match_score_keywords _ _ Es Ef) by (rewrite Ek; discriminate).
  cbv zeta. rewrite Ek.
  assert (Hj := jaccard_bounds (w :: ws) (normalize_product_name found_name)).
  destruct Hj as [J0 J1]; [discriminate|].
  destruct (bonus_applies _ _); [|now split].
  apply Qc_min_bounds.
  eapply Qcle_trans; [exact J0|].
  rewrite <- (Qcplus_0_r (jaccard _ _)) at 1.
  apply Qcplus_le_compat; [apply Qcle_refl|discriminate].
Qed.

Lemma title_score_unit `{SetOrder} (search_name found_name : pyval) (s : Qc) :
  title_score search_name found_name = Ok s -> (0 <= s)%Qc /\ (s <= 1)%Qc.
Proof.
  unfold title_score. intros E.
  assert (Z : Ok 0%Qc = Ok s -> (0 <= s)%Qc /\ (s <= 1)%Qc)
    by (intros [= <-]; split; discriminate).
  destruct search_name, found_name;
    try (destruct (negb _ || negb _); [now apply Z|discriminate]).
  injection E as <-. apply match_score_unit.
Qed.

(* ================================================================= *)
(** ** The scrapers *)

Section ScraperProperties.
Context `{SetOrder}.
Variable quote : string -> string.
Variable repr : pyval -> string.

(** What the loop over the products of a page holds: the best match so far
    is an offer made from one of the products, and its score is the best
    score. *)
Lemma universal_step_inv (store_name search_url search_term : string)
    (min_match_score : Qc) (extracted : list Cascade.product)
    (st st' : Scrape.best) (prod : Cascade.product) :
  In prod extracted ->
  (0 <= snd st)%Qc ->
  (forall o, fst st = Some o ->
             extracted_offer store_name search_url search_term
                             min_match_score extracted o) ->
  Scrape.universal_step store_name search_url search_term min_match_score
                        st prod = Ok st' ->
  (0 <= snd st')%Qc
  /\ (forall o, fst st' = Some o ->
                extracted_offer store_name search_url search_term
                                min_match_score extracted o).
Proof.
  intros Hin H0 Hst. unfold Scrape.universal_step.
  destruct (Cascade.plausible 10 5000 (Cascade.price prod)) eqn:Hp;
    cbn [negb]; [|intros [= <-]; now split].
  intros E. apply bind_Ok in E as (s & Es & E).
  apply bind_Ok in E as (t40 & _ & E).
  destruct (Qc_leb min_match_score s && Qc_ltb (snd st) s) eqn:Eb;
    [|injection E as <-; now split].
  apply andb_true_iff in Eb as [Emin Egt].
  apply Qc_leb_le in Emin. apply Qc_ltb_lt in Egt.
  apply bind_Ok in E as (t100 & Et & E). injection E as <-. simpl.
  destruct (title_score_unit _ _ _ Es) as [S0 S1].
  split; [assumption|]. intros o [= <-].
  unfold extracted_offer; simpl.
  split; [reflexivity|]. split; [reflexivity|]. split; [reflexivity|].
  split; [reflexivity|]. exists prod.
  split; [assumption|]. split; [reflexivity|]. split; [assumption|].
  split; [assumption|]. split; [assumption|]. split; [assumption|].
  split; [|assumption].
  exact (Qcle_lt_trans _ _ _ H0 Egt).
Qed.

Lemma universal_result_inv (store_key store_name search_url query
    product_name : string) (min_match_score : Qc) (pages : list pyval)
    (results results' : list Scrape.offer) (result : pyval) :
  In result pages ->
  Forall (universal_offer store_key store_name search_url query
            (Scrape.str_or product_name query) min_match_score pages)
         results ->
  Scrape.universal_result store_key store_name search_url query product_name
                          min_match_score results result = Ok results' ->
  Forall (universal_offer store_key store_name search_url query
            (Scrape.str_or product_name query) min_match_score pages)
         results'.
Proof.
  intros Hpage Hres. unfold Scrape.universal_result. intros E.
  apply bind_Ok in E as (content & Ec & E).
  destruct content as [| | | |html| |]; try (now injection E as <-).
  destruct (Nat.ltb 100 (String.length html)) eqn:Elen;
    [|now injection E as <-].
  apply bind_Ok in E as (extracted & Ex & E).
  destruct (negb (is_nil extracted)) eqn:Enil.
  - apply bind_Ok in E as (found & Ef & E).
    assert (Hfound : (0 <= snd found)%Qc
                     /\ forall o, fst found = Some o ->
                          extracted_offer store_name search_url
                            (Scrape.str_or product_name query)
                            min_match_score extracted o).
    { revert Ef.
      apply (fold_res_inv_in
               (fun st => (0 <= snd st)%Qc
                          /\ forall o, fst st = Some o ->
                               extracted_offer store_name search_url
                                 (Scrape.str_or product_name query)
                                 min_match_score extracted o)).
      - intros a x a' Hx [Ha0 Ha] Hstep.
        exact (universal_step_inv _ _ _ _ _ _ _ _ Hx Ha0 Ha Hstep).
      - split; [discriminate|]. intros o. discriminate. }
    destruct (fst found) as [best_match|] eqn:Eb; injection E as <-;
      [|assumption].
    apply Forall_app. split; [assumption|]. constructor; [|constructor].
    exists result, html.
    split; [assumption|]. split; [assumption|]. split; [assumption|].
    left. exists extracted. split; [assumption|].
    split; [intros ->; discriminate Enil|]. now apply Hfound.
  - assert (En : extracted = []) by (destruct extracted; [reflexivity|discriminate]).
    subst extracted.
    pose proof (least_in_range (get_store_specific_patterns store_key)
                  (Qc_of_Z 15) (Qc_of_Z 100) html) as L.
    destruct (py_min _) as [p|]; injection E as <-; [|assumption].
    apply Forall_app. split; [assumption|]. constructor; [|constructor].
    exists result, html.
    split; [assumption|]. split; [assumption|]. split; [assumption|].
    right. split; [assumption|].
    destruct L as (Lin & Lrange & Lleast).
    unfold pattern_offer; simpl.
    split; [reflexivity|]. split; [reflexivity|]. split; [reflexivity|].
    split; [reflexivity|]. split; [assumption|]. split; [assumption|].
    split; [assumption|]. now split.
Qed.

Lemma scrape_store_universal_inv (store_key query product_name : string)
    (min_match_score : Qc) (data_results : list pyval) :
  match dict_get store_key Scrape.MEXICAN_STORES with
  | Some store_config =>
      Forall (universal_offer store_key
                (Scrape.name store_config)
                (Text.replace "{query}" (quote query)
                              (Scrape.search_url store_config))
                query (Scrape.str_or product_name query) min_match_score
                data_results)
             (Scrape.scrape_store_universal quote store_key query product_name
                                            min_match_score data_results)
  | None =>
      Scrape.scrape_store_universal quote store_key query product_name
                                    min_match_score data_results = []
  end.
Proof.
  unfold Scrape.scrape_store_universal.
  destruct (dict_get store_key Scrape.MEXICAN_STORES) as [cfg|]; [|reflexivity].
  apply fold_caught_inv_in; [|constructor].
  intros a x a' Hx Ha Hstep.
  exact (universal_result_inv _ _ _ _ _ _ _ _ _ _ Hx Ha Hstep).
Qed.





End ScraperProperties.

(* ================================================================= *)
(** ** The choice of the Amazon scraper *)

Lemma Qc_eqb_eq (a b : Qc) : Qc_eqb a b = true <-> a = b.
Proof.
  unfold Qc_eqb. rewrite Qceq_alt.
  destruct (a ?= b)%Qc; split; intros E; congruence.
Qed.

Lemma insert_by_In {A : Type} (le : A -> A -> bool) (e x : A) (l : list A) :
  In x (insert_by le e l) <-> x = e \/ In x l.
Proof.
  induction l as [|y t IH]; simpl.
  - intuition.
  - destruct (le e y); simpl; [intuition|]. rewrite IH. intuition.
Qed.

Lemma sort_by_In {A : Type} (le : A -> A -> bool) (x : A) (l : list A) :
  In x (sort_by le l) <-> In x l.
Proof.
  induction l as [|y t IH]; simpl; [tauto|].
  rewrite insert_by_In, IH. intuition.
Qed.

(** The first element of the sorted list comes before every element. *)
Lemma sort_by_first {A : Type} (le : A -> A -> bool) :
  (forall a b, le a b = false -> le b a = true) ->
  (forall a b c, le a b = true -> le b c = true -> le a c = true) ->
  forall (l : list A) (b : A),
    hd_error (sort_by le l) = Some b ->
    In b l /\ forall c, In c l -> le b c = true.
Proof.
  intros Htotal Htrans.
  assert (Hrefl : forall a, le a a = true).
  { intros a. destruct (le a a) eqn:E; [reflexivity|].
    rewrite <- E at 1. now apply Htotal. }
  induction l as [|x t IH]; intros b; simpl; [discriminate|].
  destruct (sort_by le t) as [|y s] eqn:Es; simpl.
  - intros [= <-].
    assert (Et : t = []).
    { destruct t as [|z t']; [reflexivity|].
      assert (Hin : In z (sort_by le (z :: t'))) by (apply sort_by_In; now left).
      rewrite Es in Hin. destruct Hin. }
    subst t. split; [now left|]. intros c [<-|[]]. apply Hrefl.
  - destruct (IH y eq_refl) as [Hy Hmin].
    destruct (le x y) eqn:Exy; simpl; intros [= <-].
    + split; [now left|]. intros c [<-|Hc]; [apply Hrefl|].
      apply (Htrans _ y); auto.
    + split; [now right|]. intros c [<-|Hc]; [now apply Htotal|auto].
Qed.

Lemma better_or_equal_total (a b : Scrape.offer) :
  Scrape.better_or_equal a b = false -> Scrape.better_or_equal b a = true.
Proof.
  unfold Scrape.better_or_equal. intros E.
  apply orb_false_iff in E as [E1 E2]. apply Qc_ltb_ge in E1.
  destruct (Qc_ltb (Scrape.match_score a) (Scrape.match_score b)) eqn:E3;
    [reflexivity|].
  apply Qc_ltb_ge in E3. simpl.
  assert (Eq : Scrape.match_score a = Scrape.match_score b)
    by now apply Qcle_antisym.
  rewrite Eq in *. apply andb_true_iff. split; [now apply Qc_eqb_eq|].
  assert (Er : Qc_eqb (Scrape.match_score b) (Scrape.match_score b) = true)
    by now apply Qc_eqb_eq.
  rewrite Er in E2. simpl in E2. apply Qc_leb_gt in E2.
  apply Qc_leb_le. now apply Qclt_le_weak.
Qed.

Lemma better_or_equal_spec (a b : Scrape.offer) :
  Scrape.better_or_equal a b = true <->
  (Scrape.match_score b < Scrape.match_score a)%Qc
  \/ (Scrape.match_score a = Scrape.match_score b
      /\ (Scrape.price a <= Scrape.price b)%Qc).
Proof.
  unfold Scrape.better_or_equal.
  rewrite orb_true_iff, andb_true_iff, Qc_ltb_lt, Qc_eqb_eq, Qc_leb_le.
  tauto.
Qed.

Lemma better_or_equal_trans (a b c : Scrape.offer) :
  Scrape.better_or_equal a b = true -> Scrape.better_or_equal b c = true ->
  Scrape.better_or_equal a c = true.
Proof.
  rewrite !better_or_equal_spec. intros [H1|[E1 P1]] [H2|[E2 P2]].
  - left. eapply Qclt_trans; eassumption.
  - left. now rewrite <- E2.
  - left. now rewrite E1.
  - right. split; [congruence|]. eapply Qcle_trans; eassumption.
Qed.

Lemma best_match_spec (valid_products : list Scrape.offer) :
  match Scrape.best_match valid_products with
  | Some b =>
      In b valid_products
      /\ (Scrape.is_pack b = true ->
          forall c, In c valid_products -> Scrape.is_pack c = true)
      /\ forall c, In c valid_products ->
                   Scrape.is_pack c = Scrape.is_pack b ->
                   (Scrape.match_score c <= Scrape.match_score b)%Qc
                   /\ (Scrape.match_score c = Scrape.match_score b ->
                       (Scrape.price b <= Scrape.price c)%Qc)
  | None => valid_products = []
  end.
Proof.
  unfold Scrape.best_match.
  remember (filter (fun p => negb (Scrape.is_pack p)) valid_products)
    as unitarios eqn:Eu.
  remember (filter Scrape.is_pack valid_products) as multipacks eqn:Em.
  remember (if is_nil unitarios then multipacks else unitarios)
    as candidates eqn:Ec.
  assert (Hunit : forall c, In c unitarios <->
                            In c valid_products /\ Scrape.is_pack c = false).
  { intros c. rewrite Eu, filter_In, negb_true_iff. tauto. }
  assert (Hcand : forall c, In c candidates <->
                    In c valid_products
                    /\ (Scrape.is_pack c = true -> unitarios = [])
                    /\ (Scrape.is_pack c = false -> unitarios <> [])).
  { intros c. rewrite Ec. destruct unitarios as [|u us]; simpl.
    - rewrite Em, filter_In. split.
      + intros [Hin Hp]. split; [assumption|]. split; [reflexivity|].
        congruence.
      + intros (Hin & _ & Hn). split; [assumption|].
        destruct (Scrape.is_pack c); [reflexivity|]. now destruct Hn.
    - change (u = c \/ In c us) with (In c (u :: us)). rewrite Hunit. split.
      + intros [Hin Hp]. split; [assumption|]. split; [congruence|].
        discriminate.
      + intros (Hin & Hy & _). split; [assumption|].
        destruct (Scrape.is_pack c); [|reflexivity].
        discriminate (Hy eq_refl). }
  clear Ec Em Eu.
  destruct (hd_error (sort_by Scrape.better_or_equal candidates)) as [b|] eqn:Eh.
  - destruct (sort_by_first Scrape.better_or_equal better_or_equal_total
                better_or_equal_trans candidates b Eh) as [Hb Hmin].
    apply Hcand in Hb as (Hin & Hpack & Hnopack).
    split; [assumption|]. split.
    + intros Hp c Hcin. destruct (Scrape.is_pack c) eqn:Ecp; [reflexivity|].
      assert (Hu : In c unitarios) by now apply Hunit.
      rewrite (Hpack Hp) in Hu. destruct Hu.
    + intros c Hcin Eq.
      assert (Hcc : In c candidates).
      { apply Hcand. split; [assumption|]. rewrite Eq. now split. }
      pose proof (Hmin c Hcc) as Hle.
      apply better_or_equal_spec in Hle as [Hlt|[E P]].
      * split; [now apply Qclt_le_weak|]. intros E. rewrite E in Hlt.
        exfalso. exact (Qclt_not_le _ _ Hlt (Qcle_refl _)).
      * split; [rewrite E; apply Qcle_refl|auto].
  - destruct valid_products as [|v vs]; [reflexivity|exfalso].
    assert (Hne : exists c, In c candidates).
    { destruct (Scrape.is_pack v) eqn:Ev.
      - destruct unitarios as [|u us] eqn:Eu.
        + exists v. apply Hcand. split; [now left|]. split; congruence.
        + exists u. apply Hcand.
          assert (Hu : In u (u :: us)) by now left.
          apply Hunit in Hu as [Hu Hp]. split; [assumption|].
          split; [congruence|discriminate].
      - exists v. apply Hcand. split; [now left|]. split; [congruence|].
        intros _ En. assert (Hv : In v unitarios) by (apply Hunit; split; [now left|assumption]).
        rewrite En in Hv. destruct Hv. }
    destruct Hne as [c Hcin].
    apply (sort_by_In Scrape.better_or_equal) in Hcin.
    destruct (sort_by Scrape.better_or_equal candidates); [destruct Hcin|].
    discriminate.
Qed.


Lemma fold_caught_length {A B : Type} (f : list A -> B -> res (list A)) :
  (forall a x a', f a x = Ok a' -> length a' <= S (length a)) ->
  forall l a, length (Cascade.fold_caught f a l) <= length a + length l.
Proof.
  intros Hf. induction l as [|x t IH]; intros a; simpl; [lia|].
  destruct (f a x) as [a'|] eqn:E; [|lia].
  specialize (IH a'). apply Hf in E. lia.
Qed.

Section AmazonProperties.
Context `{SetOrder}.
Variable repr : pyval -> string.

Lemma amazon_product_inv (query product_name : string) (min_match_score : Qc)
    (valid_products valid_products' : list Scrape.offer) (product : pyval) :
  Forall (amazon_offer min_match_score) valid_products ->
  Scrape.amazon_product repr query product_name min_match_score
                        valid_products product = Ok valid_products' ->
  Forall (amazon_offer min_match_score) valid_products'.
Proof.
  intros Hv. unfold Scrape.amazon_product.
  destruct product; try (now intros [= <-]).
  intros E. apply bind_Ok in E as (s & Es & E).
  destruct (title_score_unit _ _ _ Es) as [S0 S1].
  apply bind_Ok in E as (price_float & _ & E).
  match type of E with
  | match ?pf with _ => _ end = _ => destruct pf as [p|]
  end; [|now injection E as <-].
  destruct (negb (Qc_eqb p 0%Qc) && Cascade.plausible 10 5000 p
            && Qc_leb min_match_score s) eqn:Eb; [|now injection E as <-].
  apply andb_true_iff in Eb as [Eb Emin].
  apply andb_true_iff in Eb as [_ Ep]. apply Qc_leb_le in Emin.
  apply bind_Ok in E as (multipack & _ & E).
  apply bind_Ok in E as (t50 & _ & E).
  apply bind_Ok in E as (t100 & _ & E). injection E as <-.
  apply Forall_app. split; [assumption|]. constructor; [|constructor].
  unfold amazon_offer; simpl.
  split; [reflexivity|]. split; [reflexivity|]. split; [discriminate|].
  split; [assumption|]. split; [assumption|]. now split.
Qed.

Lemma amazon_result_inv (query product_name : string) (min_match_score : Qc)
    (results results' : list Scrape.offer) (result : pyval) :
  Forall (amazon_offer min_match_score) results ->
  Scrape.amazon_result repr query product_name min_match_score results result
  = Ok results' ->
  Forall (amazon_offer min_match_score) results'
  /\ length results' <= S (length results).
Proof.
  intros Hres. unfold Scrape.amazon_result. intros E.
  apply bind_Ok in E as (content & _ & E).
  apply bind_Ok in E as (products & _ & E).
  apply bind_Ok in E as (n & _ & E).
  apply bind_Ok in E as (first15 & _ & E).
  apply bind_Ok in E as (items & _ & E).
  apply bind_Ok in E as (valid_products & Ev & E).
  assert (Hvalid : Forall (amazon_offer min_match_score) valid_products).
  { revert Ev. apply fold_res_inv; [|constructor].
    intros a x a' Ha Hx. exact (amazon_product_inv _ _ _ _ _ _ Ha Hx). }
  pose proof (best_match_spec valid_products) as B.
  destruct (Scrape.best_match valid_products) as [b|]; injection E as <-.
  - split.
    + apply Forall_app. split; [assumption|]. constructor; [|constructor].
      rewrite Forall_forall in Hvalid. apply Hvalid. apply B.
    + rewrite length_app. simpl. lia.
  - split; [assumption|lia].
Qed.

Lemma scrape_amazon_mexico_inv (query product_name : string)
    (min_match_score : Qc) (data_results : list pyval) :
  Forall (amazon_offer min_match_score)
         (Scrape.scrape_amazon_mexico repr query product_name min_match_score
                                      data_results).
Proof.
  unfold Scrape.scrape_amazon_mexico.
  apply fold_caught_inv; [|constructor].
  intros a x a' Ha Hx.
  exact (proj1 (amazon_result_inv _ _ _ _ _ _ Ha Hx)).
Qed.

End AmazonProperties.

(* ================================================================= *)
(** ** The cleaned product name *)

Lemma single_spaced_firstn (n : nat) :
  forall (l : list ascii) (after_space : bool),
    single_spaced after_space l = true ->
    single_spaced after_space (firstn n l) = true.
Proof.
  induction n as [|n IH]; intros l a H; [reflexivity|].
  destruct l as [|c t]; [reflexivity|]. simpl in *.
  destruct (Text.is_code 32 c).
  - apply andb_true_iff in H as [H1 H2]. rewrite H1. simpl. now apply IH.
  - apply andb_true_iff in H as [H1 H2]. rewrite H1. simpl. now apply IH.
Qed.

(** A word: not empty, without white space. *)
Lemma single_spaced_word (w rest : list ascii) (after_space : bool) :
  w <> [] -> Forall (fun c => Text.is_space c = false) w ->
  single_spaced false rest = true ->
  single_spaced after_space (w ++ rest) = true.
Proof.
  intros Hne Hw Hrest. revert after_space.
  induction Hw as [|c w Hc Hw IH]; [congruence|]. intros a. simpl.
  assert (H32 : Text.is_code 32 c = false).
  { destruct (Text.is_code 32 c) eqn:E; [|reflexivity].
    unfold Text.is_space in Hc. unfold Text.is_code in E.
    apply N.eqb_eq in E. unfold Text.in_range in Hc. rewrite E in Hc.
    discriminate. }
  rewrite H32, Hc. simpl.
  destruct w as [|d w']; [exact Hrest|]. apply IH. discriminate.
Qed.

Lemma words_spec (l : list ascii) :
  forall cur,
    Forall (fun c => Text.is_space c = false) cur ->
    Forall (fun w => w <> [] /\ Forall (fun c => Text.is_space c = false) w)
           (words cur l).
Proof.
  induction l as [|c t IH]; intros cur Hcur; simpl.
  - destruct cur as [|x cur']; simpl; [constructor|].
    constructor; [|constructor]. split.
    + intros E. apply (f_equal (@length ascii)) in E.
      rewrite length_app in E. simpl in E. lia.
    + apply Forall_app. split; [|now constructor; [inversion Hcur|]].
      apply Forall_rev. now inversion Hcur.
  - destruct (Text.is_space c) eqn:Ec.
    + destruct cur as [|x cur']; simpl; [apply IH; constructor|].
      constructor; [|apply IH; constructor]. split.
      * intros E. apply (f_equal (@length ascii)) in E.
        rewrite length_app in E. simpl in E. lia.
      * apply Forall_app. split; [|now constructor; [inversion Hcur|]].
        apply Forall_rev. now inversion Hcur.
    + apply IH. now constructor.
Qed.

Lemma chars_append (a b : string) :
  Text.chars (a ++ b) = Text.chars a ++ Text.chars b.
Proof.
  unfold Text.chars. induction a as [|c a IH]; simpl; [reflexivity|].
  now rewrite IH.
Qed.

Lemma chars_substring (n : nat) (s : string) :
  Text.chars (substring 0 n s) = firstn n (Text.chars s).
Proof.
  unfold Text.chars. revert s. induction n as [|n IH]; intros s.
  - destruct s; reflexivity.
  - destruct s as [|c s]; simpl; [reflexivity|]. now rewrite IH.
Qed.

Lemma joined_words_spaced (ws : list (list ascii)) :
  Forall (fun w => w <> [] /\ Forall (fun c => Text.is_space c = false) w) ws ->
  forall after_space,
    single_spaced after_space
      (Text.chars (String.concat " " (map Text.str ws))) = true.
Proof.
  induction 1 as [|w ws [Hne Hw] Hws IH]; intros a; [reflexivity|].
  simpl. destruct ws as [|w' ws'].
  - simpl. rewrite chars_str. rewrite <- (app_nil_r w).
    now apply single_spaced_word.
  - change (map Text.str (w' :: ws')) with (Text.str w' :: map Text.str ws').
    cbv iota. rewrite !chars_append, chars_str.
    apply single_spaced_word; [assumption..|].
    change (Text.chars " ") with [" "%char]. simpl. apply IH.
Qed.


Lemma length_chars (s : string) : length (Text.chars s) = String.length s.
Proof.
  unfold Text.chars. induction s as [|c s IH]; simpl; [reflexivity|].
  now rewrite IH.
Qed.

Lemma clean_product_name_spec (product_name : string) :
  String.length (clean_product_name product_name) <= 80
  /\ single_spaced true (Text.chars (clean_product_name product_name)) = true.
Proof.
  unfold clean_product_name.
  destruct (String.eqb product_name "") eqn:E.
  - apply String.eqb_eq in E. subst. split; [simpl; lia|reflexivity].
  - split.
    + rewrite <- length_chars, chars_substring, length_firstn. lia.
    + rewrite chars_substring. apply single_spaced_firstn.
      unfold split. apply joined_words_spaced. apply words_spec. constructor.
Qed.

Lemma last_app_right {A : Type} (a b : list A) (d : A) :
  b <> [] -> last (a ++ b) d = last b d.
Proof.
  intros Hb. induction a as [|x a IH]; [reflexivity|].
  simpl. rewrite IH. destruct (a ++ b) eqn:E; [|reflexivity].
  apply app_eq_nil in E as [_ E]. congruence.
Qed.

Lemma last_of_word (w : list ascii) (d : ascii) :
  w <> [] -> Forall (fun c => Text.is_space c = false) w ->
  Text.is_space (last w d) = false.
Proof.
  intros Hne Hw. rewrite Forall_forall in Hw. apply Hw.
  destruct (exists_last Hne) as (w' & c & ->).
  rewrite last_last. apply in_or_app. right. now left.
Qed.

(** The joined words do not end in white space. *)
Lemma joined_words_last (ws : list (list ascii)) :
  Forall (fun w => w <> [] /\ Forall (fun c => Text.is_space c = false) w) ws ->
  Text.is_space
    (last (Text.chars (String.concat " " (map Text.str ws))) "x"%char) = false.
Proof.
  induction 1 as [|w ws [Hne Hw] Hws IH]; [reflexivity|].
  simpl. destruct ws as [|w' ws'].
  - simpl. rewrite chars_str. now apply last_of_word.
  - change (map Text.str (w' :: ws')) with (Text.str w' :: map Text.str ws').
    cbv iota. rewrite !chars_append, chars_str.
    set (rest := String.concat " " (Text.str w' :: map Text.str ws')) in *.
    change (Text.chars (String " " rest)) with ([" "%char] ++ Text.chars rest).
    assert (Hrest : Text.chars rest <> []).
    { inversion Hws as [|? ? [Hne' _] _]; subst.
      unfold rest. simpl. destruct (map Text.str ws').
      - rewrite chars_str. assumption.
      - rewrite chars_append, chars_str. intros E.
        apply app_eq_nil in E as [E _]. contradiction. }
    rewrite last_app_right
      by (intros E; apply app_eq_nil in E as [E _]; discriminate).
    rewrite last_app_right by assumption.
    apply IH.
Qed.

Lemma clean_product_name_end (product_name : string) :
  Text.is_space (last (Text.chars (clean_product_name product_name)) "x"%char)
  = true ->
  String.length (clean_product_name product_name) = 80
  /\ 80 < String.length (String.concat " " (split product_name)).
Proof.
  unfold clean_product_name.
  destruct (String.eqb product_name "") eqn:E.
  - apply String.eqb_eq in E. subst. simpl. discriminate.
  - set (joined := String.concat " " (split product_name)).
    assert (J : Text.is_space (last (Text.chars joined) "x"%char) = false).
    { unfold joined, split. apply joined_words_last. apply words_spec.
      constructor. }
    rewrite <- !length_chars, chars_substring.
    destruct (Nat.leb (length (Text.chars joined)) 80) eqn:L.
    + apply Nat.leb_le in L. rewrite firstn_all2 by assumption. congruence.
    + apply Nat.leb_gt in L. intros _. rewrite length_firstn. lia.
Qed.

(* ================================================================= *)
(** ** The score and the case of the letters *)

Lemma lower_empty (s : string) : Text.lower s = "" -> s = "".
Proof.
  destruct s as [|c s]; [reflexivity|]. unfold Text.lower, Text.str, Text.chars.
  simpl. discriminate.
Qed.

Lemma normalize_lower (s s' : string) :
  Text.lower s = Text.lower s' ->
  normalize_product_name s = normalize_product_name s'
  /\ String.eqb s "" = String.eqb s' "".
Proof.
  intros E.
  assert (Hem : String.eqb s "" = String.eqb s' "").
  { destruct (String.eqb s "") eqn:Es, (String.eqb s' "") eqn:Es'; try reflexivity.
    - apply String.eqb_eq in Es. subst s. symmetry in E.
      apply lower_empty in E. subst s'. discriminate.
    - apply String.eqb_eq in Es'. subst s'.
      apply lower_empty in E. subst s. discriminate. }
  split; [|assumption].
  unfold normalize_product_name. now rewrite Hem, E.
Qed.

Lemma match_score_lower `{SetOrder} (s s' t t' : string) :
  Text.lower s = Text.lower s' -> Text.lower t = Text.lower t' ->
  calculate_product_match_score s t = calculate_product_match_score s' t'.
Proof.
  intros Es Et.
  destruct (normalize_lower s s' Es) as [Ns Zs].
  destruct (normalize_lower t t' Et) as [Nt Zt].
  unfold calculate_product_match_score. now rewrite Ns, Nt, Zs, Zt.
Qed.

Lemma jaccard_same (a : list string) : a <> [] -> jaccard a a = 1%Qc.
Proof.
  intros Ha. unfold jaccard.
  assert (El : length (set_inter a a) = length (set_union a a)).
  { apply Permutation_length. apply NoDup_Permutation.
    - unfold set_inter. apply NoDup_filter, NoDup_nodup.
    - unfold set_union. apply NoDup_nodup.
    - intros x. unfold set_inter, set_union.
      rewrite filter_In, !nodup_In, in_app_iff, in_list_In. tauto. }
  rewrite El. apply Qcmult_inv_r.
  pose proof (set_union_nonempty a a Ha) as Hpos.
  intros E.
  assert (Hq : (inject_Z (Z.of_nat (length (set_union a a))) == 0)%Q).
  { rewrite <- (Qred_correct (inject_Z _)).
    change (this (Qc_of_nat (length (set_union a a))) == this 0%Qc)%Q.
    now rewrite E. }
  unfold Qeq in Hq. simpl in Hq. lia.
Qed.

Lemma match_score_same `{SetOrder} (name : string) :
  normalize_product_name name <> [] ->
  calculate_product_match_score name name = 1%Qc.
Proof.
  intros Hk.
  assert (Hn : name <> "") by (intros ->; now apply Hk).
  rewrite (match_score_keywords name name Hn Hn Hk). cbv zeta.
  rewrite bonus_applies_all by auto.
  rewrite (jaccard_same _ Hk). reflexivity.
Qed.

(* ================================================================= *)
(** ** Further properties: scorer and text prices *)

(** X1.  [calculate_product_match_score] does not see the case of the
    letters: two queries with the same lower-case form, against two titles
    with the same lower-case form, get the same score. *)
Theorem match_score_ignores_case `{SetOrder} (s s' t t' : string) :
  Text.lower s = Text.lower s' -> Text.lower t = Text.lower t' ->
  calculate_product_match_score s t = calculate_product_match_score s' t'.
Proof. apply match_score_lower. Qed.

(** The theorem at a name in capitals. *)
Lemma match_score_ignores_case_witness :
  @calculate_product_match_score first_occurrence_order
     "ELECTROLIT Coco" "Suero Electrolit COCO 625 ml"
  = @calculate_product_match_score first_occurrence_order
      "electrolit coco" "suero electrolit coco 625 ml".
Proof.
  apply (@match_score_ignores_case first_occurrence_order); reflexivity.
Defined.

(** X2.  A name that has a keyword scores 1 against itself, and against
    any name that differs from it only in the case of its letters. *)
Theorem match_score_of_same_name `{SetOrder} (name other : string) :
  normalize_product_name name <> [] ->
  Text.lower other = Text.lower name ->
  calculate_product_match_score name other = 1%Qc
  /\ calculate_product_match_score other name = 1%Qc.
Proof.
  intros Hk El. split.
  - rewrite (match_score_lower name name other name eq_refl El).
    now apply match_score_same.
  - rewrite (match_score_lower other name name name El eq_refl).
    now apply match_score_same.
Qed.

(** The theorem at the name of a drink. *)
Lemma match_score_of_same_name_witness :
  @calculate_product_match_score first_occurrence_order
     "Electrolit Coco 625 ml" "ELECTROLIT COCO 625 ML" = 1%Qc
  /\ @calculate_product_match_score first_occurrence_order
       "ELECTROLIT COCO 625 ML" "Electrolit Coco 625 ml" = 1%Qc.
Proof.
  apply (@match_score_of_same_name first_occurrence_order).
  - vm_compute. discriminate.
  - reflexivity.
Defined.

(** X3.  A price [extract_price_from_text] returns lies between 1 and
    100000 and is spelled in the text: the text has a numeral in it whose
    value, once its commas are removed, is the price.  A comma is always a
    thousands separator, never a decimal mark. *)
Theorem extract_price_from_text_spelled (text : string) (price : Qc) :
  extract_price_from_text text = Some price ->
  within_range (Qc_of_Z 1) (Qc_of_Z 100000) price
  /\ exists numeral,
       occurs_in (Text.chars numeral) (Text.chars text)
       /\ Num.float_of_str (Text.replace "," "" numeral) = Ok price.
Proof.
  unfold extract_price_from_text.
  destruct (String.eqb text ""); [discriminate|]. intros H.
  apply first_price_found in H as (pattern & anchored & group1 & _ & Hs & Hf & Hr).
  split; [assumption|]. exists group1. split; [|assumption].
  eapply occurs_in_trans; [exact (search_price_occurs _ _ _ _ Hs)|].
  apply strip_occurs.
Qed.

(** The theorem at the example of the docstring of the source, where the
    comma of 25,90 is read as a thousands separator. *)
Lemma extract_price_from_text_spelled_witness :
  extract_price_from_text "25,90 pesos" = Some (Qc_of_Z 2590)
  /\ within_range (Qc_of_Z 1) (Qc_of_Z 100000) (Qc_of_Z 2590)
  /\ exists numeral,
       occurs_in (Text.chars numeral) (Text.chars "25,90 pesos")
       /\ Num.float_of_str (Text.replace "," "" numeral) = Ok (Qc_of_Z 2590).
Proof.
  split; [vm_compute; reflexivity|].
  apply (extract_price_from_text_spelled "25,90 pesos").
  vm_compute. reflexivity.
Defined.

(** The only pattern of [extract_price_for_store] whose text mentions
    sellingPrice is the first one of Chedraui. *)
Lemma patterns_for_store_minor (store_name : string)
    (pattern : Re.regex * bool) :
  In pattern (patterns_for_store store_name) -> snd pattern = true ->
  store_name = "Chedraui"%string
  /\ pattern = (Pat.json_digits "sellingPrice", true).
Proof.
  unfold patterns_for_store. intros Hin Hflag.
  apply in_app_or in Hin as [Hin|Hin].
  - destruct (dict_get store_name Pat.store_price_patterns) as [l|] eqn:E;
      [|destruct Hin].
    apply dict_get_In in E. unfold Pat.store_price_patterns in E.
    cbn [In] in E. cbn [field] in Hin.
    repeat (destruct E as [E|E];
            [injection E as <- <-; cbn [In] in Hin;
             repeat (destruct Hin as [<-|Hin];
                     [first [discriminate Hflag | now split]|]);
             destruct Hin|]).
    destruct E.
  - unfold Pat.generic_price_patterns in Hin. cbn [In] in Hin.
    repeat (destruct Hin as [<-|Hin]; [discriminate Hflag|]).
    destruct Hin.
Qed.

(** The candidates are the readings of the matches of the patterns. *)
Lemma candidates_iff (patterns : list (Re.regex * bool)) (content : string)
    (q : Qc) :
  In q (price_candidates patterns content) <->
  exists pattern found,
    In pattern patterns
    /\ In found (Re.findall1 true (fst pattern) content)
    /\ spelled_price (snd pattern) found = Some q.
Proof.
  split; [apply candidates_found|].
  intros (pattern & found & Hp & Hf & Hs).
  unfold price_candidates. apply in_flat_map. exists pattern.
  split; [assumption|]. apply in_flat_map. exists found.
  split; [assumption|]. rewrite Hs. now left.
Qed.

(** X4.  [extract_price_for_store] returns the least of the numbers that
    the patterns of the store and the generic patterns find in the content
    and that lie in the expected range; it returns nothing exactly when no
    such number lies in the range.  The numbers found are the floats of
    the numerals the patterns match in the content, commas removed; a
    float above 10000 matched by the sellingPrice pattern of Chedraui, the
    only pattern that mentions it, counts as its hundredth.  So a
    sellingPrice of 25900 is read as 259, one of 259 as 259, and a
    currentPrice of 25900 as 25900. *)
Theorem extract_price_for_store_least (content store_name : string)
    (min_price max_price : Qc) :
  match extract_price_for_store content store_name (min_price, max_price) with
  | Some p =>
      In p (price_candidates (patterns_for_store store_name) content)
      /\ within_range min_price max_price p
      /\ forall q,
           In q (price_candidates (patterns_for_store store_name) content) ->
           within_range min_price max_price q -> (p <= q)%Qc
  | None =>
      forall q,
        In q (price_candidates (patterns_for_store store_name) content) ->
        ~ within_range min_price max_price q
  end
  /\ (forall q,
        In q (price_candidates (patterns_for_store store_name) content) <->
        exists pattern numeral x,
          In pattern (patterns_for_store store_name)
          /\ In numeral (Re.findall1 true (fst pattern) content)
          /\ occurs_in (Text.chars numeral) (Text.chars content)
          /\ Num.float_of_str (Text.replace "," "" numeral) = Ok x
          /\ ((snd pattern = true /\ (Qc_of_Z 10000 < x)%Qc
               /\ q = (x / Qc_of_Z 100)%Qc)
              \/ ((snd pattern = false \/ (x <= Qc_of_Z 10000)%Qc) /\ q = x)))
  /\ (forall pattern,
        In pattern (patterns_for_store store_name) -> snd pattern = true ->
        store_name = "Chedraui"%string
        /\ pattern = (Pat.json_digits "sellingPrice", true))
  /\ option_map this
       (extract_price_for_store (page "{`sellingPrice`:25900}") "Chedraui"
          (Qc_of_Z 5, Qc_of_Z 50000)) = Some (259 # 1)%Q
  /\ option_map this
       (extract_price_for_store (page "{`sellingPrice`:259}") "Chedraui"
          (Qc_of_Z 5, Qc_of_Z 50000)) = Some (259 # 1)%Q
  /\ option_map this
       (extract_price_for_store (page "{`currentPrice`:25900}") "Chedraui"
          (Qc_of_Z 5, Qc_of_Z 50000)) = Some (25900 # 1)%Q.
Proof.
  split; [apply least_in_range|].
  split; [|split; [apply patterns_for_store_minor|]].
  - intros q. rewrite candidates_iff. split.
    + intros (pattern & found & Hp & Hf & Hs).
      unfold spelled_price in Hs.
      destruct (Num.float_of_str (Text.replace "," "" found)) as [x|] eqn:Ex;
        [|discriminate].
      exists pattern, found, x.
      split; [assumption|]. split; [assumption|].
      split; [now apply findall1_occurs in Hf|]. split; [exact Ex|].
      injection Hs as <-.
      destruct (snd pattern); cbn [andb]; [|right; split; [now left|reflexivity]].
      destruct (Qc_ltb (Qc_of_Z 10000) x) eqn:Et.
      * left. apply Qc_ltb_lt in Et. now split.
      * right. apply Qc_ltb_ge in Et. split; [now right|reflexivity].
    + intros (pattern & found & x & Hp & Hf & _ & Ex & Hq).
      exists pattern, found. split; [assumption|]. split; [assumption|].
      unfold spelled_price. rewrite Ex. f_equal.
      destruct Hq as [(Hflag & Hgt & ->)|[[Hflag|Hle] ->]].
      * rewrite Hflag. apply Qc_ltb_lt in Hgt. now rewrite Hgt.
      * now rewrite Hflag.
      * apply Qc_ltb_ge in Hle. rewrite Hle. now rewrite andb_false_r.
  - split; [vm_compute; reflexivity|].
    split; vm_compute; reflexivity.
Qed.

(** X5.  A text without a digit has no price: neither
    [extract_price_from_text], nor [extract_price_for_store] for any store
    and range, nor the patterns of [get_store_specific_patterns] for any
    store find one in it. *)
Theorem no_digit_no_price (content : string) :
  has_digit content = false ->
  extract_price_from_text content = None
  /\ (forall store_name expected_range,
        extract_price_for_store content store_name expected_range = None)
  /\ (forall store_key lo hi,
        found_prices (get_store_specific_patterns store_key) lo hi content = []).
Proof.
  intros Hno. split; [|split].
  - destruct (extract_price_from_text content) as [p|] eqn:E; [|reflexivity].
    exfalso.
    unfold extract_price_from_text in E.
    destruct (String.eqb content ""); [discriminate|].
    apply first_price_found in E as (pattern & anchored & g & _ & Hs & Hf & _).
    apply spelled_number_digit in Hf.
    apply search_price_occurs in Hs.
    pose proof (has_digit_occurs _ _ Hs Hf) as Hd.
    pose proof (has_digit_occurs _ _ (strip_occurs content) Hd) as Hd'.
    unfold has_digit in Hno. congruence.
  - intros store_name [lo hi]. unfold extract_price_for_store.
    rewrite found_prices_candidates.
    now rewrite (candidates_need_digit _ _ Hno).
  - intros store_key lo hi. rewrite found_prices_candidates.
    now rewrite (candidates_need_digit _ _ Hno).
Qed.

(** The theorem at the text of a product that is out of stock. *)
Lemma no_digit_no_price_witness :
  extract_price_from_text "Precio no disponible" = None
  /\ (forall store_name expected_range,
        extract_price_for_store "Precio no disponible" store_name
                                expected_range = None)
  /\ (forall store_key lo hi,
        found_prices (get_store_specific_patterns store_key) lo hi
                     "Precio no disponible" = []).
Proof.
  apply (no_digit_no_price "Precio no disponible"). reflexivity.
Defined.

(* ================================================================= *)
(** ** Further properties: the scrapers *)

(** X6.  The choice of [scrape_amazon_mexico] among the valid products: it
    is one of them; it is a multipack only when all of them are; no product
    of its kind has a higher score; and among those of its kind and score
    none is cheaper.  There is no choice only when there is no valid
    product. *)
Theorem best_match_choice (valid_products : list Scrape.offer)
    (b : Scrape.offer) :
  Scrape.best_match valid_products = Some b ->
  In b valid_products
  /\ (Scrape.is_pack b = true ->
      forall c, In c valid_products -> Scrape.is_pack c = true)
  /\ (forall c, In c valid_products ->
                Scrape.is_pack c = Scrape.is_pack b ->
                (Scrape.match_score c <= Scrape.match_score b)%Qc
                /\ (Scrape.match_score c = Scrape.match_score b ->
                    (Scrape.price b <= Scrape.price c)%Qc))
  /\ (Scrape.best_match [] = None).
Proof.
  intros E. pose proof (best_match_spec valid_products) as S.
  rewrite E in S. destruct S as (H1 & H2 & H3).
  split; [assumption|]. split; [assumption|]. split; [assumption|reflexivity].
Qed.

(** The theorem at a pack of high score, and two single products of equal
    score: the cheaper single product is chosen. *)
Lemma best_match_choice_witness :
  let pack := {| Scrape.store := "Amazon Mexico"; Scrape.price := Qc_of_Z 120;
                 Scrape.title := PStr "Electrolit 6 pack"; Scrape.url := PStr "";
                 Scrape.source_api := "oxylabs";
                 Scrape.match_score := 1%Qc;
                 Scrape.is_multipack := Some true |} in
  let dear := {| Scrape.store := "Amazon Mexico"; Scrape.price := Qc_of_Z 30;
                 Scrape.title := PStr "Electrolit"; Scrape.url := PStr "";
                 Scrape.source_api := "oxylabs";
                 Scrape.match_score := Q2Qc (1 # 2);
                 Scrape.is_multipack := Some false |} in
  let cheap := {| Scrape.store := "Amazon Mexico"; Scrape.price := Qc_of_Z 27;
                  Scrape.title := PStr "Electrolit"; Scrape.url := PStr "";
                  Scrape.source_api := "oxylabs";
                  Scrape.match_score := Q2Qc (1 # 2);
                  Scrape.is_multipack := Some false |} in
  Scrape.best_match [pack; dear; cheap] = Some cheap
  /\ In cheap [pack; dear; cheap]
  /\ (Scrape.is_pack cheap = true ->
      forall c, In c [pack; dear; cheap] -> Scrape.is_pack c = true)
  /\ (forall c, In c [pack; dear; cheap] ->
                Scrape.is_pack c = Scrape.is_pack cheap ->
                (Scrape.match_score c <= Scrape.match_score cheap)%Qc
                /\ (Scrape.match_score c = Scrape.match_score cheap ->
                    (Scrape.price cheap <= Scrape.price c)%Qc))
  /\ (Scrape.best_match [] = None).
Proof.
  intros pack dear cheap.
  split; [vm_compute; reflexivity|].
  apply (best_match_choice [pack; dear; cheap] cheap).
  vm_compute. reflexivity.
Defined.

Section ScraperTheorems.
Context `{SetOrder}.
Variable quote : string -> string.
Variable repr : pyval -> string.

(** X7.  Every offer [scrape_amazon_mexico] returns is an offer of Amazon
    Mexico priced from 10 to 5000 whose title reaches the score asked for,
    and it returns at most one offer for each result of the response. *)
Theorem scrape_amazon_mexico_offers (query product_name : string)
    (min_match_score : Qc) (data_results : list pyval) (o : Scrape.offer) :
  In o (Scrape.scrape_amazon_mexico repr query product_name min_match_score
                                    data_results) ->
  amazon_offer min_match_score o
  /\ length (Scrape.scrape_amazon_mexico repr query product_name
                                         min_match_score data_results)
     <= length data_results.
Proof.
  intros Hin. split.
  - revert o Hin. apply Forall_forall. apply scrape_amazon_mexico_inv.
  - unfold Scrape.scrape_amazon_mexico.
    apply (fold_caught_length
             (Scrape.amazon_result repr query product_name min_match_score)).
    intros a x a' Hx. unfold Scrape.amazon_result in Hx.
    apply bind_Ok in Hx as (content & _ & Hx).
    apply bind_Ok in Hx as (products & _ & Hx).
    apply bind_Ok in Hx as (n & _ & Hx).
    apply bind_Ok in Hx as (first15 & _ & Hx).
    apply bind_Ok in Hx as (items & _ & Hx).
    apply bind_Ok in Hx as (valid_products & _ & Hx).
    destruct (Scrape.best_match valid_products); injection Hx as <-;
      [rewrite length_app; simpl; lia|lia].
Qed.

(** X8.  Every offer [scrape_store_universal] returns carries the name of
    the store in [MEXICAN_STORES] and its search page, and is made from one
    page of the response.  When the cascade extracts products from the page
    it is one of them, priced from 10 to 5000, whose title scores against
    the search term a positive score that reaches the score asked for.
    When the cascade extracts nothing it is the regex fallback: the least
    number from 15 to 100 among those the patterns of the store find in the
    page, at the score 0.5 under the query as its title.  For a store that
    is not in the table nothing is returned. *)
Theorem scrape_store_universal_offers (store_key query product_name : string)
    (min_match_score : Qc) (data_results : list pyval) (o : Scrape.offer) :
  In o (Scrape.scrape_store_universal quote store_key query product_name
                                      min_match_score data_results) ->
  exists store_config,
    dict_get store_key Scrape.MEXICAN_STORES = Some store_config
    /\ Scrape.store o = Scrape.name store_config
    /\ Scrape.url o
       = PStr (Text.replace "{query}" (quote query)
                            (Scrape.search_url store_config))
    /\ exists result html,
         In result data_results
         /\ py_get result "content" (PStr "") = Ok (PStr html)
         /\ ((exists extracted prod,
                Cascade.extract_products_from_html html = Ok extracted
                /\ In prod extracted
                /\ Scrape.price o = Cascade.price prod
                /\ py_slice 100 (Cascade.title prod) = Ok (Scrape.title o)
                /\ title_score (PStr (Scrape.str_or product_name query))
                               (Cascade.title prod)
                   = Ok (Scrape.match_score o)
                /\ within_range (Qc_of_Z 10) (Qc_of_Z 5000) (Scrape.price o)
                /\ (min_match_score <= Scrape.match_score o)%Qc
                /\ (0 < Scrape.match_score o)%Qc)
             \/ (Cascade.extract_products_from_html html = Ok []
                 /\ In (Scrape.price o)
                       (price_candidates
                          (get_store_specific_patterns store_key) html)
                 /\ within_range (Qc_of_Z 15) (Qc_of_Z 100) (Scrape.price o)
                 /\ (forall q,
                       In q (price_candidates
                               (get_store_specific_patterns store_key) html) ->
                       within_range (Qc_of_Z 15) (Qc_of_Z 100) q ->
                       (Scrape.price o <= q)%Qc)
                 /\ Scrape.match_score o = Q2Qc (1 # 2)
                 /\ Scrape.title o = PStr query)).
Proof.
  intros Hin.
  pose proof (scrape_store_universal_inv quote store_key query product_name
                min_match_score data_results) as S.
  destruct (dict_get store_key Scrape.MEXICAN_STORES) as [cfg|];
    [|rewrite S in Hin; destruct Hin].
  exists cfg. split; [reflexivity|].
  rewrite Forall_forall in S.
  destruct (S o Hin) as (result & html & Hres & Hc & _ & Hcase).
  destruct Hcase as [(extracted & Hx & _ & Ho)|(Hx & Ho)].
  - destruct Ho as (Hs & Hu & _ & _ & prod & Hp & Hprice & Ht & Hsc & Hpl
                    & Hmin & Hpos & _).
    split; [assumption|]. split; [assumption|].
    exists result, html. split; [assumption|]. split; [assumption|].
    left. exists extracted, prod.
    split; [assumption|]. split; [assumption|]. split; [assumption|].
    split; [assumption|]. split; [assumption|].
    split; [|split; assumption].
    unfold Cascade.plausible in Hpl. apply andb_true_iff in Hpl as [Hlo Hhi].
    apply Qc_leb_le in Hlo. apply Qc_leb_le in Hhi. now split.
  - destruct Ho as (Hs & Hu & _ & _ & Hc1 & Hr & Hleast & Hsc & Ht).
    split; [assumption|]. split; [assumption|].
    exists result, html. split; [assumption|]. split; [assumption|].
    right. split; [assumption|]. split; [assumption|]. split; [assumption|].
    split; [assumption|]. now split.
Qed.


(** X10.  An exception of the extraction cascade does not leave the
    scrapers, and it ends their work: when the cascade raises on the page
    of a result, [scrape_product_url] returns nothing if no earlier result
    gave an offer, without trying the patterns of the store on the page or
    reading the results after it, and [scrape_store_universal] returns
    what the earlier results gave. *)
Theorem scrapers_stop_at_exception (html : string) (e : exn)
    (before after : list pyval) :
  Nat.ltb 100 (String.length html) = true ->
  Cascade.extract_products_from_html html = Raise e ->
  (forall url_info product_name,
     Scrape.scrape_product_url url_info product_name before = None ->
     Scrape.scrape_product_url url_info product_name
       (before ++ page_result html :: after) = None)
  /\ (forall store_key query product_name min_match_score,
        Scrape.scrape_store_universal quote store_key query product_name
          min_match_score (before ++ page_result html :: after)
        = Scrape.scrape_store_universal quote store_key query product_name
            min_match_score before).
Proof.
  intros Hlen Hraise. split.
  - intros u product_name. unfold Scrape.scrape_product_url.
    induction before as [|r before IH]; simpl.
    + intros _. unfold Scrape.product_result at 1. simpl.
      rewrite Hlen, Hraise. reflexivity.
    + destruct (Scrape.product_result u product_name r) as [[o|]|]; simpl;
        auto.
  - intros store_key query product_name min_match_score.
    unfold Scrape.scrape_store_universal.
    destruct (dict_get store_key Scrape.MEXICAN_STORES) as [cfg|];
      [|reflexivity].
    generalize (@nil Scrape.offer).
    induction before as [|r before IH]; intros acc; simpl.
    + unfold Scrape.universal_result at 1. simpl.
      rewrite Hlen, Hraise. reflexivity.
    + destruct (Scrape.universal_result _ _ _ _ _ _ acc r); [apply IH|].
      reflexivity.
Qed.

(** X23.  The last filter of [search_prices_direct] removes nothing: every
    offer that [scrape_amazon_mexico] and [scrape_store_universal] return
    when called as it calls them, with the score 0.3 asked for, has a score
    of 0.25 or more. *)
Theorem direct_results_keeps_all (all_results : list Scrape.offer) :
  Forall (fun o =>
            (exists query product_name data_results,
               In o (Scrape.scrape_amazon_mexico repr query product_name
                       (Q2Qc (3 # 10)) data_results))
            \/ (exists store_key query product_name data_results,
                  In o (Scrape.scrape_store_universal quote store_key query
                          product_name (Q2Qc (3 # 10)) data_results)))
         all_results ->
  direct_results all_results = all_results.
Proof.
  intros Hall. unfold direct_results.
  induction Hall as [|o os Ho _ IH]; simpl; [reflexivity|].
  assert (Hs : Qc_leb (Q2Qc (1 # 4)) (Scrape.match_score o) = true).
  { apply Qc_leb_le.
    destruct Ho as [(query & name & data & Hin)|(key & query & name & data & Hin)].
    - pose proof (scrape_amazon_mexico_inv repr query name (Q2Qc (3 # 10)) data)
        as F.
      rewrite Forall_forall in F.
      destruct (F o Hin) as (_ & _ & _ & _ & Hmin & _).
      eapply Qcle_trans; [|exact Hmin]. discriminate.
    - pose proof (scrape_store_universal_inv quote key query name
                    (Q2Qc (3 # 10)) data) as F.
      destruct (dict_get key Scrape.MEXICAN_STORES) as [cfg|];
        [|rewrite F in Hin; destruct Hin].
      rewrite Forall_forall in F.
      destruct (F o Hin) as (result & html & _ & _ & _ & Hcase).
      destruct Hcase as [(extracted & _ & _ & Ho)|(_ & Ho)].
      + destruct Ho as (_ & _ & _ & _ & prod & _ & _ & _ & _ & _ & Hmin & _).
        eapply Qcle_trans; [|exact Hmin]. discriminate.
      + destruct Ho as (_ & _ & _ & _ & _ & _ & _ & Es & _).
        rewrite Es. discriminate. }
  rewrite Hs. now rewrite IH.
Qed.

End ScraperTheorems.

(** The theorem at a response whose first product is a pack. *)
Lemma scrape_amazon_mexico_offers_witness :
  let response :=
    [PDict [("content",
             PDict [("results",
                     PDict [("organic",
                             PList [amazon_item "Electrolit Coco 6 pack" 120 "B01";
                                    amazon_item "Suero Electrolit Coco 625 ml" 27 "B02";
                                    amazon_item "Electrolit Coco" 30 "B03"])])])]] in
  let found :=
    @Scrape.scrape_amazon_mexico first_occurrence_order (fun _ => "")
       "electrolit coco" "Electrolit Coco" (Q2Qc (3 # 10)) response in
  exists o, found = [o]
    /\ Scrape.url o = PStr "https://www.amazon.com.mx/dp/B03"
    /\ amazon_offer (Q2Qc (3 # 10)) o
    /\ length found <= length response.
Proof.
  intros response found.
  eexists. split; [vm_compute; reflexivity|]. split; [reflexivity|].
  apply (@scrape_amazon_mexico_offers first_occurrence_order (fun _ => "")
           "electrolit coco" "Electrolit Coco" (Q2Qc (3 # 10)) response).
  vm_compute. left. reflexivity.
Defined.

(** The theorem at a page with two prices and no product: the offer is the
    lower price.  A page with one product in its markup gives the
    product. *)
Lemma scrape_store_universal_offers_witness :
  (exists o,
     @Scrape.scrape_store_universal first_occurrence_order (fun s => s)
        "walmart" "electrolit" "Electrolit Coco" (Q2Qc (3 # 10))
        [page_result two_prices_page] = [o]
     /\ this (Scrape.price o) = (49 # 2)%Q
     /\ exists store_config,
          dict_get "walmart" Scrape.MEXICAN_STORES = Some store_config
          /\ Scrape.store o = Scrape.name store_config
          /\ Scrape.url o
             = PStr (Text.replace "{query}" "electrolit"
                                  (Scrape.search_url store_config))
          /\ exists result html,
               In result [page_result two_prices_page]
               /\ py_get result "content" (PStr "") = Ok (PStr html)
               /\ ((exists extracted prod,
                      Cascade.extract_products_from_html html = Ok extracted
                      /\ In prod extracted
                      /\ Scrape.price o = Cascade.price prod
                      /\ py_slice 100 (Cascade.title prod) = Ok (Scrape.title o)
                      /\ @title_score first_occurrence_order
                           (PStr (Scrape.str_or "Electrolit Coco" "electrolit"))
                           (Cascade.title prod)
                         = Ok (Scrape.match_score o)
                      /\ within_range (Qc_of_Z 10) (Qc_of_Z 5000) (Scrape.price o)
                      /\ (Q2Qc (3 # 10) <= Scrape.match_score o)%Qc
                      /\ (0 < Scrape.match_score o)%Qc)
                   \/ (Cascade.extract_products_from_html html = Ok []
                       /\ In (Scrape.price o)
                             (price_candidates
                                (get_store_specific_patterns "walmart") html)
                       /\ within_range (Qc_of_Z 15) (Qc_of_Z 100) (Scrape.price o)
                       /\ (forall q,
                             In q (price_candidates
                                     (get_store_specific_patterns "walmart")
                                     html) ->
                             within_range (Qc_of_Z 15) (Qc_of_Z 100) q ->
                             (Scrape.price o <= q)%Qc)
                       /\ Scrape.match_score o = Q2Qc (1 # 2)
                       /\ Scrape.title o = PStr "electrolit")))
  /\ (exists o,
        @Scrape.scrape_store_universal first_occurrence_order (fun s => s)
           "walmart" "electrolit" "Electrolit Coco" (Q2Qc (3 # 10))
           [page_result markup_page] = [o]
        /\ Scrape.title o = PStr "Suero Electrolit Coco 625 ml"
        /\ this (Scrape.price o) = (49 # 2)%Q).
Proof.
  split.
  - eexists. split; [vm_compute; reflexivity|]. split; [reflexivity|].
    apply (@scrape_store_universal_offers first_occurrence_order (fun s => s)
             "walmart" "electrolit" "Electrolit Coco" (Q2Qc (3 # 10))
             [page_result two_prices_page]).
    vm_compute. left. reflexivity.
  - eexists. split; [vm_compute; reflexivity|]. split; reflexivity.
Defined.


(** The theorem at the page whose JSON-LD block names its items by their
    URL, followed by a page with a product. *)
Lemma scrapers_stop_at_exception_witness :
  @Scrape.scrape_product_url first_occurrence_order walmart_page
     "Electrolit Coco"
     ([] ++ page_result url_items_jsonld_page :: [page_result markup_page])
  = None
  /\ @Scrape.scrape_store_universal first_occurrence_order (fun s => s)
       "walmart" "electrolit" "Electrolit Coco" (Q2Qc (3 # 10))
       ([] ++ page_result url_items_jsonld_page :: [page_result markup_page])
     = [].
Proof.
  destruct (@scrapers_stop_at_exception first_occurrence_order (fun s => s)
              url_items_jsonld_page AttributeError []
              [page_result markup_page])
    as [Hurl Huniversal]; [vm_compute; reflexivity..|].
  split.
  - apply Hurl. reflexivity.
  - rewrite Huniversal. reflexivity.
Defined.

(** The theorem at the offer of a page with one product in its markup. *)
Lemma direct_results_keeps_all_witness :
  let found :=
    @Scrape.scrape_store_universal first_occurrence_order (fun s => s)
       "walmart" "electrolit" "Electrolit Coco" (Q2Qc (3 # 10))
       [page_result markup_page] in
  length found = 1 /\ direct_results found = found.
Proof.
  intros found. split; [vm_compute; reflexivity|].
  apply (@direct_results_keeps_all first_occurrence_order (fun s => s)
           (fun _ => "") found).
  apply Forall_forall. intros o Ho. right.
  exists "walmart", "electrolit", "Electrolit Coco", [page_result markup_page].
  exact Ho.
Defined.

(* ================================================================= *)
(** ** Further properties: the search *)

(** X11.  Whatever the answer of the search holds, every page
    [search_google_for_prices] returns has a domain of the allow-list in
    its lower-cased URL and carries the store name the table gives to that
    domain, which is a name the consolidator leaves unchanged; and no URL
    is returned twice. *)
Theorem search_google_for_prices_classified (data : option pyval) :
  NoDup (map Scrape.info_url (search_google_for_prices data))
  /\ Forall (fun u =>
               classified u
               /\ Scrape.info_store u
                  = identify_store_from_domain (Scrape.info_domain u)
               /\ store_key_of (Scrape.info_store u) = Scrape.info_store u)
            (search_google_for_prices data).
Proof.
  destruct (search_google_classified data) as [ND C].
  split; [assumption|].
  eapply Forall_impl; [|exact C].
  intros u (Hd & Hc & Ht). split; [now repeat split|].
  destruct (allow_list_named _ Hd) as [Hin _].
  split.
  - assert (E : dict_get (Scrape.info_domain u) domain_to_store
                = Some (Scrape.info_store u)).
    { apply dict_In_get; [|assumption].
      repeat constructor; simpl; intuition discriminate. }
    unfold identify_store_from_domain. now rewrite E.
  - exact (table_names_canonical _ _ Ht).
Qed.

(** X12.  The pages [search_prices_oxylabs] sends to the scrapers, those
    of the search by code followed by the new ones of the search by name,
    are classified pages with pairwise different URLs: no page is scraped
    twice. *)
Theorem google_urls_distinct (product_name upc : string)
    (upc_data name_data : option pyval) :
  NoDup (map Scrape.info_url (google_urls product_name upc upc_data name_data))
  /\ Forall classified (google_urls product_name upc upc_data name_data).
Proof. apply google_urls_classified. Qed.

(** X13.  Among classified pages, a priority store is scraped directly
    exactly when no page carries its name. *)
Theorem direct_stores_spec (urls : list Scrape.url_info) (store_key : string) :
  Forall classified urls ->
  (In store_key (direct_stores urls) <->
   In store_key priority_stores
   /\ forall store_config,
        dict_get store_key Scrape.MEXICAN_STORES = Some store_config ->
        forall u, In u urls ->
                  Scrape.info_store u <> Scrape.name store_config).
Proof.
  intros Hc.
  assert (Hmatch : In store_key priority_stores ->
            forall u, In u urls ->
            forall cfg, dict_get store_key Scrape.MEXICAN_STORES = Some cfg ->
            (Text.contains (Text.lower (Scrape.name cfg))
                           (Text.lower (Scrape.info_store u)) = true
             <-> Scrape.info_store u = Scrape.name cfg)).
  { intros Hk u Hu cfg Hcfg. rewrite Forall_forall in Hc.
    destruct (Hc u Hu) as (_ & _ & Ht). revert Ht.
    generalize (Scrape.info_domain u) (Scrape.info_store u).
    intros d s Ht. simpl in Hk.
    destruct Hk as [<-|[<-|[<-|[<-|[]]]]]; injection Hcfg as <-;
      simpl in Ht;
      repeat (destruct Ht as [[= <- <-]|Ht];
              [vm_compute; split; [discriminate || reflexivity
                                  |discriminate || reflexivity]|]);
      destruct Ht. }
  unfold direct_stores. rewrite filter_In, negb_true_iff.
  split; intros [Hk Hd]; (split; [assumption|]).
  - intros cfg Hcfg u Hu Es.
    assert (existsb (Text.contains
              match dict_get store_key Scrape.MEXICAN_STORES with
              | Some store_config => Text.lower (Scrape.name store_config)
              | None => ""
              end)
              (map (fun u => Text.lower (Scrape.info_store u)) urls) = true).
    { apply existsb_exists. exists (Text.lower (Scrape.info_store u)).
      split; [exact (in_map (fun u => Text.lower (Scrape.info_store u))
                            urls u Hu)|].
      rewrite Hcfg.
      now apply (Hmatch Hk u Hu cfg). }
    congruence.
  - destruct (existsb _ _) eqn:Eex; [|reflexivity]. exfalso.
    apply existsb_exists in Eex as (s & Hs & Hcont).
    apply in_map_iff in Hs as (u & <- & Hu).
    destruct (dict_get store_key Scrape.MEXICAN_STORES) as [cfg|] eqn:Ecfg.
    + apply (Hd cfg eq_refl u Hu). now apply (Hmatch Hk u Hu cfg).
    + simpl in Hk. destruct Hk as [<-|[<-|[<-|[<-|[]]]]]; discriminate.
Qed.


(** The theorem at one page of Walmart: Walmart is not scraped directly,
    the other three priority stores are. *)
Lemma direct_stores_spec_witness :
  direct_stores [walmart_page] = ["chedraui"; "heb"; "fguadalajara"]
  /\ (In "heb" (direct_stores [walmart_page]) <->
      In "heb" priority_stores
      /\ forall store_config,
           dict_get "heb" Scrape.MEXICAN_STORES = Some store_config ->
           forall u, In u [walmart_page] ->
                     Scrape.info_store u <> Scrape.name store_config).
Proof.
  split; [vm_compute; reflexivity|].
  apply (direct_stores_spec [walmart_page] "heb").
  constructor; [|constructor].
  unfold classified. vm_compute. intuition.
Defined.

(** X14.  The name [search_prices_oxylabs] searches for has at most 80
    characters, no white space but the space, no space at its start and no
    two spaces in a row.  It ends in a space only when it is cut: it then
    has 80 characters and the joined words have more.  A name of 79
    letters, a space and three letters is cut behind the space. *)
Theorem clean_product_name_tidy (product_name : string) :
  String.length (clean_product_name product_name) <= 80
  /\ single_spaced true (Text.chars (clean_product_name product_name)) = true
  /\ (Text.is_space
        (last (Text.chars (clean_product_name product_name)) "x"%char) = true ->
      String.length (clean_product_name product_name) = 80
      /\ 80 < String.length (String.concat " " (split product_name)))
  /\ clean_product_name
       (Text.str (repeat "a"%char 79 ++ Text.chars " bcd"))
     = Text.str (repeat "a"%char 79 ++ [" "%char]).
Proof.
  split; [apply clean_product_name_spec|].
  split; [apply clean_product_name_spec|].
  split; [apply clean_product_name_end|].
  vm_compute. reflexivity.
Qed.

(** What the last loop returns. *)
Lemma validated_results_kept (all_results : list Scrape.offer) :
  NoDup (map Scrape.store (validated_results all_results))
  /\ (forall r, In r (validated_results all_results) ->
                best_scored all_results (Scrape.store r) r)
  /\ (forall r', In r' all_results -> in_final_range r' = true ->
        exists r, In r (validated_results all_results)
                  /\ Scrape.store r = Scrape.store r').
Proof.
  split; [|split].
  - rewrite validated_results_stores. apply validate_NoDup.
  - intros r Hr. now apply validated_results_In in Hr.
  - intros r' Hin Hr.
    pose proof (validate_spec all_results (Scrape.store r')) as S.
    destruct (dict_get (Scrape.store r') (fold_left validate_step all_results []))
      as [r|] eqn:E; simpl in S.
    + exists r. destruct S as (_ & Hk & _). split; [|assumption].
      apply validated_results_In. rewrite Hk. split; [|assumption].
      pose proof (validate_spec all_results (Scrape.store r')) as S'.
      now rewrite E in S'.
    + rewrite (S r' Hin eq_refl) in Hr. discriminate.
Qed.

(** X15.  The last loop of [search_prices_oxylabs] returns one offer for
    each store that has an offer priced from 5 to 500, and no other: the
    stores of the result are pairwise different; each returned offer is one
    of the collected offers, priced from 5 to 500, and no collected offer of
    its store in that range has a higher score. *)
Theorem validated_results_best_per_store (all_results : list Scrape.offer) :
  NoDup (map Scrape.store (validated_results all_results))
  /\ (forall r, In r (validated_results all_results) ->
                best_scored all_results (Scrape.store r) r)
  /\ (forall r', In r' all_results -> in_final_range r' = true ->
        exists r, In r (validated_results all_results)
                  /\ Scrape.store r = Scrape.store r').
Proof. apply validated_results_kept. Qed.

(** X16.  The order in which the scrapers finish does not change which
    stores the search returns, nor the score of the offer of each store. *)
Theorem validated_results_any_order (all_results all_results' : list Scrape.offer)
    (r : Scrape.offer) :
  Permutation all_results all_results' ->
  In r (validated_results all_results) ->
  exists r', In r' (validated_results all_results')
             /\ Scrape.store r' = Scrape.store r
             /\ Scrape.match_score r' = Scrape.match_score r.
Proof.
  intros P Hr.
  destruct (validated_results_kept all_results) as (_ & Hbest & _).
  destruct (validated_results_kept all_results') as (_ & Hbest' & Hcov').
  destruct (Hbest r Hr) as (Hin & _ & Hrange & Hmax).
  destruct (Hcov' r (Permutation_in _ P Hin) Hrange) as (r' & Hr' & Hs).
  exists r'. split; [assumption|]. split; [assumption|].
  destruct (Hbest' r' Hr') as (Hin' & _ & Hrange' & Hmax').
  apply Qcle_antisym.
  - apply Hmax; [|assumption..].
    exact (Permutation_in _ (Permutation_sym P) Hin').
  - apply Hmax'; [|congruence|assumption].
    exact (Permutation_in _ P Hin).
Qed.

(** The theorem at two offers of one store with one score: in either order
    the store and the score are the same, and the price is that of the
    offer that came first. *)
Lemma validated_results_any_order_witness :
  let first := scraped "Walmart Mexico" (Qc_of_Z 20) (Q2Qc (1 # 2)) in
  let second := scraped "Walmart Mexico" (Qc_of_Z 30) (Q2Qc (1 # 2)) in
  validated_results [first; second] = [first]
  /\ validated_results [second; first] = [second]
  /\ exists r', In r' (validated_results [second; first])
                /\ Scrape.store r' = Scrape.store first
                /\ Scrape.match_score r' = Scrape.match_score first.
Proof.
  intros first second.
  split; [vm_compute; reflexivity|]. split; [vm_compute; reflexivity|].
  apply (validated_results_any_order [first; second] [second; first] first).
  - apply perm_swap.
  - vm_compute. left. reflexivity.
Defined.

(* ================================================================= *)
(** ** Further properties: consolidation and response *)

(** X17.  [store_key_of] is idempotent: the name it gives to a store is a
    name it leaves as it is; and that name is one of the fourteen canonical
    names or the given name itself. *)
Theorem store_key_of_idempotent (store : string) :
  store_key_of (store_key_of store) = store_key_of store
  /\ (store_key_of store = store \/ In (store_key_of store) canonical_stores).
Proof.
  split; [apply store_key_of_canonical|apply store_key_of_cases].
Qed.

(** X18.  No store appears twice in a response of [api_price_check]: the
    stores of the report have pairwise different names, each a name
    [store_key_of] leaves as it is; and [lowest] is an entry of the list
    that no entry undercuts. *)
Theorem api_price_check_one_entry_per_store (info : product_info)
    (all_prices : list price_item) (now : string) :
  match payload (api_price_check info (Ok all_prices) now) with
  | Success report =>
      NoDup (map store (stores report))
      /\ Forall (fun e => store_key_of (store e) = store e) (stores report)
      /\ match lowest report with
         | Some cheapest =>
             In cheapest (stores report)
             /\ Forall (fun e => (price cheapest <= price e)%Qc)
                       (stores report)
         | None => stores report = []
         end
  | Failure _ => False
  end.
Proof.
  simpl.
  pose proof (sorted_by_price_perm (dict_values (consolidate_prices all_prices)))
    as P.
  pose proof (sorted_by_price_sorted (dict_values (consolidate_prices all_prices)))
    as S.
  assert (Hst : forall k e, In (k, e) (consolidate_prices all_prices) ->
                            store e = k)
    by (intros k e Hin; now apply consolidate_prices_store in Hin).
  split; [|split].
  - apply (Permutation_NoDup (Permutation_map store P)).
    rewrite (dict_values_keys store _ Hst). apply consolidate_prices_NoDup.
  - apply Forall_forall. intros e He.
    apply (Permutation_in _ (Permutation_sym P)) in He.
    unfold dict_values in He. apply in_map_iff in He as ([k e'] & <- & Hin).
    simpl. destruct (consolidate_prices_store _ _ _ Hin) as (Hk & Hc & _).
    now rewrite Hk.
  - destruct (sorted_by_price _) as [|cheapest rest]; simpl; [reflexivity|].
    split; [now left|].
    constructor; [apply Qcle_refl|].
    apply Sorted_StronglySorted in S.
    + now inversion S.
    + intros a b c Hab Hbc. unfold price_le in *.
      eapply Qcle_trans; eassumption.
Qed.


Lemma offered_float (o : Scrape.offer) (it : price_item) (p : Qc) :
  offered o it -> offer_float it = Some p -> p = Scrape.price o.
Proof.
  intros (_ & Hp & _). unfold offer_float. rewrite Hp. simpl.
  destruct (negb (Qc_eqb (Scrape.price o) 0%Qc)); [|discriminate].
  now intros [= <-].
Qed.

(** X19.  From the scrapers to the response: when the offers
    [search_prices_oxylabs] returns after its last loop are what
    [api_price_check] consolidates, every store of the response has a
    price from 5 to 500 that is the price of a collected offer of that
    store, and none is marked as estimated. *)
Theorem price_check_response_range (info : product_info) (now : string)
    (all_results : list Scrape.offer) (all_prices : list price_item) :
  Forall2 offered (validated_results all_results) all_prices ->
  match payload (api_price_check info (Ok all_prices) now) with
  | Success report =>
      Forall (fun e =>
                within_range (Qc_of_Z 5) (Qc_of_Z 500) (price e)
                /\ estimated e = false
                /\ exists o, In o all_results
                             /\ store_key_of (Scrape.store o) = store e
                             /\ Scrape.price o = price e)
             (stores report)
  | Failure _ => False
  end.
Proof.
  intros Hoff. simpl. apply Forall_forall. intros e He.
  apply (Permutation_in _ (Permutation_sym (sorted_by_price_perm _))) in He.
  unfold dict_values in He. apply in_map_iff in He as ([k e'] & <- & Hin).
  simpl.
  destruct (consolidate_prices_store _ _ _ Hin)
    as (_ & _ & (it & p & Hit & Hk & Hf & ->) & _).
  assert (Ho : exists o, In o (validated_results all_results) /\ offered o it).
  { clear - Hoff Hit. induction Hoff as [|o it' os its Ho _ IH];
      [destruct Hit|].
    destruct Hit as [->|Hit]; [exists o; split; [now left|assumption]|].
    destruct (IH Hit) as (o' & Hin' & Ho'). exists o'. split; [now right|assumption]. }
  destruct Ho as (o & Ho & Hoit).
  pose proof (offered_float _ _ _ Hoit Hf) as ->.
  destruct (validated_results_kept all_results) as (_ & Hbest & _).
  destruct (Hbest o Ho) as (Hall & _ & Hr & _).
  destruct Hoit as (Hs & _ & Hest).
  split; [|split].
  - unfold in_final_range, Cascade.plausible in Hr.
    apply andb_true_iff in Hr as [Hlo Hhi].
    split; now apply Qc_leb_le.
  - simpl. unfold offer_estimated. now rewrite Hest.
  - exists o. split; [assumption|]. split; [|reflexivity].
    simpl. unfold offer_key. now rewrite Hs.
Qed.

(** The theorem at three collected offers: Walmart under two names at 20
    and at 25, which the consolidator merges at the lower price, and
    Soriana at 900, which the last loop drops. *)
Lemma price_check_response_range_witness :
  let all_results :=
    [ scraped "Walmart" (Qc_of_Z 20) (Q2Qc (1 # 2));
      scraped "Walmart Mexico" (Qc_of_Z 25) (Q2Qc (4 # 5));
      scraped "Soriana" (Qc_of_Z 900) 1%Qc ] in
  let all_prices :=
    [ {| item_store := Some "Walmart"; item_price := Some (PFloat (Qc_of_Z 20));
         item_estimated := None; item_url := Some "";
         item_source_api := Some "oxylabs" |};
      {| item_store := Some "Walmart Mexico";
         item_price := Some (PFloat (Qc_of_Z 25));
         item_estimated := None; item_url := Some "";
         item_source_api := Some "oxylabs" |} ] in
  match payload (api_price_check
                   {| product_name := Some "Electrolit"; brand := None;
                      upc := None |}
                   (Ok all_prices) "2024-01-01T00:00:00") with
  | Success report =>
      map store (stores report) = ["Walmart Mexico"]
      /\ Forall (fun e =>
                   within_range (Qc_of_Z 5) (Qc_of_Z 500) (price e)
                   /\ estimated e = false
                   /\ exists o, In o all_results
                                /\ store_key_of (Scrape.store o) = store e
                                /\ Scrape.price o = price e)
                (stores report)
  | Failure _ => False
  end.
Proof.
  intros all_results all_prices.
  pose proof (price_check_response_range
                {| product_name := Some "Electrolit"; brand := None;
                   upc := None |}
                "2024-01-01T00:00:00" all_results all_prices) as T.
  simpl in T |- *. split; [vm_compute; reflexivity|].
  apply T.
  repeat constructor.
Defined.

(* ================================================================= *)
(** ** Further properties: the extraction cascade *)

(** X20.  A list of products the cascade returns either comes from the
    JSON-LD strategy or from the [__NEXT_DATA__] strategy, which append the
    price they read as it is, or holds only prices from 5 to 50000. *)
Theorem extract_products_bounds (html : string)
    (products : list Cascade.product) :
  Cascade.extract_products_from_html html = Ok products ->
  (products <> []
   /\ Cascade.fold_res Cascade.jsonld_block []
        (Re.findall1 true Cascade.jsonld_pattern html) = Ok products)
  \/ (products <> [] /\ products = Cascade.next_products html)
  \/ all_plausible 5 50000 products.
Proof.
  unfold Cascade.extract_products_from_html.
  destruct (Cascade.fold_res Cascade.jsonld_block []
              (Re.findall1 true Cascade.jsonld_pattern html))
    as [found|]; simpl; [|discriminate].
  destruct found as [|p ps]; simpl.
  2:{ intros [= <-]. left. split; [discriminate|reflexivity]. }
  repeat match goal with
  | |- (if negb (is_nil ?x) then _ else _) = _ -> _ =>
      let E := fresh "E" in
      destruct (negb (is_nil x)) eqn:E;
      [intros H; injection H as <-;
       first [ right; right; apply state_products_plausible
             | right; right; apply paired_products_plausible
             | right; right; apply all_plausible_widen, paired_products_plausible
             | right; left; split; [|reflexivity];
               intros En; rewrite En in E; discriminate ]
      |]
  end.
  intros H. injection H as <-. right. right. apply html_products_plausible.
Qed.

(** The theorem at a page with one product in its markup. *)
Lemma extract_products_bounds_witness :
  exists p,
    Cascade.extract_products_from_html markup_page = Ok [p]
    /\ Cascade.title p = PStr "Suero Electrolit Coco 625 ml"
    /\ (([p] <> []
         /\ Cascade.fold_res Cascade.jsonld_block []
              (Re.findall1 true Cascade.jsonld_pattern markup_page) = Ok [p])
        \/ ([p] <> [] /\ [p] = Cascade.next_products markup_page)
        \/ all_plausible 5 50000 [p]).
Proof.
  eexists. split; [vm_compute; reflexivity|]. split; [reflexivity|].
  apply (extract_products_bounds markup_page).
  vm_compute. reflexivity.
Defined.

(** X21.  The cascade raises only inside its JSON-LD strategy: an exception
    that leaves [extract_products_from_html] is the one the loop over the
    JSON-LD blocks raised, and the page has such a block. *)
Theorem extract_products_raises_in_jsonld (html : string) (e : exn) :
  Cascade.extract_products_from_html html = Raise e ->
  Cascade.fold_res Cascade.jsonld_block []
    (Re.findall1 true Cascade.jsonld_pattern html) = Raise e
  /\ Re.findall1 true Cascade.jsonld_pattern html <> [].
Proof.
  unfold Cascade.extract_products_from_html.
  destruct (Re.findall1 true Cascade.jsonld_pattern html) as [|block blocks].
  - simpl.
    repeat match goal with
    | |- (if ?c then _ else _) = _ -> _ => destruct c; [discriminate|]
    end.
    discriminate.
  - destruct (Cascade.fold_res Cascade.jsonld_block [] (block :: blocks))
      as [found|e']; simpl.
    + repeat match goal with
      | |- (if ?c then _ else _) = _ -> _ => destruct c; [discriminate|]
      end.
      discriminate.
    + intros [= <-]. split; [reflexivity|discriminate].
Qed.

(** The theorem at the page whose JSON-LD block names its items by their
    URL. *)
Lemma extract_products_raises_in_jsonld_witness :
  Cascade.fold_res Cascade.jsonld_block []
    (Re.findall1 true Cascade.jsonld_pattern url_items_jsonld_page)
  = Raise AttributeError
  /\ Re.findall1 true Cascade.jsonld_pattern url_items_jsonld_page <> [].
Proof.
  apply (extract_products_raises_in_jsonld url_items_jsonld_page AttributeError).
  vm_compute. reflexivity.
Defined.

(* ================================================================= *)
(** ** Further properties: the text of the database query *)

Lemma quotes_paired_app (a b : list ascii) :
  quotes_paired a = true -> quotes_paired b = true ->
  quotes_paired (a ++ b) = true.
Proof.
  intros Ha Hb. remember (length a) as n eqn:En.
  assert (Hn : length a <= n) by lia. clear En.
  revert a Ha Hn. induction n as [|n IH]; intros a Ha Hn.
  - destruct a; [exact Hb|simpl in Hn; lia].
  - destruct a as [|c t]; [exact Hb|]. simpl in *.
    destruct (Text.is_code 39 c).
    + destruct t as [|d t']; [discriminate|]. simpl in *.
      apply andb_true_iff in Ha as [Hd Ht]. rewrite Hd. simpl.
      apply IH; [assumption|lia].
    + apply IH; [assumption|lia].
Qed.

Lemma quotes_paired_split (a b : list ascii) (c : ascii) :
  Text.is_code 39 c = false ->
  quotes_paired (a ++ c :: b) = true ->
  quotes_paired a = true /\ quotes_paired b = true.
Proof.
  intros Hc. remember (length a) as n eqn:En.
  assert (Hn : length a <= n) by lia. clear En.
  revert a Hn. induction n as [|n IH]; intros a Hn H.
  - destruct a; [|simpl in Hn; lia]. simpl in H. rewrite Hc in H. now split.
  - destruct a as [|x t]; simpl in *.
    + rewrite Hc in H. now split.
    + destruct (Text.is_code 39 x).
      * destruct t as [|d t']; simpl in *.
        -- rewrite Hc in H. discriminate.
        -- apply andb_true_iff in H as [Hd Ht]. rewrite Hd. simpl.
           apply IH; [lia|assumption].
      * apply IH; [lia|assumption].
Qed.

Lemma space_not_quote (c : ascii) :
  Text.is_space c = true -> Text.is_code 39 c = false.
Proof.
  intros Hs. destruct (Text.is_code 39 c) eqn:E; [|reflexivity].
  unfold Text.is_code in E. apply N.eqb_eq in E.
  unfold Text.is_space, Text.in_range, Text.is_code in Hs. rewrite E in Hs.
  discriminate.
Qed.

Lemma quotes_paired_lstrip (l : list ascii) :
  quotes_paired l = true -> quotes_paired (Text.lstrip l) = true.
Proof.
  induction l as [|c t IH]; simpl; [auto|].
  destruct (Text.is_space c) eqn:Es; [|auto].
  rewrite (space_not_quote c Es). exact IH.
Qed.

Lemma quotes_paired_rstrip (l : list ascii) :
  quotes_paired l = true ->
  quotes_paired (rev (Text.lstrip (rev l))) = true.
Proof.
  induction l as [|c t IH] using rev_ind; [auto|]. intros H.
  rewrite rev_app_distr. simpl.
  destruct (Text.is_space c) eqn:Es.
  - apply IH. apply (quotes_paired_split t [] c); [|assumption].
    now apply space_not_quote.
  - simpl. now rewrite rev_involutive.
Qed.

Lemma quotes_paired_replace (l : list ascii) :
  quotes_paired (Text.replace_chars ["'"%char] ["'"%char; "'"%char] l 0) = true.
Proof.
  induction l as [|c t IH]; [reflexivity|].
  cbn [Text.replace_chars Text.starts_with length Nat.sub].
  destruct (Ascii.eqb "'" c) eqn:E; cbn [andb].
  - exact IH.
  - cbn [quotes_paired].
    assert (Hc : Text.is_code 39 c = false).
    { destruct (Text.is_code 39 c) eqn:Ec; [|reflexivity].
      unfold Text.is_code, Text.code in Ec. apply N.eqb_eq in Ec.
      assert (c = "'"%char)
        by (rewrite <- (ascii_N_embedding c), Ec; reflexivity).
      subst c. discriminate. }
    now rewrite Hc.
Qed.

Lemma words_paired (l : list ascii) :
  forall cur,
    quotes_paired (rev cur ++ l) = true ->
    Forall (fun w => quotes_paired w = true) (words cur l).
Proof.
  induction l as [|c t IH]; intros cur H; simpl.
  - rewrite app_nil_r in H.
    destruct (is_nil cur); constructor; [assumption|constructor].
  - destruct (Text.is_space c) eqn:Es.
    + apply quotes_paired_split in H as [Ha Hb]; [|now apply space_not_quote].
      destruct (is_nil cur); [now apply IH|].
      constructor; [assumption|now apply IH].
    + apply IH. simpl. now rewrite <- app_assoc.
Qed.

Lemma firstn_incl {A : Type} (n : nat) (l : list A) (x : A) :
  In x (firstn n l) -> In x l.
Proof.
  revert l. induction n as [|n IH]; intros l; simpl; [intros []|].
  destruct l as [|y t]; simpl; [intros []|].
  intros [<-|H]; [now left|right; now apply IH].
Qed.

(** X22.  Every single quote of the text a user searches for is doubled
    before the text reaches the SQL string literals of
    [search_products_in_database]: in the cleaned query, and in each of its
    keywords, every quote stands in a pair of two quotes in a row, so none
    ends the literal it is written in. *)
Theorem clean_query_quotes_doubled (query : string) :
  quotes_paired (Text.chars (clean_query query)) = true
  /\ Forall (fun kw => quotes_paired (Text.chars kw) = true)
            (query_keywords (clean_query query)).
Proof.
  assert (Hc : quotes_paired (Text.chars (clean_query query)) = true).
  { unfold clean_query, Text.strip, Text.replace. rewrite !chars_str.
    apply quotes_paired_rstrip, quotes_paired_lstrip, quotes_paired_replace. }
  split; [assumption|].
  unfold query_keywords, split.
  apply Forall_forall. intros kw Hkw. apply filter_In in Hkw as [Hkw _].
  apply firstn_incl in Hkw. apply in_map_iff in Hkw as (w & <- & Hw).
  rewrite chars_str.
  pose proof (words_paired (Text.chars (clean_query query)) [] Hc) as F.
  rewrite Forall_forall in F. now apply F.
Qed.

(* ================================================================= *)
(** ** Further properties: how far the score is from symmetric *)

Lemma set_inter_comm_length (a b : list string) :
  length (set_inter a b) = length (set_inter b a).
Proof.
  apply Permutation_length. apply NoDup_Permutation.
  - unfold set_inter. apply NoDup_filter, NoDup_nodup.
  - unfold set_inter. apply NoDup_filter, NoDup_nodup.
  - intros x. unfold set_inter.
    rewrite !filter_In, !nodup_In, !in_list_In. tauto.
Qed.

Lemma set_union_comm_length (a b : list string) :
  length (set_union a b) = length (set_union b a).
Proof.
  apply Permutation_length. apply NoDup_Permutation.
  - unfold set_union. apply NoDup_nodup.
  - unfold set_union. apply NoDup_nodup.
  - intros x. unfold set_union. rewrite !nodup_In, !in_app_iff. tauto.
Qed.

Lemma jaccard_comm (a b : list string) : jaccard a b = jaccard b a.
Proof.
  unfold jaccard.
  now rewrite set_inter_comm_length, set_union_comm_length.
Qed.

Lemma ratio_below_one (i u : nat) :
  i < u -> (Qc_of_nat i / Qc_of_nat u < 1)%Qc.
Proof.
  intros Hlt.
  assert (Hu : (0 < inject_Z (Z.of_nat u))%Q).
  { change 0%Q with (inject_Z 0). rewrite <- Zlt_Qlt. lia. }
  assert (Hiu : (inject_Z (Z.of_nat i) < inject_Z (Z.of_nat u))%Q).
  { rewrite <- Zlt_Qlt. lia. }
  unfold Qclt, Qcdiv, Qcmult, Qcinv, Qc_of_nat, Q2Qc. cbn [this].
  rewrite !Qred_correct.
  change (inject_Z (Z.of_nat i) * / inject_Z (Z.of_nat u))%Q
    with (inject_Z (Z.of_nat i) / inject_Z (Z.of_nat u))%Q.
  apply Qlt_shift_div_r; [assumption|]. now rewrite Qmult_1_l.
Qed.

(** A keyword of one name only keeps the similarity below 1. *)
Lemma jaccard_below_one (a b : list string) (x : string) :
  In x b -> ~ In x a -> (jaccard a b < 1)%Qc.
Proof.
  intros Hb Ha. unfold jaccard. apply ratio_below_one.
  change (length (x :: set_inter a b) <= length (set_union a b)).
  apply NoDup_incl_length.
  - constructor; [|unfold set_inter; apply NoDup_filter, NoDup_nodup].
    unfold set_inter. rewrite filter_In, nodup_In. tauto.
  - intros y [<-|Hy]; unfold set_union; apply nodup_In, in_or_app.
    + now right.
    + unfold set_inter in Hy. apply filter_In in Hy as [Hy _].
      apply nodup_In in Hy. now left.
Qed.

Lemma bonus_raises (j : Qc) :
  (j < 1)%Qc -> (j < Qc_min 1 (j + Q2Qc (1 # 5)))%Qc.
Proof.
  intros H1. unfold Qc_min.
  destruct (Qc_ltb (j + Q2Qc (1 # 5)) 1); [|assumption].
  unfold Qclt, Qcplus, Q2Qc. cbn [this]. rewrite !Qred_correct.
  rewrite <- (Qplus_0_r (this j)) at 1.
  apply Qplus_lt_r. reflexivity.
Qed.

(** X24.  The score is not symmetric, and only the bonus makes it so: for
    two names that both have a keyword, the two directions give the same
    score when the bonus applies in both or in neither, and the direction
    in which alone it applies gives the higher score. *)
Theorem match_score_asymmetry_by_bonus `{SetOrder} (a b : string) :
  normalize_product_name a <> [] -> normalize_product_name b <> [] ->
  (bonus_applies (normalize_product_name a) (normalize_product_name b)
   = bonus_applies (normalize_product_name b) (normalize_product_name a) ->
   calculate_product_match_score a b = calculate_product_match_score b a)
  /\ (bonus_applies (normalize_product_name a) (normalize_product_name b)
      = true ->
      bonus_applies (normalize_product_name b) (normalize_product_name a)
      = false ->
      (calculate_product_match_score b a
       < calculate_product_match_score a b)%Qc).
Proof.
  intros Ha Hb.
  assert (Na : a <> "") by (intros ->; now apply Ha).
  assert (Nb : b <> "") by (intros ->; now apply Hb).
  rewrite (match_score_keywords a b Na Nb Ha).
  rewrite (match_score_keywords b a Nb Na Hb). cbv zeta.
  rewrite (jaccard_comm (normalize_product_name b) (normalize_product_name a)).
  split.
  - intros <-. reflexivity.
  - intros Eab Eba. rewrite Eab, Eba. apply bonus_raises.
    unfold bonus_applies in Eba.
    destruct (set_list (normalize_product_name b)) as [|first rest] eqn:Es.
    { apply set_list_nil in Es. contradiction. }
    simpl in Eba.
    apply (jaccard_below_one _ _ first).
    + assert (Hin : In first (set_list (normalize_product_name b)))
        by (rewrite Es; now left).
      apply (Permutation_in _ (set_list_perm _)) in Hin.
      now apply nodup_In in Hin.
    + intros Hin. apply in_list_In in Hin. congruence.
Qed.

(** The theorem at a brand and a longer name of its product, where the
    bonus applies in one direction, and at two orders of the same words,
    where it applies in both. *)
Lemma match_score_asymmetry_by_bonus_witness :
  (@calculate_product_match_score first_occurrence_order
      "suero electrolit coco" "electrolit"
   < @calculate_product_match_score first_occurrence_order
       "electrolit" "suero electrolit coco")%Qc
  /\ @calculate_product_match_score first_occurrence_order
       "electrolit coco" "coco electrolit"
     = @calculate_product_match_score first_occurrence_order
         "coco electrolit" "electrolit coco".
Proof.
  split.
  - apply (proj2 (@match_score_asymmetry_by_bonus first_occurrence_order
                    "electrolit" "suero electrolit coco"
                    ltac:(vm_compute; discriminate)
                    ltac:(vm_compute; discriminate)));
      vm_compute; reflexivity.
  - apply (proj1 (@match_score_asymmetry_by_bonus first_occurrence_order
                    "electrolit coco" "coco electrolit"
                    ltac:(vm_compute; discriminate)
                    ltac:(vm_compute; discriminate))).
    vm_compute. reflexivity.
Defined.
